(** * Workflow templates of atomate: dispersion and thermal conductivity

    A shallow embedding of

    - [atomate/vasp/workflows/base/dispersion.py]
    - [atomate/vasp/workflows/base/thermal_conductivity.py]
    - [atomate/vasp/fireworks/user.py]

    Python dictionaries are finite maps; the dictionaries that the
    assemblers update in place live in a store and are handled through
    references, so that sharing between the caller's input set and the
    derived ones is visible.  Exceptions are a result type threaded
    through a state-and-error monad. *)

From stdpp Require Import gmap strings list fin_maps relations pretty.

Set Warnings "-register-all".

Open Scope Z_scope.
Open Scope string_scope.
Open Scope list_scope.

(** ** Python values *)

(** The JSON-like values that settings mappings hold.  A float literal
    is kept as its decimal mantissa and exponent ([1E-08] is
    [PDec 1 (-8)]): the code only stores such constants, it never
    computes with them.  Mappings are not among these values: each
    module below says how it holds them. *)
Inductive pyval :=
| PNone
| PBool (b : bool)
| PInt (z : Z)
| PDec (m e : Z)
| PStr (s : string)
| PList (l : list pyval).

(** Python truthiness, as used by [if x:] and [x or y]. *)
Definition truthy (v : pyval) : bool :=
  match v with
  | PNone => false
  | PBool b => b
  | PInt z => negb (Z.eqb z 0)
  | PDec m _ => negb (Z.eqb m 0)
  | PStr s => negb (String.eqb s "")
  | PList l => match l with [] => false | _ => true end
  end.

(** ** Exceptions and results *)

Inductive exn :=
| ValueError (msg : string)
| AttributeError (msg : string)
| TypeError (msg : string)
| KeyError (key : string).

Inductive result (A : Type) :=
| Ok (a : A)
| Raise (e : exn).
Arguments Ok {A} a.
Arguments Raise {A} e.

Definition is_ok {A} (r : result A) : bool :=
  match r with Ok _ => true | Raise _ => false end.

(** The error monad of code that raises but keeps no state. *)
Definition result_bind {A B} (f : A → result B) (r : result A) : result B :=
  match r with
  | Ok a => f a
  | Raise e => Raise e
  end.

#[global] Instance result_mret : MRet result := @Ok.
#[global] Instance result_mbind : MBind result := @result_bind.

(** ** Operations of Python objects used by the code *)

(** Iteration over a value, as [for k in v] and [tuple(v)] perform it. *)
Definition py_iter (v : pyval) : result (list pyval) :=
  match v with
  | PList l => Ok l
  | PStr s => Ok ((λ c, PStr (String c EmptyString)) <$> String.list_ascii_of_string s)
  | _ => Raise (TypeError "object is not iterable")
  end.

(** [k in d.keys()] for a dictionary with string keys. *)
Definition py_in_keys (k : pyval) (d : gmap string pyval) : result bool :=
  match k with
  | PStr s => Ok (bool_decide (s ∈ dom d))
  | PList _ => Raise (TypeError "unhashable type")
  | _ => Ok false
  end.

(** [d.pop(k, default)]: the value and the dictionary without [k]. *)
Definition py_pop (k : string) (dflt : pyval) (d : gmap string pyval)
  : pyval * gmap string pyval :=
  (default dflt (d !! k), delete k d).

(** A pymatgen [Structure]: the code reads
    [structure.composition.reduced_formula] and hands the rest on. *)
Record Structure := {
  reduced_formula : string;
  sites : pyval   (* lattice and sites, as serialised *)
}.

Definition silicon : Structure :=
  {| reduced_formula := "Si"; sites := PList [] |}.

(** * [atomate/vasp/fireworks/user.py] *)
Module User.

(** An argument that may be a mapping: the keyword arguments of the
    input set are flat mappings ([user_kpoints_settings]) or plain
    values.  Nothing in this file shares them, they are held by value. *)
Inductive arg :=
| Lit (v : pyval)
| Dict (d : gmap string pyval).

Definition arg_truthy (a : arg) : bool :=
  match a with
  | Lit v => truthy v
  | Dict d => negb (bool_decide (d = ∅))
  end.

(** [x or y] *)
Definition arg_or (x y : arg) : arg := if arg_truthy x then x else y.

(** [for k in a]; a mapping yields its keys (in the order of
    [map_to_list]: the model's mappings record no insertion order). *)
Definition arg_iter (a : arg) : result (list pyval) :=
  match a with
  | Lit v => py_iter v
  | Dict d => Ok (PStr <$> (map_to_list d).*1)
  end.

(** [a.get(k)]: only mappings have the method. *)
Definition arg_get (a : arg) (k : string) : result pyval :=
  match a with
  | Dict d => Ok (default PNone (d !! k))
  | Lit _ => Raise (AttributeError "object has no attribute 'get'")
  end.

(** [a[k]] with a string key. *)
Definition arg_getitem (a : arg) (k : string) : result pyval :=
  match a with
  | Dict d =>
      match d !! k with
      | Some x => Ok x
      | None => Raise (KeyError k)
      end
  | Lit _ => Raise (TypeError "indices must be integers")
  end.

(** [MPRelaxSet.CONFIG], the settings table of pymatgen's relaxation
    set: the two categories the code reads. *)
Record config := {
  INCAR : gmap string pyval;
  KPOINTS : gmap string pyval
}.

(** What [Kpoints.gamma_automatic] and the base class's [kpoints]
    property return. *)
Inductive Kpoints :=
| gamma_automatic (kpts : list pyval)
| automatic_density (density : pyval)
| other_kpoints (comment : string).

(** Instances of [MPRelaxSetEx]. *)
Record MPRelaxSetEx := {
  structure : Structure;
  kwargs : gmap string arg;
  config_dict : config;
  rm_incar_settings : arg;
  user_kpoints_settings : arg;
  rm_config_dict : gmap string pyval   (* rm_config_dict["INCAR"] *)
}.

(** The loop of [__init__] (lines 23-26), on the pair of
    [config_dict["INCAR"]] and [rm_config_dict["INCAR"]]. *)
Fixpoint remove_incar (ks : list pyval) (incar rm : gmap string pyval)
  : result (gmap string pyval * gmap string pyval) :=
  match ks with
  | [] => Ok (incar, rm)
  | k :: ks' =>
      b ← py_in_keys k incar;
      if (b : bool) then
        match k with
        | PStr s =>
            let '(v, incar') := py_pop s PNone incar in
            remove_incar ks' incar' (<[s := v]> rm)
        | _ => remove_incar ks' incar rm
        end
      else remove_incar ks' incar rm
  end.

Section MPRelaxSetEx.

(** The table [MPRelaxSet.CONFIG] and the [kpoints] property of the
    base class [DictSet] belong to pymatgen. *)
Variable CONFIG : config.
Variable DictSet_kpoints : MPRelaxSetEx → Kpoints.

(** [MPRelaxSetEx.__init__].  [DictSet.__init__] stores a copy of
    the table as [config_dict] and keeps the keyword arguments. *)
Definition MPRelaxSetEx_init (structure : Structure)
    (rm_incar_settings user_kpoints_settings : arg)
    (kwargs : gmap string arg) : result MPRelaxSetEx :=
  let config_dict := CONFIG in
  ks ← arg_iter rm_incar_settings;
  '(incar, rm) ← remove_incar ks (INCAR config_dict) ∅;
  mret {| structure := structure;
          kwargs := kwargs;
          config_dict := {| INCAR := incar; KPOINTS := KPOINTS config_dict |};
          rm_incar_settings := rm_incar_settings;
          user_kpoints_settings := user_kpoints_settings;
          rm_config_dict := rm |}.

(** The property [MPRelaxSetEx.kpoints]. *)
Definition kpoints (self : MPRelaxSetEx) : result Kpoints :=
  let settings :=
    arg_or (user_kpoints_settings self) (Dict (KPOINTS (config_dict self))) in
  g ← arg_get settings "kpts";
  if truthy g then
    v ← arg_getitem settings "kpts";
    t ← py_iter v;
    mret (gamma_automatic t)
  else mret (DictSet_kpoints self).

End MPRelaxSetEx.

(** Input sets a [WriteVaspFromIOSet] task can carry: one handed in by
    the caller, or the [MPRelaxSetEx] built by default. *)
Inductive VaspInputSet :=
| caller_input_set (label : string)
| relax_set_ex (vis : MPRelaxSetEx).

(** The firetasks of [OptimizeStepFW], with their arguments. *)
Inductive task :=
| CopyVaspOutputs (calc_loc contcar_to_poscar : bool)
| WriteVaspRelaxFromStructure (params : gmap string arg)
| WriteVaspFromIOSet (structure : Structure) (vasp_input_set : VaspInputSet)
| RunVaspCustodian (vasp_cmd job_type : string)
    (max_force_threshold ediffg : pyval) (auto_npar : string)
| PassCalcLocs (name : string)
| VaspToDbTask (db_file : pyval) (additional_fields : gmap string pyval).

Record Firework := {
  fw_tasks : list task;
  fw_parents : option (list nat);
  fw_name : string;
  fw_kwargs : gmap string arg
}.

(** A call [f(a=.., b=.., **v)]: [v] must be a mapping, and none of
    its keys may repeat a keyword written out in the call. *)
Definition unpack_kwargs (written : list string) (v : option (gmap string arg))
  : result (gmap string arg) :=
  match v with
  | Some d =>
      if forallb (λ k, bool_decide (k ∉ dom d)) written then Ok d
      else Raise (TypeError "got multiple values for keyword argument")
  | None => Raise (TypeError "argument after ** must be a mapping, not NoneType")
  end.

Section OptimizeStepFW.

Variable CONFIG : config.

(** The call [MPRelaxSetEx(structure, force_gamma=True, **params)]
    of line 105: Python binds the two named parameters of
    [__init__] from [params] and hands the rest on. *)
Definition default_relax_set (structure : Structure)
    (params : option (gmap string arg)) : result MPRelaxSetEx :=
  d ← unpack_kwargs ["structure"; "force_gamma"] params;
  MPRelaxSetEx_init CONFIG structure
    (default (Lit (PList [])) (d !! "rm_incar_settings"))
    (default (Dict ∅) (d !! "user_kpoints_settings"))
    (<["force_gamma" := Lit (PBool true)]>
       (delete "rm_incar_settings" (delete "user_kpoints_settings" d))).

(** [OptimizeStepFW.__init__].  An input set object is true in a
    condition, [None] is false. *)
Definition OptimizeStepFW_init (structure : Structure) (step_index : Z)
    (name : string) (vasp_input_set : option VaspInputSet)
    (vasp_cmd : string)
    (override_default_vasp_params : option (gmap string arg))
    (ediffg : pyval) (job_type : string) (db_file : pyval)
    (parents : option (list nat)) (kwargs : gmap string arg)
  : result Firework :=
  let t : list task := [] in
  t ← (if negb (Z.eqb step_index 0) then
         let t := t ++ [CopyVaspOutputs true true] in
         d ← unpack_kwargs ["struct_dir"; "force_gamma"]
               override_default_vasp_params;
         mret (t ++ [WriteVaspRelaxFromStructure
                       (<["struct_dir" := Lit (PStr ".")]>
                          (<["force_gamma" := Lit (PBool true)]> d))])
       else
         vasp_input_set ←
           match vasp_input_set with
           | Some vis => mret vis
           | None =>
               vis ← default_relax_set structure override_default_vasp_params;
               mret (relax_set_ex vis)
           end;
         mret (t ++ [WriteVaspFromIOSet structure vasp_input_set]));
  let t := t ++ [RunVaspCustodian vasp_cmd job_type (PDec 25 (-2)) ediffg
                   ">>auto_npar<<"] in
  let t := t ++ [PassCalcLocs name] in
  let t := t ++ [VaspToDbTask db_file {["task_label" := PStr name]}] in
  mret {| fw_tasks := t;
          fw_parents := parents;
          fw_name := reduced_formula structure +:+ "-" +:+ name +:+ "-Step"
                       +:+ pretty (1 + step_index);
          fw_kwargs := kwargs |}.

End OptimizeStepFW.

(** ** [WriteVaspRelaxFromStructure.run_task] *)

(** [os.path.join(a, b)] of [posixpath], for a relative [b]. *)
Definition path_join (a b : string) : string :=
  if String.eqb a "" then b
  else if String.eqb (String.substring (String.length a - 1)%nat 1 a) "/"
       then a +:+ b
       else a +:+ "/" +:+ b.

Section run_task.

Variable CONFIG : config.

(** [Structure.from_file]: what the file system holds under a path. *)
Variable from_file : string → result Structure.

(** [run_task] on the parameters [self] of the task ([fw_spec] is not
    read).  The result is the input set whose files
    [vis.write_input(".")] writes. *)
Definition run_task (self : gmap string arg) : result MPRelaxSetEx :=
  let struct_dir := default (Lit (PStr ".")) (self !! "struct_dir") in
  struct_file ←
    match struct_dir with
    | Lit (PStr d) => Ok (path_join d "POSCAR")
    | _ => Raise (TypeError "expected str, bytes or os.PathLike object")
    end;
  structure ← from_file struct_file;
  MPRelaxSetEx_init CONFIG structure (Lit (PList []))
    (default (Lit PNone) (self !! "user_kpoints_settings"))
    {[ "force_gamma" := default (Lit (PBool true)) (self !! "force_gamma");
       "user_incar_settings" :=
         default (Dict ∅) (self !! "user_incar_settings") ]}.

End run_task.

(** ** Sample values *)

(** A directory with a relaxed structure in [./POSCAR] only. *)
Definition poscar_only (path : string) : result Structure :=
  if String.eqb path "./POSCAR"
  then Ok {| reduced_formula := "Si2"; sites := PList [PInt 2] |}
  else Raise (ValueError "no structure under this path").

(** A settings table whose KPOINTS category holds an explicit grid. *)
Definition config_with_kpts : config :=
  {| INCAR := {[ "EDIFF" := PDec 5 (-5); "ISIF" := PInt 3 ]};
     KPOINTS := {[ "kpts" := PList [PInt 4; PInt 4; PInt 4] ]} |}.

(** A base policy in the manner of [DictSet.kpoints]: a grid density
    asked for by the user decides. *)
Definition density_kpoints (self : MPRelaxSetEx) : Kpoints :=
  match user_kpoints_settings self with
  | Dict d =>
      match d !! "grid_density" with
      | Some n => automatic_density n
      | None => other_kpoints "reciprocal density"
      end
  | Lit _ => other_kpoints "reciprocal density"
  end.

End User.

(** * The workflow assemblers *)
Module Workflows.

(** ** The store *)

Abbreviation loc := positive.

(** An entry of a serialised input set: a plain value, or a reference
    to a settings mapping ([user_incar_settings],
    [user_kpoints_settings]) held in the store. *)
Inductive val :=
| VLit (v : pyval)
| VRef (l : loc).

(** An input set object: its class and the arguments it was built
    from. *)
Record InputSet := {
  vis_class : string;
  vis_args : gmap string val
}.

(** The firetasks the assemblers create themselves. *)
Inductive task :=
| PassCalcLocs (name : string)
| DispersionAnalysisTask (tag : string) (db_file : pyval) (mode : string)
    (supercell : pyval)
| ThermalConductivityTask (tag : string) (db_file : pyval) (third_cmd : string)
    (supercell cutoff : pyval).

(** How a task unit was built: by one of the Firework classes of
    [atomate.vasp.fireworks.core], or as a plain [Firework] from
    tasks. *)
Inductive firework_body :=
| OptimizeFW (structure : Structure) (vasp_input_set : InputSet)
    (vasp_cmd : string) (db_file : pyval)
| DispersionFW (structure : Structure) (vasp_input_set : InputSet)
    (vasp_cmd : string) (db_file : pyval) (mode : string) (supercell : pyval)
| ThirdOrderFW (structure : Structure) (vasp_input_set : InputSet)
    (third_cmd vasp_cmd : string) (db_file : pyval) (supercell cutoff : pyval)
| PlainFW (tasks : list task).

(** A task unit.  [fw_id] is the identity of the object: the number of
    units built before it.  Parents are references to units. *)
Record Firework := {
  fw_id : nat;
  fw_body : firework_body;
  fw_parents : list nat;
  fw_name : option string   (* [None]: the class's default name *)
}.

Record Workflow := {
  wf_fws : list Firework;
  wf_name : option string
}.

Record state := {
  store : gmap loc (gmap string pyval);
  made : nat   (* task units built so far *)
}.

(** ** The monad of the assemblers: state and exceptions *)

Definition M (A : Type) : Type := state → result A * state.

Definition M_ret {A} (a : A) : M A := λ s, (Ok a, s).

Definition M_bind {A B} (f : A → M B) (m : M A) : M B :=
  λ s, match m s with
       | (Ok a, s') => f a s'
       | (Raise e, s') => (Raise e, s')
       end.

#[global] Instance M_mret : MRet M := @M_ret.
#[global] Instance M_mbind : MBind M := @M_bind.

Definition raise {A} (e : exn) : M A := λ s, (Raise e, s).

(** [{...}]: a new dictionary. *)
Definition new_dict (d : gmap string pyval) : M loc :=
  λ s, let l := fresh (dom (store s)) in
       (Ok l, {| store := <[l := d]> (store s); made := made s |}).

Definition read (l : loc) : M (gmap string pyval) :=
  λ s, (Ok (store s !!! l), s).

Definition no_update : exn :=
  AttributeError "object has no attribute 'update'".

(** [target.update(other)]: in place, on the dictionary [target]
    refers to.  A value that is no mapping has no such method. *)
Definition dict_update (target : val) (other : gmap string pyval) : M unit :=
  match target with
  | VRef l =>
      λ s, (Ok (), {| store := <[l := other ∪ (store s !!! l)]> (store s);
                      made := made s |})
  | VLit _ => raise no_update
  end.

(** [d.get(k, {})] on a serialised input set: the default [{}] is
    built before the lookup. *)
Definition get_or_new (d : gmap string val) (k : string) : M val :=
  l ← new_dict ∅;
  mret (default (VRef l) (d !! k)).

(** [if v:] *)
Definition val_truthy (v : val) : M bool :=
  match v with
  | VLit p => mret (truthy p)
  | VRef l => d ← read l; mret (negb (bool_decide (d = ∅)))
  end.

(** A new task unit. *)
Definition new_fw (body : firework_body) (parents : list Firework)
    (name : option string) : M Firework :=
  λ s, (Ok {| fw_id := made s; fw_body := body;
              fw_parents := fw_id <$> parents; fw_name := name |},
        {| store := store s; made := S (made s) |}).

(** ** The input set library *)

(** [copy_entries es] rebuilds a mapping from its entries, with a new
    copy of every settings mapping it refers to. *)
Fixpoint copy_entries (es : list (string * val)) : M (gmap string val) :=
  match es with
  | [] => mret ∅
  | (k, v) :: es' =>
      v' ← match v with
           | VLit p => mret (VLit p)
           | VRef l => d ← read l; l' ← new_dict d; mret (VRef l')
           end;
      d' ← copy_entries es';
      mret (<[k := v']> d')
  end.

(** Modelled from the spec: [as_dict] of pymatgen's input sets, which
    is not part of this repository, read as the "full serialize" of the
    round trip: every mapping of the object is copied, and the result
    shares none with it.  The spec does not say that it copies; the
    other reading is [as_dict_shared]. *)
Definition as_dict (vis : InputSet) : M (gmap string val) :=
  copy_entries (map_to_list (vis_args vis)).

(** Modelled from the spec: [as_dict] read as a serialiser that builds
    a new top-level dictionary only, as one does that adds the keyword
    arguments the object was built with as they are: the mapping under
    [user_incar_settings] of the result is the object's own. *)
Definition as_dict_shared (vis : InputSet) : M (gmap string val) :=
  mret (vis_args vis).

(** Modelled from the spec: [from_dict] of pymatgen's input sets, the
    "deserialize" of the round trip: a new object of the class, which
    shares no mapping with the dictionary it is read from. *)
Definition from_dict (cls : string) (d : gmap string val) : M InputSet :=
  args ← copy_entries (map_to_list d);
  mret {| vis_class := cls; vis_args := args |}.

(** [MPRelaxSet(structure, force_gamma=True)] *)
Definition MPRelaxSet (structure : Structure) : InputSet :=
  {| vis_class := "MPRelaxSet";
     vis_args := {[ "structure" := VLit (sites structure);
                    "force_gamma" := VLit (PBool true) ]} |}.

Definition dq : string := String (Ascii.ascii_of_nat 34) EmptyString.

Definition mode_error : exn :=
  ValueError ("Dispersion workflow mode should be " +:+ dq +:+ "force" +:+ dq
              +:+ " or " +:+ dq +:+ "hessian" +:+ dq +:+ ".").

Definition uis_common : gmap string pyval := {[ "EDIFF" := PDec 1 (-8) ]}.

Definition uis_force : gmap string pyval :=
  {[ "IBRION" := PInt 2; "ISMEAR" := PInt 0; "ISPIN" := PInt 1;
     "NSW" := PInt 0 ]}.

Definition uis_hessian : gmap string pyval :=
  {[ "IBRION" := PInt 6; "ISMEAR" := PInt 0; "ISPIN" := PInt 1;
     "NSW" := PInt 1; "POTIM" := PDec 15 (-3) ]}.

(** ** The assemblers *)

Section assemblers.

(** [vis_orig.as_dict()].  The serialiser belongs to the input set
    library; the assemblers update in place the mapping they find under
    [user_incar_settings] of what it returns, so what they reach depends
    on whether that mapping is the object's own.  They are read here for
    any serialiser. *)
Variable serialise : InputSet → M (gmap string val).

(** ** [get_wf_dispersion] *)

(** The time stamp [tag] is read from the clock on line 56; here it is
    an argument.  The probe for the [phonopy] package only writes to
    the log. *)
Definition get_wf_dispersion_with (structure : Structure)
    (vasp_input_set : option InputSet) (vasp_cmd : string) (db_file : pyval)
    (mode : string) (supercell : pyval) (user_kpoints_settings : val)
    (optimize_structure : bool) (tag : string) : M Workflow :=
  let fws : list Firework := [] in
  let parent2 : list Firework := [] in
  let vis_orig := default (MPRelaxSet structure) vasp_input_set in
  '(fws, parent2) ←
    (if optimize_structure then
       vis_relax_dict ← serialise vis_orig;
       uis_relax ← get_or_new vis_relax_dict "user_incar_settings";
       _ ← dict_update uis_relax uis_common;
       let vis_relax_dict :=
         <["user_incar_settings" := uis_relax]> vis_relax_dict in
       b ← val_truthy user_kpoints_settings;
       let vis_relax_dict :=
         if (b : bool) then
           <["user_kpoints_settings" := user_kpoints_settings]> vis_relax_dict
         else vis_relax_dict in
       vis_relax ← from_dict (vis_class vis_orig) vis_relax_dict;
       fw1 ← (if String.eqb mode "force" then
                new_fw (OptimizeFW structure vis_relax vasp_cmd db_file) []
                  (Some (tag +:+ " structure optimization"))
              else
                new_fw (OptimizeFW structure vis_relax vasp_cmd db_file) []
                  None);
       mret ([fw1], [fw1])
     else mret (fws, parent2));
  vis_disp_dict ← serialise vis_orig;
  b ← val_truthy user_kpoints_settings;
  let vis_disp_dict :=
    if (b : bool) then
      <["user_kpoints_settings" := user_kpoints_settings]> vis_disp_dict
    else vis_disp_dict in
  uis_disp ← get_or_new vis_disp_dict "user_incar_settings";
  _ ← dict_update uis_disp uis_common;
  wf_disp ←
    (if String.eqb mode "force" then
       _ ← dict_update uis_disp uis_force;
       let vis_disp_dict :=
         <["user_incar_settings" := uis_disp]> vis_disp_dict in
       vis_disp ← from_dict (vis_class vis_orig) vis_disp_dict;
       fw2 ← new_fw (DispersionFW structure vis_disp vasp_cmd db_file mode
                       supercell)
               parent2 (Some (tag +:+ " dispersion"));
       let fws := fws ++ [fw2] in
       fw3 ← new_fw (PlainFW [DispersionAnalysisTask tag db_file mode
                                supercell])
               [fw2]
               (Some (reduced_formula structure
                      +:+ "-dispersion_force: analysis"));
       let fws := fws ++ [fw3] in
       mret {| wf_fws := fws; wf_name := None |}
     else if String.eqb mode "hessian" then
       _ ← dict_update uis_disp uis_hessian;
       let vis_disp_dict :=
         <["user_incar_settings" := uis_disp]> vis_disp_dict in
       vis_disp ← from_dict (vis_class vis_orig) vis_disp_dict;
       fw2 ← new_fw (DispersionFW structure vis_disp vasp_cmd db_file mode
                       supercell)
               parent2 None;
       let fws := fws ++ [fw2] in
       mret {| wf_fws := fws; wf_name := None |}
     else raise mode_error);
  mret {| wf_fws := wf_fws wf_disp;
          wf_name := Some (reduced_formula structure +:+ "-" +:+ "dispersion") |}.

(** ** [get_wf_thermal_conductivity] *)

Definition get_wf_thermal_conductivity_with (structure : Structure)
    (vasp_input_set : option InputSet) (mode vasp_cmd third_cmd : string)
    (db_file supercell cutoff_3rd : pyval) (user_kpoints_settings : val)
    (optimize_structure : bool) (tag : string) : M Workflow :=
  let fws : list Firework := [] in
  let parent1 : list Firework := [] in
  let vis_orig := default (MPRelaxSet structure) vasp_input_set in
  '(fws, parent1) ←
    (if optimize_structure then
       vis_relax_dict ← serialise vis_orig;
       uis_relax ← get_or_new vis_relax_dict "user_incar_settings";
       _ ← dict_update uis_relax uis_common;
       let vis_relax_dict :=
         <["user_incar_settings" := uis_relax]> vis_relax_dict in
       b ← val_truthy user_kpoints_settings;
       let vis_relax_dict :=
         if (b : bool) then
           <["user_kpoints_settings" := user_kpoints_settings]> vis_relax_dict
         else vis_relax_dict in
       vis_relax ← from_dict (vis_class vis_orig) vis_relax_dict;
       fw1 ← new_fw (OptimizeFW structure vis_relax vasp_cmd db_file) []
               (Some (tag +:+ " structure optimization"));
       mret ([fw1], [fw1])
     else mret (fws, parent1));
  vis_disp_dict ← serialise vis_orig;
  b ← val_truthy user_kpoints_settings;
  let vis_disp_dict :=
    if (b : bool) then
      <["user_kpoints_settings" := user_kpoints_settings]> vis_disp_dict
    else vis_disp_dict in
  uis_disp ← get_or_new vis_disp_dict "user_incar_settings";
  _ ← dict_update uis_disp uis_common;
  let parent2 : list Firework := [] in
  '(fws, parent2) ←
    (if String.eqb mode "force" then
       _ ← dict_update uis_disp uis_force;
       let vis_disp_dict :=
         <["user_incar_settings" := uis_disp]> vis_disp_dict in
       vis_disp ← from_dict (vis_class vis_orig) vis_disp_dict;
       fw2 ← new_fw (DispersionFW structure vis_disp vasp_cmd db_file mode
                       supercell)
               parent1 (Some (tag +:+ " dispersion"));
       let fws := fws ++ [fw2] in
       let label :=
         reduced_formula structure +:+ "-" +:+ tag +:+ " dispersion" in
       fw3 ← new_fw (PlainFW [PassCalcLocs label;
                              DispersionAnalysisTask tag db_file mode
                                supercell])
               [fw2] (Some label);
       let fws := fws ++ [fw3] in
       mret (fws, [fw3])
     else if String.eqb mode "hessian" then
       _ ← dict_update uis_disp uis_hessian;
       let vis_disp_dict :=
         <["user_incar_settings" := uis_disp]> vis_disp_dict in
       vis_disp ← from_dict (vis_class vis_orig) vis_disp_dict;
       fw2 ← new_fw (DispersionFW structure vis_disp vasp_cmd db_file mode
                       supercell)
               parent1 (Some (tag +:+ " dispersion"));
       let fws := fws ++ [fw2] in
       mret (fws, [fw2])
     else raise mode_error);
  vis_third_dict ← serialise vis_orig;
  b ← val_truthy user_kpoints_settings;
  let vis_third_dict :=
    if (b : bool) then
      <["user_kpoints_settings" := user_kpoints_settings]> vis_third_dict
    else vis_third_dict in
  uis_third ← get_or_new vis_third_dict "user_incar_settings";
  _ ← dict_update uis_third uis_common;
  _ ← dict_update uis_third uis_force;
  let vis_third_dict :=
    <["user_incar_settings" := uis_third]> vis_third_dict in
  vis_third ← from_dict (vis_class vis_orig) vis_third_dict;
  fw4 ← new_fw (ThirdOrderFW structure vis_third third_cmd vasp_cmd db_file
                  supercell cutoff_3rd)
          parent1 (Some (tag +:+ " thirdorder"));
  let fws := fws ++ [fw4] in
  let parent2 := parent2 ++ [fw4] in
  fw5 ← new_fw (PlainFW [ThermalConductivityTask tag db_file third_cmd
                           supercell cutoff_3rd])
          parent2
          (Some (reduced_formula structure +:+ "-thermal conductivity"));
  let fws := fws ++ [fw5] in
  mret {| wf_fws := fws;
          wf_name := Some (reduced_formula structure +:+ "-"
                           +:+ "thermal conductivity") |}.

End assemblers.

(** The assemblers with the serialiser that copies every mapping. *)
Definition get_wf_dispersion := get_wf_dispersion_with as_dict.

Definition get_wf_thermal_conductivity :=
  get_wf_thermal_conductivity_with as_dict.

(** The assemblers with the serialiser that hands out the object's own
    mappings. *)
Definition get_wf_dispersion_shared := get_wf_dispersion_with as_dict_shared.

Definition get_wf_thermal_conductivity_shared :=
  get_wf_thermal_conductivity_with as_dict_shared.

(** ** Notions the properties are stated with *)

(** What an entry stands for: a reference is followed into the store. *)
Definition content (h : gmap loc (gmap string pyval)) (v : val)
  : pyval + gmap string pyval :=
  match v with
  | VLit p => inl p
  | VRef l => inr (h !!! l)
  end.

(** A serialised input set by value: what comparing two [as_dict()]
    results with [==] compares. *)
Definition snapshot (h : gmap loc (gmap string pyval)) (d : gmap string val)
  : gmap string (pyval + gmap string pyval) :=
  content h <$> d.

Definition serialized (s : state) (vis : InputSet)
  : gmap string (pyval + gmap string pyval) :=
  snapshot (store s) (vis_args vis).

(** The [user_incar_settings] of an input set, empty when it has none. *)
Definition user_incar_settings (s : state) (vis : InputSet)
  : gmap string pyval :=
  match vis_args vis !! "user_incar_settings" with
  | Some (VRef l) => store s !!! l
  | _ => ∅
  end.

(** References point into the store. *)
Definition allocated (h : gmap loc (gmap string pyval)) (v : val) : bool :=
  match v with
  | VLit _ => true
  | VRef l => match h !! l with Some _ => true | None => false end
  end.

Definition well_formed (s : state) (vis : InputSet) : bool :=
  forallb (λ kv, allocated (store s) kv.2) (map_to_list (vis_args vis)).

(** [user_incar_settings] is a mapping when the input set has it. *)
Definition uis_ok (vis : InputSet) : bool :=
  match vis_args vis !! "user_incar_settings" with
  | Some (VLit _) => false
  | _ => true
  end.

(** [if v:] as a function of the store. *)
Definition val_true (h : gmap loc (gmap string pyval)) (v : val) : bool :=
  match v with
  | VLit p => truthy p
  | VRef l => negb (bool_decide (h !!! l = ∅))
  end.

(** The store keeps what it held: nothing allocated before is changed. *)
Definition ext (h h' : gmap loc (gmap string pyval)) : Prop :=
  ∀ l, is_Some (h !! l) → h' !! l = h !! l.

(** The values of a mapping are allocated. *)
Definition all_allocated (h : gmap loc (gmap string pyval))
    (d : gmap string val) : Prop :=
  ∀ k v, d !! k = Some v → allocated h v = true.

(** Two entries of the same sort: equal values, or two mappings. *)
Definition same_sort (o o' : option val) : Prop :=
  match o, o' with
  | None, None => True
  | Some (VLit p), Some (VLit p') => p = p'
  | Some (VRef _), Some (VRef _) => True
  | _, _ => False
  end.

(** What a copy [d] of the mapping [m], made from state [s] and ending
    in [s'], guarantees. *)
Record copy_post (m : gmap string val) (s : state) (d : gmap string val)
    (s' : state) : Prop := {
  copy_made : made s' = made s;
  copy_ext : ext (store s) (store s');
  copy_fresh : ∀ k l, d !! k = Some (VRef l) →
                 store s !! l = None ∧ is_Some (store s' !! l);
  copy_unshared : ∀ k k' l, d !! k = Some (VRef l) → d !! k' = Some (VRef l) →
                    k = k';
  copy_sort : ∀ k, same_sort (m !! k) (d !! k);
  copy_snapshot : all_allocated (store s) m →
                  snapshot (store s') d = snapshot (store s) m
}.

(** The serialised form a derivation from [base] in state [s] ends
    with: [over] merged over the base's [user_incar_settings], and the
    caller's [user_kpoints_settings] when it was put in. *)
Definition derived (s : state) (base : InputSet) (with_kpts : bool) (u : val)
    (over : gmap string pyval) : gmap string (pyval + gmap string pyval) :=
  <["user_incar_settings" := inr (over ∪ user_incar_settings s base)]>
    (if with_kpts then
       <["user_kpoints_settings" := content (store s) u]> (serialized s base)
     else serialized s base).

(** A derivation under way: [d] is the serialised form being edited,
    [lu] the mapping under its [user_incar_settings], [s] the state the
    derivation began in and [s'] the current one. *)
Record staged (base : InputSet) (with_kpts : bool) (u : val) (s : state)
    (over : gmap string pyval) (d : gmap string val) (lu : loc)
    (s' : state) : Prop := {
  staged_made : made s' = made s;
  staged_ext : ext (store s) (store s');
  staged_new : store s !! lu = None;
  staged_live : is_Some (store s' !! lu);
  staged_uis : d !! "user_incar_settings" = Some (VRef lu);
  staged_content :
    well_formed s base = true → allocated (store s) u = true →
    all_allocated (store s') d ∧
    (∀ k, k ≠ "user_incar_settings" → d !! k ≠ Some (VRef lu)) ∧
    snapshot (store s') d = derived s base with_kpts u over
}.

(** A derivation done: the input set [vis] read back in state [s']. *)
Record derivation (base : InputSet) (u : val) (s : state)
    (over : gmap string pyval) (vis : InputSet) (s' : state) : Prop := {
  derivation_made : made s' = made s;
  derivation_ext : ext (store s) (store s');
  derivation_class : vis_class vis = vis_class base;
  derivation_content :
    well_formed s base = true → allocated (store s) u = true →
    all_allocated (store s') (vis_args vis) ∧
    serialized s' vis = derived s base (val_true (store s) u) u over
}.

Inductive unit_kind :=
| Optimize | Dispersion | Analysis | ThirdOrder | ThermalConductivity | Other.

Definition is_analysis_task (t : task) : bool :=
  match t with DispersionAnalysisTask _ _ _ _ => true | _ => false end.

Definition is_conductivity_task (t : task) : bool :=
  match t with ThermalConductivityTask _ _ _ _ _ => true | _ => false end.

Definition kind (fw : Firework) : unit_kind :=
  match fw_body fw with
  | OptimizeFW _ _ _ _ => Optimize
  | DispersionFW _ _ _ _ _ _ => Dispersion
  | ThirdOrderFW _ _ _ _ _ _ _ => ThirdOrder
  | PlainFW ts =>
      if existsb is_conductivity_task ts then ThermalConductivity
      else if existsb is_analysis_task ts then Analysis
      else Other
  end.

(** The input set a unit runs VASP with. *)
Definition input_set_of (fw : Firework) : option InputSet :=
  match fw_body fw with
  | OptimizeFW _ vis _ _ => Some vis
  | DispersionFW _ vis _ _ _ _ => Some vis
  | ThirdOrderFW _ vis _ _ _ _ _ => Some vis
  | PlainFW _ => None
  end.

(** The dependency edges of a graph: [edge wf a b] when [a] is listed
    as a parent of [b]. *)
Definition edge (wf : Workflow) (a b : Firework) : Prop :=
  a ∈ wf_fws wf ∧ b ∈ wf_fws wf ∧ fw_id a ∈ fw_parents b.

(** Every unit of the graph was built in this call (its identity is
    at least [n], the count of units when the call began), and each of
    its parents is a unit of the graph built before it. *)
Definition built_in_order (n : nat) (wf : Workflow) : Prop :=
  ∀ fw, fw ∈ wf_fws wf →
    (n ≤ fw_id fw)%nat ∧
    ∀ p, p ∈ fw_parents fw →
      (p < fw_id fw)%nat ∧ ∃ pfw, pfw ∈ wf_fws wf ∧ fw_id pfw = p.

(** No unit depends on itself through a chain of edges. *)
Definition acyclic (wf : Workflow) : Prop :=
  ∀ fw, ¬ tc (edge wf) fw fw.

(** The input set of the dispersion unit of a graph. *)
Definition dispersion_settings (wf : Workflow) : option InputSet :=
  fw ← List.find (λ fw, match kind fw with Dispersion => true | _ => false end)
         (wf_fws wf);
  input_set_of fw.

(** The constants a mode merges over the base. *)
Definition mode_overrides (mode : string) : gmap string pyval :=
  if String.eqb mode "force" then uis_force ∪ uis_common
  else uis_hessian ∪ uis_common.

(** The constants merged over the base for the unit of a given kind:
    the relaxation gets the common override only, the third-order
    forces always the constants of mode "force". *)
Definition phase_overrides (mode : string) (kd : unit_kind)
  : gmap string pyval :=
  match kd with
  | Optimize => uis_common
  | Dispersion => mode_overrides mode
  | ThirdOrder => uis_force ∪ uis_common
  | _ => ∅
  end.

(** The unit [fw], if it runs VASP, does so with an input set of the
    base's class whose serialised form in the store [h'] is the one
    derived from [base] in state [s] for the unit's kind. *)
Definition carries_derived (s : state) (base : InputSet) (u : val)
    (mode : string) (h' : gmap loc (gmap string pyval)) (fw : Firework)
  : Prop :=
  ∀ vis, input_set_of fw = Some vis →
    vis_class vis = vis_class base ∧
    (well_formed s base = true → allocated (store s) u = true →
     all_allocated h' (vis_args vis) ∧
     snapshot h' (vis_args vis)
       = derived s base (val_true (store s) u) u
           (phase_overrides mode (kind fw))).

Definition same_kind (a b : unit_kind) : bool :=
  match a, b with
  | Optimize, Optimize | Dispersion, Dispersion | Analysis, Analysis
  | ThirdOrder, ThirdOrder | ThermalConductivity, ThermalConductivity
  | Other, Other => true
  | _, _ => false
  end.

(** The input set of the first unit of a kind. *)
Definition unit_settings (kd : unit_kind) (wf : Workflow) : option InputSet :=
  fw ← List.find (λ fw, same_kind (kind fw) kd) (wf_fws wf);
  input_set_of fw.

(** The store keeps what it held, but for the mapping at [l0], which
    stays a mapping. *)
Definition kept_except (l0 : loc) (h h' : gmap loc (gmap string pyval))
  : Prop :=
  (is_Some (h !! l0) → is_Some (h' !! l0)) ∧
  ∀ l, l ≠ l0 → is_Some (h !! l) → h' !! l = h !! l.

(** What is merged over the base's settings for the unit of a kind when
    the serialiser hands out the base's own mapping: every derivation
    updates that one mapping, and finds in it what the derivations
    before it wrote.  The third-order forces come after the dispersion
    settings, and so get the mode's constants below their own. *)
Definition phase_shared (mode : string) (kd : unit_kind)
  : gmap string pyval :=
  match kd with
  | Optimize => uis_common
  | Dispersion => mode_overrides mode
  | ThirdOrder => (uis_force ∪ uis_common) ∪ mode_overrides mode
  | _ => ∅
  end.

(** The unit [fw], if it runs VASP, does so with an input set whose
    [user_incar_settings] is a mapping of its own, not the one at [l0],
    holding in the store [h'] the constants of [phase_shared] merged
    over [B]. *)
Definition carries_shared (mode : string) (B : gmap string pyval) (l0 : loc)
    (h' : gmap loc (gmap string pyval)) (fw : Firework) : Prop :=
  ∀ vis, input_set_of fw = Some vis →
    ∃ l, vis_args vis !! "user_incar_settings" = Some (VRef l) ∧
         l ≠ l0 ∧
         h' !! l = Some (phase_shared mode (kind fw) ∪ B).

(** Weakest preconditions for the monad. *)
Definition wp {A} (m : M A) (s : state) (Q : result A → state → Prop) : Prop :=
  Q (m s).1 (m s).2.

(** ** Sample values *)

(** A store with the caller's two mappings, and an input set built on
    the first. *)
Definition sample_state : state :=
  {| store := {[ 1%positive := {[ "EDIFF" := PDec 1 (-4); "ENCUT" := PInt 520 ]};
                 2%positive := {[ "grid_density" := PInt 7000 ]} ]};
     made := 0 |}.

Definition sample_set : InputSet :=
  {| vis_class := "MPRelaxSet";
     vis_args := {[ "structure" := VLit (PList []);
                    "force_gamma" := VLit (PBool true);
                    "user_incar_settings" := VRef 1%positive ]} |}.

(** An input set built with [user_incar_settings=None]. *)
Definition sample_set_none : InputSet :=
  {| vis_class := "MPRelaxSet";
     vis_args := {[ "structure" := VLit (PList []);
                    "user_incar_settings" := VLit PNone ]} |}.

Definition cubic (n : Z) : pyval :=
  PList [ PList [PInt n; PInt 0; PInt 0]; PList [PInt 0; PInt n; PInt 0];
          PList [PInt 0; PInt 0; PInt n] ].

End Workflows.

(** * Properties of [atomate/vasp/fireworks/user.py] *)
Module UserFacts.
Import User.

(** ** The removal loop of [MPRelaxSetEx.__init__] *)

(** On a list of setting names the loop never raises; it empties the
    listed keys of [incar] and moves their values to [rm]. *)
Lemma remove_incar_names (ks : list string) :
  ∀ incar rm : gmap string pyval,
    ∃ incar' rm',
      remove_incar (PStr <$> ks) incar rm = Ok (incar', rm') ∧
      ∀ k : string,
        (k ∈ ks →
           incar' !! k = None ∧
           rm' !! k = match incar !! k with
                      | Some v => Some v
                      | None => rm !! k
                      end) ∧
        (k ∉ ks → incar' !! k = incar !! k ∧ rm' !! k = rm !! k).
Proof.
  induction ks as [|k0 ks IH]; intros incar rm.
  - exists incar, rm. split; [done|]. intros k. split; [|done].
    intros Hk. by apply elem_of_nil in Hk.
  - rewrite fmap_cons. cbn [remove_incar py_in_keys mbind result_mbind result_bind].
    unfold py_pop. case_bool_decide as Hdom.
    + apply elem_of_dom in Hdom as [v0 Hv0].
      destruct (IH (delete k0 incar) (<[k0 := default PNone (incar !! k0)]> rm))
        as (incar' & rm' & Hrun & Hspec).
      exists incar', rm'. split; [done|]. intros k.
      destruct (Hspec k) as [Hin Hout]. rewrite Hv0 in *. cbn in *.
      destruct (decide (k = k0)) as [->|Hne].
      * split; [|intros Hk; exfalso; apply Hk; left].
        intros _. rewrite Hv0. destruct (decide (k0 ∈ ks)) as [Hk|Hk].
        -- destruct (Hin Hk) as [-> ->].
           by rewrite lookup_delete_eq, lookup_insert_eq.
        -- destruct (Hout Hk) as [-> ->].
           by rewrite lookup_delete_eq, lookup_insert_eq.
      * rewrite lookup_delete_ne, lookup_insert_ne in Hin, Hout by done.
        split.
        -- intros Hk. apply elem_of_cons in Hk as [?|Hk]; [done|]. by apply Hin.
        -- intros Hk. apply Hout. intros ?. apply Hk. by right.
    + apply not_elem_of_dom in Hdom.
      destruct (IH incar rm) as (incar' & rm' & Hrun & Hspec).
      exists incar', rm'. split; [done|]. intros k.
      destruct (Hspec k) as [Hin Hout].
      destruct (decide (k = k0)) as [->|Hne].
      * split; [|intros Hk; exfalso; apply Hk; left].
        intros _. destruct (decide (k0 ∈ ks)) as [Hk|Hk]; [by apply Hin|].
        destruct (Hout Hk) as [-> ->]. by rewrite Hdom.
      * split.
        -- intros Hk. apply elem_of_cons in Hk as [?|Hk]; [done|]. by apply Hin.
        -- intros Hk. apply Hout. intros ?. apply Hk. by right.
Qed.

(** C7. [MPRelaxSetEx] built with a list [rm_incar_settings] of setting
    names: construction succeeds; every listed name is absent from the
    active INCAR settings and, when the base category had it, recorded
    with its original value in [rm_config_dict]; a listed name the base
    category lacks raises nothing and gets no entry there.  Names not
    listed are left alone. *)
Theorem rm_incar_settings_removed (CONFIG : config) (structure : Structure)
    (names : list string) (user_kpoints_settings : arg)
    (kwargs : gmap string arg) :
  ∃ self,
    MPRelaxSetEx_init CONFIG structure (Lit (PList (PStr <$> names)))
      user_kpoints_settings kwargs = Ok self ∧
    ∀ k : string,
      (k ∈ names →
         INCAR (config_dict self) !! k = None ∧
         rm_config_dict self !! k = INCAR CONFIG !! k) ∧
      (k ∉ names →
         INCAR (config_dict self) !! k = INCAR CONFIG !! k ∧
         rm_config_dict self !! k = None).
Proof.
  destruct (remove_incar_names names (INCAR CONFIG) ∅)
    as (incar' & rm' & Hrun & Hspec).
  unfold MPRelaxSetEx_init. cbn [arg_iter py_iter mbind result_mbind result_bind].
  rewrite Hrun. eexists. split; [reflexivity|]. cbn.
  intros k. destruct (Hspec k) as [Hin Hout]. split.
  - intros Hk. destruct (Hin Hk) as [-> ->].
    rewrite lookup_empty. by destruct (INCAR CONFIG !! k).
  - intros Hk. destruct (Hout Hk) as [-> ->]. by rewrite lookup_empty.
Qed.

(** ** The [kpoints] property *)

(** C8 as stated fails: with a non-empty [user_kpoints_settings] that
    has no ['kpts'], an explicit grid in the KPOINTS category is not
    consulted, and the base class decides. *)
Lemma kpoints_category_shadowed :
  ∃ self,
    MPRelaxSetEx_init config_with_kpts silicon (Lit (PList []))
      (Dict {[ "grid_density" := PInt 7000 ]}) ∅ = Ok self ∧
    KPOINTS (config_dict self) !! "kpts"
      = Some (PList [PInt 4; PInt 4; PInt 4]) ∧
    kpoints density_kpoints self = Ok (automatic_density (PInt 7000)) ∧
    kpoints density_kpoints self
      ≠ Ok (gamma_automatic [PInt 4; PInt 4; PInt 4]).
Proof.
  eexists. split; [reflexivity|]. split; [reflexivity|].
  assert (E : kpoints density_kpoints
                {| structure := silicon; kwargs := ∅;
                   config_dict := config_with_kpts;
                   rm_incar_settings := Lit (PList []);
                   user_kpoints_settings := Dict {[ "grid_density" := PInt 7000 ]};
                   rm_config_dict := ∅ |}
              = Ok (automatic_density (PInt 7000))) by (vm_compute; reflexivity).
  split; [exact E|]. intros H.
  pose proof (eq_trans (eq_sym E) H) as H'. discriminate H'.
Qed.

(** The mapping the property reads: [user_kpoints_settings] when it is
    true in a condition, else the KPOINTS category. *)
Lemma arg_or_dict (a : arg) (d u : gmap string pyval) (k : string) (v : pyval) :
  a = Dict u → u !! k = Some v → arg_or a (Dict d) = Dict u.
Proof.
  intros -> Hk. unfold arg_or. cbn. case_bool_decide as He; [|done].
  rewrite He, lookup_empty in Hk. done.
Qed.

(** C8, amended.  The property returns the gamma-centred grid built
    from the ['kpts'] entry when [user_kpoints_settings] holds a
    non-empty one, and when [user_kpoints_settings] is empty or [None]
    and the KPOINTS category holds one; when the mapping that is read
    ([user_kpoints_settings] if non-empty, else the KPOINTS category)
    has no ['kpts'], it returns what the base class returns. *)
Theorem kpoints_from_selected_settings
    (DictSet_kpoints : MPRelaxSetEx → Kpoints) (self : MPRelaxSetEx) :
  (∀ u grid,
     user_kpoints_settings self = Dict u →
     u !! "kpts" = Some (PList grid) → grid ≠ [] →
     kpoints DictSet_kpoints self = Ok (gamma_automatic grid)) ∧
  (∀ grid,
     arg_truthy (user_kpoints_settings self) = false →
     KPOINTS (config_dict self) !! "kpts" = Some (PList grid) → grid ≠ [] →
     kpoints DictSet_kpoints self = Ok (gamma_automatic grid)) ∧
  (∀ d,
     arg_or (user_kpoints_settings self) (Dict (KPOINTS (config_dict self)))
       = Dict d →
     d !! "kpts" = None →
     kpoints DictSet_kpoints self = Ok (DictSet_kpoints self)).
Proof.
  split; [|split].
  - intros u grid Hu Hk Hne. unfold kpoints.
    rewrite (arg_or_dict _ _ u "kpts" (PList grid)) by done.
    cbn. rewrite Hk. cbn. by destruct grid.
  - intros grid Hf Hk Hne. unfold kpoints, arg_or. rewrite Hf.
    cbn. rewrite Hk. cbn. by destruct grid.
  - intros d Hd Hk. unfold kpoints. rewrite Hd. cbn. by rewrite Hk.
Qed.

(** The grid [(2, 2, 2)] given through the constructor. *)
Lemma kpoints_from_selected_settings_witness :
  ∃ self,
    MPRelaxSetEx_init config_with_kpts silicon (Lit (PList []))
      (Dict {[ "kpts" := PList [PInt 2; PInt 2; PInt 2] ]}) ∅ = Ok self ∧
    kpoints density_kpoints self
      = Ok (gamma_automatic [PInt 2; PInt 2; PInt 2]).
Proof.
  eexists. split; [reflexivity|].
  eapply (proj1 (kpoints_from_selected_settings density_kpoints _)).
  - reflexivity.
  - vm_compute. reflexivity.
  - discriminate.
Defined.

(** ** [OptimizeStepFW] with [override_default_vasp_params=None] *)

(** C10 as stated fails: at step 0 with an input set supplied, [or]
    never evaluates the call that unpacks [None], and the unit is
    built. *)
Lemma optimize_step_default_succeeds :
  is_ok (OptimizeStepFW_init config_with_kpts silicon 0 "Relax"
           (Some (caller_input_set "vis")) "vasp" None PNone "normal" PNone
           None ∅) = true.
Proof. reflexivity. Qed.

(** C10, amended.  With [override_default_vasp_params] left at [None],
    construction raises [TypeError] when [step_index] is non-zero, and
    when it is zero and no input set is supplied; at step 0 with an
    input set supplied it succeeds with the four tasks. *)
Theorem optimize_step_default_params (CONFIG : config) (structure : Structure)
    (step_index : Z) (name : string) (vasp_input_set : option VaspInputSet)
    (vasp_cmd : string) (ediffg : pyval) (job_type : string) (db_file : pyval)
    (parents : option (list nat)) (kwargs : gmap string arg) :
  OptimizeStepFW_init CONFIG structure step_index name vasp_input_set vasp_cmd
    None ediffg job_type db_file parents kwargs
  = match vasp_input_set with
    | Some vis =>
        if Z.eqb step_index 0 then
          Ok {| fw_tasks :=
                  [ WriteVaspFromIOSet structure vis;
                    RunVaspCustodian vasp_cmd job_type (PDec 25 (-2)) ediffg
                      ">>auto_npar<<";
                    PassCalcLocs name;
                    VaspToDbTask db_file {[ "task_label" := PStr name ]} ];
                fw_parents := parents;
                fw_name := reduced_formula structure +:+ "-" +:+ name
                           +:+ "-Step" +:+ pretty (1 + step_index);
                fw_kwargs := kwargs |}
        else
          Raise (TypeError "argument after ** must be a mapping, not NoneType")
    | None =>
        Raise (TypeError "argument after ** must be a mapping, not NoneType")
    end.
Proof.
  unfold OptimizeStepFW_init, default_relax_set.
  destruct vasp_input_set as [vis|]; destruct (Z.eqb step_index 0); reflexivity.
Qed.

End UserFacts.

(** * Properties of the workflow assemblers *)
Module WorkflowFacts.
Import Workflows.

Implicit Types (h : gmap loc (gmap string pyval)) (d : gmap string val).
Implicit Types (s : state) (v : val) (l : loc).

(** ** Rules of the monad *)

Lemma wp_ret {A} (a : A) s Q : Q (Ok a) s → wp (mret a) s Q.
Proof. done. Qed.

Lemma wp_raise {A} (e : exn) s (Q : result A → state → Prop) :
  Q (Raise e) s → wp (raise e) s Q.
Proof. done. Qed.

Lemma wp_bind {A B} (m : M A) (k : A → M B) s Q :
  wp m s (λ r s', match r with
                  | Ok a => wp (k a) s' Q
                  | Raise e => Q (Raise e) s'
                  end) →
  wp (m ≫= k) s Q.
Proof.
  unfold wp, mbind, M_mbind, M_bind. by destruct (m s) as [[a|e] s'].
Qed.

Lemma wp_mono {A} (m : M A) s (Q Q' : result A → state → Prop) :
  wp m s Q → (∀ r s', Q r s' → Q' r s') → wp m s Q'.
Proof. unfold wp. auto. Qed.

Lemma wp_run {A} (m : M A) s Q :
  wp m s Q → ∃ r s', m s = (r, s') ∧ Q r s'.
Proof. unfold wp. destruct (m s) as [r s']. eauto. Qed.

(** ** The store *)

Lemma ext_refl h : ext h h.
Proof. by intros l _. Qed.

Lemma ext_trans h1 h2 h3 : ext h1 h2 → ext h2 h3 → ext h1 h3.
Proof.
  intros H12 H23 l Hl. rewrite <- (H12 l Hl). apply H23.
  by rewrite (H12 l Hl).
Qed.

Lemma ext_insert_new h l (x : gmap string pyval) :
  h !! l = None → ext h (<[l := x]> h).
Proof.
  intros Hl l' [y Hy]. rewrite lookup_insert_ne; [done|]. congruence.
Qed.

Lemma ext_is_Some h h' l : ext h h' → is_Some (h !! l) → is_Some (h' !! l).
Proof. intros He Hl. by rewrite (He l Hl). Qed.

Lemma ext_total h h' l : ext h h' → is_Some (h !! l) → h' !!! l = h !!! l.
Proof. intros He Hl. by rewrite !lookup_total_alt, (He l Hl). Qed.

Lemma fresh_None h : h !! fresh (dom h) = None.
Proof. apply not_elem_of_dom, is_fresh. Qed.

Lemma allocated_ref h l : allocated h (VRef l) = true ↔ is_Some (h !! l).
Proof.
  cbn. destruct (h !! l); split; intros H; try done; by destruct H.
Qed.

Lemma allocated_ext h h' v : ext h h' → allocated h v = true → allocated h' v = true.
Proof.
  intros He. destruct v as [p|l]; [done|].
  rewrite !allocated_ref. by apply ext_is_Some.
Qed.

Lemma content_ext h h' v : ext h h' → allocated h v = true → content h' v = content h v.
Proof.
  intros He. destruct v as [p|l]; [done|]. rewrite allocated_ref. intros Hl.
  cbn. by rewrite (ext_total h h').
Qed.

Lemma snapshot_ext h h' d :
  ext h h' → all_allocated h d → snapshot h' d = snapshot h d.
Proof.
  intros He Ha. apply map_eq. intros k. unfold snapshot. rewrite !lookup_fmap.
  destruct (d !! k) as [v|] eqn:Hk; [|done]. cbn. f_equal.
  apply content_ext; eauto.
Qed.

Lemma well_formed_all s vis :
  well_formed s vis = true ↔ all_allocated (store s) (vis_args vis).
Proof.
  unfold well_formed, all_allocated. rewrite forallb_forall. split.
  - intros H k v Hk. apply (H (k, v)). apply list_elem_of_In.
    by apply elem_of_map_to_list.
  - intros H [k v] Hin. apply list_elem_of_In, elem_of_map_to_list in Hin.
    by apply (H k v).
Qed.

Lemma all_allocated_ext h h' d :
  ext h h' → all_allocated h d → all_allocated h' d.
Proof. intros He Ha k v Hk. eapply allocated_ext; eauto. Qed.

Lemma all_allocated_insert_inv h d k v :
  d !! k = None → all_allocated h (<[k := v]> d) →
  allocated h v = true ∧ all_allocated h d.
Proof.
  intros Hk Ha. split.
  - apply (Ha k). by rewrite lookup_insert_eq.
  - intros k' v' Hk'. apply (Ha k'). rewrite lookup_insert_ne; [done|].
    congruence.
Qed.

Lemma snapshot_insert h d k v :
  snapshot h (<[k := v]> d) = <[k := content h v]> (snapshot h d).
Proof. unfold snapshot. by rewrite fmap_insert. Qed.

(** ** Copies made by the input set library *)

Lemma copy_entries_post (es : list (string * val)) :
  NoDup es.*1 →
  ∀ s, ∃ d s',
    copy_entries es s = (Ok d, s') ∧ copy_post (list_to_map es) s d s'.
Proof.
  induction es as [|[k v] es IH]; intros Hnd s.
  - exists ∅, s. split; [done|]. by split.
  - apply NoDup_cons in Hnd as [Hk Hnd]. cbn in Hk.
    assert (Hm : (list_to_map es : gmap string val) !! k = None)
      by by apply not_elem_of_list_to_map_1.
    destruct v as [p|l].
    + destruct (IH Hnd s) as (d' & s' & Hrun & Hpost).
      exists (<[k := VLit p]> d'), s'. split.
      { cbn. unfold mbind, M_mbind, M_bind. cbn. by rewrite Hrun. }
      destruct Hpost as [Hmade Hext Hfresh Hun Hsort Hsnap].
      cbn [list_to_map foldr]. split; try done.
      * intros k0 l0. destruct (decide (k0 = k)) as [->|Hne].
        -- by rewrite lookup_insert_eq.
        -- rewrite lookup_insert_ne by done. apply Hfresh.
      * intros k1 k2 l0.
        destruct (decide (k1 = k)) as [->|Hne1]; [by rewrite lookup_insert_eq|].
        destruct (decide (k2 = k)) as [->|Hne2]; [by rewrite (lookup_insert_eq d')|].
        rewrite !lookup_insert_ne by done. apply Hun.
      * intros k0. destruct (decide (k0 = k)) as [->|Hne].
        -- by rewrite !lookup_insert_eq.
        -- rewrite !lookup_insert_ne by done. apply Hsort.
      * intros Ha. apply all_allocated_insert_inv in Ha as [_ Ha]; [|done].
        rewrite !snapshot_insert. by rewrite Hsnap.
    + set (x := store s !!! l).
      set (l' := fresh (dom (store s))).
      set (s1 := {| store := <[l' := x]> (store s); made := made s |}).
      assert (Hl' : store s !! l' = None) by apply fresh_None.
      assert (He1 : ext (store s) (store s1)) by by apply ext_insert_new.
      destruct (IH Hnd s1) as (d' & s' & Hrun & Hpost).
      exists (<[k := VRef l']> d'), s'. split.
      { cbn. unfold mbind, M_mbind, M_bind. cbn. fold x l' s1. by rewrite Hrun. }
      destruct Hpost as [Hmade Hext Hfresh Hun Hsort Hsnap].
      assert (Hs1 : store s1 !! l' = Some x) by apply lookup_insert_eq.
      cbn [list_to_map foldr]. split.
      * done.
      * by eapply ext_trans.
      * intros k0 l0. destruct (decide (k0 = k)) as [->|Hne].
        -- rewrite lookup_insert_eq. intros [= <-]. split; [done|].
           eapply ext_is_Some; [done|]. by rewrite Hs1.
        -- rewrite lookup_insert_ne by done. intros Hk0.
           destruct (Hfresh _ _ Hk0) as [Hn Hs]. split; [|done].
           destruct (store s !! l0) eqn:E; [|done].
           rewrite (He1 l0) in Hn by by rewrite E. congruence.
      * intros k1 k2 l0.
        destruct (decide (k1 = k)) as [->|Hne1];
          destruct (decide (k2 = k)) as [->|Hne2]; try done.
        -- rewrite lookup_insert_eq, lookup_insert_ne by done.
           intros [= <-] Hk2. destruct (Hfresh _ _ Hk2) as [Hn _]. congruence.
        -- rewrite lookup_insert_eq, lookup_insert_ne by done.
           intros Hk1 [= <-]. destruct (Hfresh _ _ Hk1) as [Hn _]. congruence.
        -- rewrite !lookup_insert_ne by done. apply Hun.
      * intros k0. destruct (decide (k0 = k)) as [->|Hne].
        -- by rewrite !lookup_insert_eq.
        -- rewrite !lookup_insert_ne by done. apply Hsort.
      * intros Ha. apply all_allocated_insert_inv in Ha as [Hal Ha]; [|done].
        rewrite !snapshot_insert.
        rewrite Hsnap by by eapply all_allocated_ext.
        rewrite (snapshot_ext (store s) (store s1)) by done.
        f_equal. cbn. f_equal.
        rewrite (ext_total (store s1) (store s')); [|done|by rewrite Hs1].
        by rewrite lookup_total_alt, Hs1.
Qed.

(** ** Rules of the operations *)

Lemma wp_as_dict vis s Q :
  (∀ d s', copy_post (vis_args vis) s d s' → Q (Ok d) s') →
  wp (as_dict vis) s Q.
Proof.
  intros HQ. unfold wp, as_dict.
  destruct (copy_entries_post (map_to_list (vis_args vis))
              (NoDup_fst_map_to_list _) s) as (d & s' & -> & Hpost).
  rewrite list_to_map_to_list in Hpost. by apply HQ.
Qed.

Lemma wp_as_dict_shared vis s Q :
  Q (Ok (vis_args vis)) s → wp (as_dict_shared vis) s Q.
Proof. done. Qed.

Lemma wp_from_dict cls d s Q :
  (∀ vis s', vis_class vis = cls → copy_post d s (vis_args vis) s' →
             Q (Ok vis) s') →
  wp (from_dict cls d) s Q.
Proof.
  intros HQ. unfold wp, from_dict, mbind, M_mbind, M_bind.
  destruct (copy_entries_post (map_to_list d)
              (NoDup_fst_map_to_list _) s) as (args & s' & -> & Hpost).
  rewrite list_to_map_to_list in Hpost. cbn. by apply HQ.
Qed.

Lemma wp_get_or_new d k s Q :
  (∀ l, store s !! l = None →
        Q (Ok (default (VRef l) (d !! k)))
          {| store := <[l := ∅]> (store s); made := made s |}) →
  wp (get_or_new d k) s Q.
Proof. intros HQ. apply HQ, fresh_None. Qed.

Lemma wp_dict_update_ref l (o : gmap string pyval) s Q :
  Q (Ok ()) {| store := <[l := o ∪ (store s !!! l)]> (store s);
               made := made s |} →
  wp (dict_update (VRef l) o) s Q.
Proof. done. Qed.

Lemma wp_dict_update_lit p (o : gmap string pyval) s Q :
  Q (Raise no_update) s → wp (dict_update (VLit p) o) s Q.
Proof. done. Qed.

Lemma wp_val_truthy v s Q :
  Q (Ok (val_true (store s) v)) s → wp (val_truthy v) s Q.
Proof. by destruct v. Qed.

Lemma wp_new_fw body (parents : list Firework) name s Q :
  Q (Ok {| fw_id := made s; fw_body := body;
           fw_parents := fw_id <$> parents; fw_name := name |})
    {| store := store s; made := S (made s) |} →
  wp (new_fw body parents name) s Q.
Proof. done. Qed.

(** ** Derivations *)

Lemma val_true_ext h h' v :
  ext h h' → allocated h v = true → val_true h' v = val_true h v.
Proof.
  intros He. destruct v as [p|l]; [done|]. rewrite allocated_ref. intros Hl.
  cbn. by rewrite (ext_total h h').
Qed.

Lemma snapshot_update h d key lu (o : gmap string pyval) :
  d !! key = Some (VRef lu) →
  (∀ k, k ≠ key → d !! k ≠ Some (VRef lu)) →
  snapshot (<[lu := o]> h) d = <[key := inr o]> (snapshot h d).
Proof.
  intros Hkey Hun. apply map_eq. intros k. unfold snapshot.
  destruct (decide (k = key)) as [->|Hne].
  - rewrite lookup_insert_eq, lookup_fmap, Hkey. cbn.
    by rewrite lookup_total_insert_eq.
  - rewrite lookup_insert_ne, !lookup_fmap by done.
    destruct (d !! k) as [[p|l]|] eqn:Hk; try done. cbn.
    rewrite lookup_total_insert_ne; [done|]. intros <-. by apply (Hun k).
Qed.

Lemma user_incar_settings_serialized s base l :
  vis_args base !! "user_incar_settings" = Some (VRef l) →
  serialized s base !! "user_incar_settings"
    = Some (inr (user_incar_settings s base)).
Proof.
  intros Hl. unfold serialized, snapshot, user_incar_settings.
  by rewrite lookup_fmap, Hl.
Qed.

(** After [as_dict] and [get(.., {})]: the mapping to update is new,
    and holds the base's settings. *)
Lemma stage_intro base u s d s1 l_e :
  copy_post (vis_args base) s d s1 →
  store s1 !! l_e = None →
  uis_ok base = true →
  ∃ lu,
    default (VRef l_e) (d !! "user_incar_settings") = VRef lu ∧
    staged base false u s ∅ (<["user_incar_settings" := VRef lu]> d) lu
      {| store := <[l_e := ∅]> (store s1); made := made s1 |}.
Proof.
  intros [Hmade Hext Hfresh Hun Hsort Hsnap] Hle Hok.
  set (s2 := {| store := <[l_e := ∅]> (store s1); made := made s1 |}).
  assert (He2 : ext (store s1) (store s2)) by by apply ext_insert_new.
  assert (Had : all_allocated (store s1) d).
  { intros k [p|l] Hk; [done|]. apply allocated_ref. by apply (Hfresh k). }
  pose proof (Hsort "user_incar_settings") as Hs. unfold uis_ok in Hok.
  unfold same_sort in Hs.
  destruct (vis_args base !! "user_incar_settings") as [[p|l0]|] eqn:Hb;
    [done| |];
    destruct (d !! "user_incar_settings") as [[p'|l1]|] eqn:Hd; try done.
  - (* the base has the mapping: its copy is updated *)
    destruct (Hfresh _ _ Hd) as [Hn1 Hs1].
    exists l1. split; [done|]. rewrite insert_id by done. split; cbn; try done.
    + by eapply ext_trans.
    + by eapply ext_is_Some.
    + intros Hwf Hu. apply well_formed_all in Hwf. split; [|split].
      * by eapply all_allocated_ext.
      * intros k Hne Hk. by specialize (Hun _ _ _ Hk Hd).
      * rewrite (snapshot_ext (store s1)) by done. rewrite Hsnap by done.
        unfold derived. rewrite (left_id_L ∅ (∪)).
        symmetry. apply insert_id.
        by eapply user_incar_settings_serialized.
  - (* the base has none: the new empty mapping is updated *)
    exists l_e. split; [done|]. split; cbn; try done.
    + by eapply ext_trans.
    + destruct (store s !! l_e) eqn:E; [|done].
      rewrite <- (Hext l_e) in E by by rewrite E. congruence.
    + by rewrite lookup_insert_eq.
    + by rewrite lookup_insert_eq.
    + intros Hwf Hu. apply well_formed_all in Hwf. split; [|split].
      * intros k v. destruct (decide (k = "user_incar_settings")) as [->|Hne].
        -- rewrite lookup_insert_eq. intros [= <-]. cbn.
           by rewrite lookup_insert_eq.
        -- rewrite lookup_insert_ne by done. intros Hk.
           eapply allocated_ext; eauto.
      * intros k Hne. rewrite lookup_insert_ne by done. intros Hk.
        destruct (Hfresh _ _ Hk) as [_ [? ?]]. congruence.
      * rewrite snapshot_insert. cbn. rewrite lookup_total_insert_eq.
        rewrite (snapshot_ext (store s1)) by done. rewrite Hsnap by done.
        unfold derived, user_incar_settings. rewrite Hb.
        by rewrite (left_id_L ∅ (∪)).
Qed.

(** When the base holds something else under [user_incar_settings],
    that value is what [get] returns. *)
Lemma stage_lit base s d s1 l_e :
  copy_post (vis_args base) s d s1 →
  uis_ok base = false →
  ∃ p, default (VRef l_e) (d !! "user_incar_settings") = VLit p.
Proof.
  intros [_ _ _ _ Hsort _] Hok.
  pose proof (Hsort "user_incar_settings") as Hs. unfold uis_ok in Hok.
  unfold same_sort in Hs.
  destruct (vis_args base !! "user_incar_settings") as [[p|l0]|]; try done.
  destruct (d !! "user_incar_settings") as [[p'|l1]|]; try done. by exists p'.
Qed.

(** [uis.update(o)] on the staged mapping. *)
Lemma staged_update base b u s over d lu s' (o : gmap string pyval) :
  staged base b u s over d lu s' →
  staged base b u s (o ∪ over) d lu
    {| store := <[lu := o ∪ (store s' !!! lu)]> (store s'); made := made s' |}.
Proof.
  intros [Hmade Hext Hnew Hlive Huis Hcont]. split; cbn; try done.
  - intros l Hl. rewrite lookup_insert_ne; [by apply Hext|].
    intros <-. rewrite Hnew in Hl. by destruct Hl.
  - by rewrite lookup_insert_eq.
  - intros Hwf Hu. destruct (Hcont Hwf Hu) as (Hall & Hun & Hsnap).
    split; [|split]; [|done|].
    + intros k v Hk. specialize (Hall k v Hk). destruct v as [p|l]; [done|].
      apply allocated_ref. apply allocated_ref in Hall.
      destruct (decide (lu = l)) as [->|Hne].
      * by rewrite lookup_insert_eq.
      * by rewrite lookup_insert_ne.
    + rewrite (snapshot_update _ _ "user_incar_settings") by done.
      rewrite Hsnap. unfold derived. rewrite insert_insert_eq.
      f_equal. f_equal.
      assert (E : snapshot (store s') d !! "user_incar_settings"
                  = Some (inr (store s' !!! lu))).
      { unfold snapshot. by rewrite lookup_fmap, Huis. }
      rewrite Hsnap in E. unfold derived in E. rewrite lookup_insert_eq in E.
      injection E as <-. by rewrite (assoc_L (∪)).
Qed.

(** [d.update({"user_kpoints_settings": u})] on the staged form. *)
Lemma staged_kpts base u s over d lu s' :
  staged base false u s over d lu s' →
  staged base true u s over (<["user_kpoints_settings" := u]> d) lu s'.
Proof.
  intros [Hmade Hext Hnew Hlive Huis Hcont]. split; try done.
  - by rewrite lookup_insert_ne.
  - intros Hwf Hu. destruct (Hcont Hwf Hu) as (Hall & Hun & Hsnap).
    split; [|split].
    + intros k v. destruct (decide (k = "user_kpoints_settings")) as [->|Hne].
      * rewrite lookup_insert_eq. intros [= <-]. by eapply allocated_ext.
      * rewrite lookup_insert_ne by done. apply Hall.
    + intros k Hk. destruct (decide (k = "user_kpoints_settings")) as [->|Hne].
      * rewrite lookup_insert_eq. intros [= ->].
        apply allocated_ref in Hu. rewrite Hnew in Hu. by destruct Hu.
      * rewrite lookup_insert_ne by done. by apply Hun.
    + rewrite snapshot_insert, Hsnap. unfold derived.
      rewrite (content_ext (store s)) by done.
      by apply insert_insert_ne.
Qed.

(** The staged form with or without the caller's k-point settings, as
    the test [if user_kpoints_settings:] decides. *)
Lemma staged_if_kpts base (b : bool) u s over d lu s' :
  staged base false u s over d lu s' →
  staged base b u s over
    (if b then <["user_kpoints_settings" := u]> d else d) lu s'.
Proof. intros Hst. destruct b; [|done]. by apply staged_kpts. Qed.

(** [from_dict] ends the derivation. *)
Lemma staged_done base b u s over d lu s1 vis s2 :
  (allocated (store s) u = true → b = val_true (store s) u) →
  staged base b u s over d lu s1 →
  vis_class vis = vis_class base →
  copy_post d s1 (vis_args vis) s2 →
  derivation base u s over vis s2.
Proof.
  intros Hb [Hmade Hext Hnew Hlive Huis Hcont] Hcls
    [Hmade2 Hext2 Hfresh2 _ _ Hsnap2].
  split; try done.
  - congruence.
  - by eapply ext_trans.
  - intros Hwf Hu. destruct (Hcont Hwf Hu) as (Hall & Hun & Hsnap).
    split.
    + intros k [p|l] Hkl; [done|]. apply allocated_ref.
      by apply (Hfresh2 k).
    + unfold serialized. rewrite Hsnap2, Hsnap by done.
      by rewrite (Hb Hu).
Qed.

(** ** The blocks of the assemblers *)

(** Lines 59-65 of [dispersion.py], 62-68 of
    [thermal_conductivity.py]: the relaxation settings. *)
Lemma wp_relax {B} base u s (k : InputSet → M B) Q :
  (uis_ok base = true →
   ∀ vis s', derivation base u s uis_common vis s' → wp (k vis) s' Q) →
  (uis_ok base = false →
   ∀ s', made s' = made s → ext (store s) (store s') →
         Q (Raise no_update) s') →
  wp (as_dict base ≫= λ d,
      get_or_new d "user_incar_settings" ≫= λ uis,
      dict_update uis uis_common ≫= λ _,
      val_truthy u ≫= λ b : bool,
      from_dict (vis_class base)
        (if b then
           <["user_kpoints_settings" := u]> (<["user_incar_settings" := uis]> d)
         else <["user_incar_settings" := uis]> d) ≫= k) s Q.
Proof.
  intros Hok Hbad.
  apply wp_bind, wp_as_dict. intros d s1 Hcopy.
  apply wp_bind, wp_get_or_new. intros l_e Hle.
  destruct (uis_ok base) eqn:Huis.
  - destruct (stage_intro base u s d s1 l_e Hcopy Hle Huis) as (lu & -> & Hst).
    apply wp_bind, wp_dict_update_ref.
    apply (staged_update _ _ _ _ _ _ _ _ uis_common) in Hst.
    rewrite (right_id_L ∅ (∪)) in Hst. cbn [store made] in *.
    match goal with
    | H : staged _ _ _ _ _ _ _ ?x |- _ => set (s3 := x) in *
    end.
    apply wp_bind, wp_val_truthy.
    apply wp_bind, wp_from_dict. intros vis s4 Hcls Hcopy4.
    apply (Hok eq_refl).
    eapply (staged_done base (val_true (store s3) u) u s uis_common);
      [|by apply staged_if_kpts, Hst|done|exact Hcopy4].
    intros Hu. apply val_true_ext; [|done]. apply Hst.
  - destruct (stage_lit base s d s1 l_e Hcopy Huis) as (p & ->).
    apply wp_bind, wp_dict_update_lit. apply (Hbad eq_refl); cbn.
    + apply Hcopy.
    + eapply ext_trans; [apply Hcopy|]. by apply ext_insert_new.
Qed.

(** Lines 75-79 of [dispersion.py] (74-78 and 111-115 of
    [thermal_conductivity.py]): the serialised form and the mapping the
    mode's constants go into. *)
Lemma wp_stage {B} base u s (k : gmap string val → bool → val → M B) Q :
  (uis_ok base = true →
   ∀ d lu b s',
     (allocated (store s) u = true → b = val_true (store s) u) →
     staged base b u s uis_common
       (<["user_incar_settings" := VRef lu]>
          (if b then <["user_kpoints_settings" := u]> d else d)) lu s' →
     wp (k d b (VRef lu)) s' Q) →
  (uis_ok base = false →
   ∀ s', made s' = made s → ext (store s) (store s') →
         Q (Raise no_update) s') →
  wp (as_dict base ≫= λ d,
      val_truthy u ≫= λ b : bool,
      get_or_new (if b then <["user_kpoints_settings" := u]> d else d)
        "user_incar_settings" ≫= λ uis,
      dict_update uis uis_common ≫= λ _, k d b uis) s Q.
Proof.
  intros Hok Hbad.
  apply wp_bind, wp_as_dict. intros d s1 Hcopy.
  apply wp_bind, wp_val_truthy.
  set (b := val_true (store s1) u).
  apply wp_bind, wp_get_or_new. intros l_e Hle.
  assert (Hget : (if b then <["user_kpoints_settings" := u]> d else d)
                   !! "user_incar_settings" = d !! "user_incar_settings").
  { destruct b; [|done]. by rewrite lookup_insert_ne. }
  rewrite Hget.
  destruct (uis_ok base) eqn:Huis.
  - destruct (stage_intro base u s d s1 l_e Hcopy Hle Huis) as (lu & -> & Hst).
    apply wp_bind, wp_dict_update_ref.
    apply (staged_update _ _ _ _ _ _ _ _ uis_common) in Hst.
    rewrite (right_id_L ∅ (∪)) in Hst.
    apply (Hok eq_refl _ lu b).
    + intros Hu. apply val_true_ext; [apply Hcopy|done].
    + apply (staged_if_kpts _ b) in Hst.
      destruct b; [|done]. by rewrite insert_insert_ne.
  - destruct (stage_lit base s d s1 l_e Hcopy Huis) as (p & ->).
    apply wp_bind, wp_dict_update_lit. apply (Hbad eq_refl); cbn.
    + apply Hcopy.
    + eapply ext_trans; [apply Hcopy|]. by apply ext_insert_new.
Qed.

(** The mode's constants go in, and the input set is read back
    (lines 82-84 and 95-97 of [dispersion.py]). *)
Lemma wp_finish {B} base b u s over d lu s1 (o : gmap string pyval)
    (k : InputSet → M B) Q :
  (allocated (store s) u = true → b = val_true (store s) u) →
  staged base b u s over (<["user_incar_settings" := VRef lu]> d) lu s1 →
  (∀ vis s', derivation base u s (o ∪ over) vis s' → wp (k vis) s' Q) →
  wp (dict_update (VRef lu) o ≫= λ _,
      from_dict (vis_class base) (<["user_incar_settings" := VRef lu]> d)
        ≫= k) s1 Q.
Proof.
  intros Hb Hst Hk.
  apply wp_bind, wp_dict_update_ref.
  apply (staged_update _ _ _ _ _ _ _ _ o) in Hst.
  apply wp_bind, wp_from_dict. intros vis s2 Hcls Hcopy.
  apply Hk. by eapply staged_done.
Qed.

(** A derivation begun later reads the same base, as long as the base
    was allocated at the start. *)
Lemma derivation_from base u s0 s over vis s' :
  ext (store s0) (store s) →
  derivation base u s over vis s' →
  well_formed s0 base = true → allocated (store s0) u = true →
  all_allocated (store s') (vis_args vis) ∧
  serialized s' vis = derived s0 base (val_true (store s0) u) u over.
Proof.
  intros He [_ _ _ Hcont] Hwf Hu.
  pose proof (proj1 (well_formed_all _ _) Hwf) as Hall.
  assert (Hwf' : well_formed s base = true).
  { apply well_formed_all. by eapply all_allocated_ext. }
  destruct (Hcont Hwf' (allocated_ext _ _ _ He Hu)) as [Ha ->].
  split; [done|]. unfold derived, serialized, user_incar_settings.
  rewrite (val_true_ext (store s0)), (content_ext (store s0)),
    (snapshot_ext (store s0)) by done.
  destruct (vis_args base !! "user_incar_settings") as [[p|l]|] eqn:Hl;
    try done.
  rewrite (ext_total (store s0)); [done|done|].
  apply allocated_ref. by apply (Hall _ _ Hl).
Qed.

#[local] Opaque wp.

(** ** What [get_wf_dispersion] does *)

Lemma get_wf_dispersion_spec (structure : Structure)
    (vasp_input_set : option InputSet) (vasp_cmd : string) (db_file : pyval)
    (mode : string) (supercell : pyval) (u : val) (optimize : bool)
    (tag : string) s :
  let base := default (MPRelaxSet structure) vasp_input_set in
  let force := String.eqb mode "force" in
  let n := made s in
  let n1 := if optimize then S n else n in
  wp (get_wf_dispersion structure vasp_input_set vasp_cmd db_file mode
        supercell u optimize tag) s
    (λ r s',
       ext (store s) (store s') ∧
       match r with
       | Raise e =>
           (uis_ok base = false ∧ e = no_update) ∨
           (uis_ok base = true ∧ mode ≠ "force" ∧ mode ≠ "hessian" ∧
            e = mode_error)
       | Ok wf =>
           uis_ok base = true ∧ (mode = "force" ∨ mode = "hessian") ∧
           wf_name wf = Some (reduced_formula structure +:+ "-dispersion") ∧
           ∃ vis_relax vis_disp,
             wf_fws wf =
               (if optimize then
                  [ {| fw_id := n;
                       fw_body := OptimizeFW structure vis_relax vasp_cmd db_file;
                       fw_parents := [];
                       fw_name := if force
                                  then Some (tag +:+ " structure optimization")
                                  else None |} ]
                else [])
               ++ {| fw_id := n1;
                     fw_body := DispersionFW structure vis_disp vasp_cmd
                                  db_file mode supercell;
                     fw_parents := if optimize then [n] else [];
                     fw_name := if force then Some (tag +:+ " dispersion")
                                else None |}
               :: (if force then
                     [ {| fw_id := S n1;
                          fw_body := PlainFW [DispersionAnalysisTask tag db_file
                                                mode supercell];
                          fw_parents := [n1];
                          fw_name := Some (reduced_formula structure
                                           +:+ "-dispersion_force: analysis") |} ]
                   else []) ∧
             vis_class vis_disp = vis_class base ∧
             (well_formed s base = true → allocated (store s) u = true →
              all_allocated (store s') (vis_args vis_disp) ∧
              serialized s' vis_disp
                = derived s base (val_true (store s) u) u (mode_overrides mode))
       end).
Proof.
  intros base force n n1.
  unfold get_wf_dispersion, get_wf_dispersion_with. cbv zeta. fold base.
  apply wp_bind.
  eapply (wp_mono _ _
    (λ r s1, ext (store s) (store s1) ∧
       match r with
       | Ok (fws, parent2) =>
           (uis_ok base = true ∨ optimize = false) ∧
           made s1 = n1 ∧ parent2 = fws ∧
           ∃ vis_relax,
             fws = if optimize then
                     [ {| fw_id := n;
                          fw_body := OptimizeFW structure vis_relax vasp_cmd db_file;
                          fw_parents := [];
                          fw_name := if force
                                     then Some (tag +:+ " structure optimization")
                                     else None |} ]
                   else []
       | Raise e => uis_ok base = false ∧ e = no_update
       end)).
  { destruct optimize.
    - apply wp_relax.
      + intros Hok vis s1 Hd. apply wp_bind.
        pose proof (derivation_made _ _ _ _ _ _ Hd) as Hm.
        fold force. destruct force.
        * apply wp_new_fw. apply wp_ret. cbn. rewrite Hm.
          split; [apply Hd|]. split; [by left|]. do 2 (split; [done|]).
          by exists vis.
        * apply wp_new_fw. apply wp_ret. cbn. rewrite Hm.
          split; [apply Hd|]. split; [by left|]. do 2 (split; [done|]).
          by exists vis.
      + intros Hok s1 Hm He. by split.
    - apply wp_ret. split; [apply ext_refl|]. split; [by right|].
      split; [done|]. split; [done|]. by exists base. }
  intros [[fws parent2]|e] s1 [He1 H1]; [|by split; [|left]].
  destruct H1 as (Hok1 & Hm1 & -> & vis_relax & Hfws).
  apply wp_stage.
  - intros Hok d lu b s2 Hb Hst. fold force. apply wp_bind.
    destruct force eqn:Hforce; [|destruct (String.eqb mode "hessian") eqn:Hhess].
    + eapply wp_finish; [exact Hb|exact Hst|].
      intros vis s3 Hd.
      apply wp_bind, wp_new_fw. apply wp_bind, wp_new_fw.
      apply wp_ret. apply wp_ret. cbn.
      pose proof (derivation_made _ _ _ _ _ _ Hd) as Hm3. rewrite Hm3, Hm1.
      split; [eapply ext_trans; [exact He1|apply Hd]|].
      split; [done|]. split; [left; by apply String.eqb_eq|]. split; [done|].
      exists vis_relax, vis. split; [subst fws; by destruct optimize|].
      split; [apply Hd|]. intros Hwf Hu.
      destruct (derivation_from base u s s1 _ vis s3 He1 Hd Hwf Hu) as [Ha Hs].
      split; [done|]. unfold mode_overrides. fold force. by rewrite Hforce.
    + eapply wp_finish; [exact Hb|exact Hst|].
      intros vis s3 Hd.
      apply wp_bind, wp_new_fw. apply wp_ret. apply wp_ret. cbn.
      pose proof (derivation_made _ _ _ _ _ _ Hd) as Hm3. rewrite Hm3, Hm1.
      split; [eapply ext_trans; [exact He1|apply Hd]|].
      split; [done|]. split; [right; by apply String.eqb_eq|]. split; [done|].
      exists vis_relax, vis. split; [subst fws; by destruct optimize|].
      split; [apply Hd|]. intros Hwf Hu.
      destruct (derivation_from base u s s1 _ vis s3 He1 Hd Hwf Hu) as [Ha Hs].
      split; [done|]. unfold mode_overrides. fold force. by rewrite Hforce.
    + apply wp_raise. split; [eapply ext_trans; [exact He1|apply Hst]|].
      right. split; [done|].
      split; [by apply String.eqb_neq|]. split; [by apply String.eqb_neq|done].
  - intros Hok s2 Hm2 He2. split; [by eapply ext_trans|]. by left.
Qed.

(** ** What [get_wf_thermal_conductivity] does *)

Lemma get_wf_thermal_conductivity_spec (structure : Structure)
    (vasp_input_set : option InputSet) (mode vasp_cmd third_cmd : string)
    (db_file supercell cutoff_3rd : pyval) (u : val) (optimize : bool)
    (tag : string) s :
  let base := default (MPRelaxSet structure) vasp_input_set in
  let force := String.eqb mode "force" in
  let n := made s in
  let n1 := if optimize then S n else n in
  let n4 := if force then S (S n1) else S n1 in
  let label := reduced_formula structure +:+ "-" +:+ tag +:+ " dispersion" in
  wp (get_wf_thermal_conductivity structure vasp_input_set mode vasp_cmd
        third_cmd db_file supercell cutoff_3rd u optimize tag) s
    (λ r s',
       ext (store s) (store s') ∧
       match r with
       | Raise e =>
           (uis_ok base = false ∧ e = no_update) ∨
           (uis_ok base = true ∧ mode ≠ "force" ∧ mode ≠ "hessian" ∧
            e = mode_error)
       | Ok wf =>
           uis_ok base = true ∧ (mode = "force" ∨ mode = "hessian") ∧
           wf_name wf
             = Some (reduced_formula structure +:+ "-thermal conductivity") ∧
           ∃ vis_relax vis_disp vis_third,
             wf_fws wf =
               (if optimize then
                  [ {| fw_id := n;
                       fw_body := OptimizeFW structure vis_relax vasp_cmd db_file;
                       fw_parents := [];
                       fw_name := Some (tag +:+ " structure optimization") |} ]
                else [])
               ++ {| fw_id := n1;
                     fw_body := DispersionFW structure vis_disp vasp_cmd
                                  db_file mode supercell;
                     fw_parents := if optimize then [n] else [];
                     fw_name := Some (tag +:+ " dispersion") |}
               :: (if force then
                     [ {| fw_id := S n1;
                          fw_body := PlainFW [PassCalcLocs label;
                                              DispersionAnalysisTask tag db_file
                                                mode supercell];
                          fw_parents := [n1];
                          fw_name := Some label |} ]
                   else [])
               ++ [ {| fw_id := n4;
                       fw_body := ThirdOrderFW structure vis_third third_cmd
                                    vasp_cmd db_file supercell cutoff_3rd;
                       fw_parents := if optimize then [n] else [];
                       fw_name := Some (tag +:+ " thirdorder") |};
                    {| fw_id := S n4;
                       fw_body := PlainFW [ThermalConductivityTask tag db_file
                                             third_cmd supercell cutoff_3rd];
                       fw_parents := [if force then S n1 else n1; n4];
                       fw_name := Some (reduced_formula structure
                                        +:+ "-thermal conductivity") |} ]
       end).
Proof.
  intros base force n n1 n4 label.
  unfold get_wf_thermal_conductivity, get_wf_thermal_conductivity_with.
  cbv zeta. fold base. fold label.
  apply wp_bind.
  eapply (wp_mono _ _
    (λ r s1, ext (store s) (store s1) ∧
       match r with
       | Ok (fws, parent1) =>
           made s1 = n1 ∧ parent1 = fws ∧
           ∃ vis_relax,
             fws = if optimize then
                     [ {| fw_id := n;
                          fw_body := OptimizeFW structure vis_relax vasp_cmd db_file;
                          fw_parents := [];
                          fw_name := Some (tag +:+ " structure optimization") |} ]
                   else []
       | Raise e => uis_ok base = false ∧ e = no_update
       end)).
  { destruct optimize.
    - apply wp_relax.
      + intros Hok vis s1 Hd. apply wp_bind.
        pose proof (derivation_made _ _ _ _ _ _ Hd) as Hm.
        apply wp_new_fw. apply wp_ret. cbn. rewrite Hm.
        split; [apply Hd|]. do 2 (split; [done|]). by exists vis.
      + intros Hok s1 Hm He. by split.
    - apply wp_ret. split; [apply ext_refl|].
      do 2 (split; [done|]). by exists base. }
  intros [[fws parent1]|e] s1 [He1 H1]; [|by split; [|left]].
  destruct H1 as (Hm1 & -> & vis_relax & Hfws).
  apply wp_stage; [|intros Hok s2 Hm2 He2; split; [by eapply ext_trans|by left]].
  intros Hok d lu b s2 Hb Hst. fold force. apply wp_bind.
  eapply (wp_mono _ _
    (λ r s3, ext (store s) (store s3) ∧
       match r with
       | Ok (fws', parent2) =>
           (mode = "force" ∨ mode = "hessian") ∧
           made s3 = n4 ∧
           ∃ vis_disp,
             fws' = fws
               ++ {| fw_id := n1;
                     fw_body := DispersionFW structure vis_disp vasp_cmd
                                  db_file mode supercell;
                     fw_parents := fw_id <$> fws;
                     fw_name := Some (tag +:+ " dispersion") |}
               :: (if force then
                     [ {| fw_id := S n1;
                          fw_body := PlainFW [PassCalcLocs label;
                                              DispersionAnalysisTask tag db_file
                                                mode supercell];
                          fw_parents := [n1];
                          fw_name := Some label |} ]
                   else []) ∧
             fw_id <$> parent2 = [if force then S n1 else n1]
       | Raise e => mode ≠ "force" ∧ mode ≠ "hessian" ∧ e = mode_error
       end)).
  { subst n4. destruct force eqn:Hforce;
      [|destruct (String.eqb mode "hessian") eqn:Hhess].
    - eapply wp_finish; [exact Hb|exact Hst|].
      intros vis s3 Hd.
      apply wp_bind, wp_new_fw. apply wp_bind, wp_new_fw. apply wp_ret. cbn.
      pose proof (derivation_made _ _ _ _ _ _ Hd) as Hm3. rewrite Hm3, Hm1.
      split; [eapply ext_trans; [exact He1|apply Hd]|].
      split; [left; by apply String.eqb_eq|]. split; [done|].
      exists vis. by rewrite <- (assoc_L (++)).
    - eapply wp_finish; [exact Hb|exact Hst|].
      intros vis s3 Hd.
      apply wp_bind, wp_new_fw. apply wp_ret. cbn.
      pose proof (derivation_made _ _ _ _ _ _ Hd) as Hm3. rewrite Hm3, Hm1.
      split; [eapply ext_trans; [exact He1|apply Hd]|].
      split; [right; by apply String.eqb_eq|]. split; [done|].
      by exists vis.
    - apply wp_raise. split; [eapply ext_trans; [exact He1|apply Hst]|].
      split; [by apply String.eqb_neq|]. split; [by apply String.eqb_neq|done]. }
  intros [[fws' parent2]|e] s3 [He3 H3]; [|by split; [|right]].
  destruct H3 as (Hmode & Hm3 & vis_disp & -> & Hp2).
  apply wp_stage; [|intros Hf; congruence].
  intros _ d' lu' b' s4 Hb' Hst'.
  eapply wp_finish; [exact Hb'|exact Hst'|].
  intros vis_third s5 Hd.
  apply wp_bind, wp_new_fw. apply wp_bind, wp_new_fw. apply wp_ret. cbn.
  pose proof (derivation_made _ _ _ _ _ _ Hd) as Hm5. rewrite Hm5, Hm3.
  split; [eapply ext_trans; [exact He3|apply Hd]|].
  do 3 (split; [done|]).
  exists vis_relax, vis_disp, vis_third.
  rewrite fmap_app, Hp2. subst fws. cbn.
  destruct optimize; destruct force; reflexivity.
Qed.

(** ** The graphs *)

(** C1. [get_wf_dispersion] with a valid mode returns a graph whose
    units are, in order: the optimisation unit when
    [optimize_structure] is set, the dispersion unit, and the analysis
    unit in mode "force" only.  So "force" gives 2 units without and 3
    with optimisation, "hessian" gives 1 and 2, with no analysis unit. *)
Theorem dispersion_unit_count (structure : Structure)
    (vasp_input_set : option InputSet) (vasp_cmd : string) (db_file : pyval)
    (mode : string) (supercell : pyval) (user_kpoints_settings : val)
    (optimize_structure : bool) (tag : string) s :
  uis_ok (default (MPRelaxSet structure) vasp_input_set) = true →
  mode = "force" ∨ mode = "hessian" →
  ∃ wf s',
    get_wf_dispersion structure vasp_input_set vasp_cmd db_file mode
      supercell user_kpoints_settings optimize_structure tag s = (Ok wf, s') ∧
    kind <$> wf_fws wf =
      (if optimize_structure then [Optimize] else [])
      ++ Dispersion :: (if String.eqb mode "force" then [Analysis] else []) ∧
    length (wf_fws wf) =
      match String.eqb mode "force", optimize_structure with
      | true, false => 2%nat
      | true, true => 3%nat
      | false, false => 1%nat
      | false, true => 2%nat
      end.
Proof.
  intros Hok Hmode.
  pose proof (get_wf_dispersion_spec structure vasp_input_set
    vasp_cmd db_file mode supercell user_kpoints_settings optimize_structure
    tag s) as Hspec.
    apply wp_run in Hspec. destruct Hspec as (r & s' & Hrun & _ & Hpost).
  destruct r as [wf|e].
  - exists wf, s'. split; [done|].
    destruct Hpost as (_ & _ & _ & vis_relax & vis_disp & -> & _).
    by destruct optimize_structure, (String.eqb mode "force").
  - exfalso. destruct Hpost as [[Hf _]|(_ & Hn1 & Hn2 & _)]; [congruence|].
    by destruct Hmode.
Qed.

Lemma dispersion_unit_count_witness :
  ∃ wf s',
    get_wf_dispersion silicon (Some sample_set) "vasp" PNone "force"
      (cubic 3) (VRef 2%positive) false "2017-09-13" sample_state
      = (Ok wf, s') ∧
    kind <$> wf_fws wf = [Dispersion; Analysis] ∧
    length (wf_fws wf) = 2%nat.
Proof.
  apply (dispersion_unit_count silicon (Some sample_set) "vasp" PNone "force"
           (cubic 3) (VRef 2%positive) false "2017-09-13" sample_state).
  - reflexivity.
  - left. reflexivity.
Defined.

(** C3 as stated fails: on a base input set built with
    [user_incar_settings=None], both assemblers raise [AttributeError]
    where they update the settings, before the mode is looked at, so
    mode "bogus" never gets its mode error. *)
Lemma invalid_mode_not_reached :
  (get_wf_dispersion silicon (Some sample_set_none) "vasp" PNone "bogus"
     (cubic 3) (VLit PNone) false "2017-09-13" sample_state).1
  = Raise no_update ∧
  (get_wf_thermal_conductivity silicon (Some sample_set_none) "bogus" "vasp"
     "thirdorder_vasp.py" PNone (cubic 3) (PInt (-4)) (VLit PNone) false
     "2017-09-13" sample_state).1
  = Raise no_update ∧
  no_update ≠ mode_error.
Proof.
  split; [vm_compute; reflexivity|]. split; [vm_compute; reflexivity|].
  discriminate.
Qed.

(** C3, amended.  On a base input set whose [user_incar_settings] is a
    mapping or absent, both assemblers called with a mode other than
    "force" and "hessian" raise the mode error (a [ValueError]), and so
    return no graph. *)
Theorem invalid_mode_raises (structure : Structure)
    (vasp_input_set : option InputSet) (mode vasp_cmd third_cmd : string)
    (db_file supercell cutoff_3rd : pyval) (user_kpoints_settings : val)
    (optimize_structure : bool) (tag : string) s :
  uis_ok (default (MPRelaxSet structure) vasp_input_set) = true →
  mode ≠ "force" → mode ≠ "hessian" →
  (∃ s', get_wf_dispersion structure vasp_input_set vasp_cmd db_file mode
           supercell user_kpoints_settings optimize_structure tag s
         = (Raise mode_error, s')) ∧
  (∃ s', get_wf_thermal_conductivity structure vasp_input_set mode vasp_cmd
           third_cmd db_file supercell cutoff_3rd user_kpoints_settings
           optimize_structure tag s
         = (Raise mode_error, s')).
Proof.
  intros Hok Hn1 Hn2. split.
  - pose proof (get_wf_dispersion_spec structure vasp_input_set
      vasp_cmd db_file mode supercell user_kpoints_settings optimize_structure
      tag s) as Hspec.
    apply wp_run in Hspec. destruct Hspec as (r & s' & Hrun & _ & Hpost).
    exists s'. rewrite Hrun. destruct r as [wf|e].
    + destruct Hpost as (_ & [?|?] & _); congruence.
    + destruct Hpost as [[Hf _]|(_ & _ & _ & ->)]; [congruence|done].
  - pose proof (get_wf_thermal_conductivity_spec structure
      vasp_input_set mode vasp_cmd third_cmd db_file supercell cutoff_3rd
      user_kpoints_settings optimize_structure tag s) as Hspec.
    apply wp_run in Hspec. destruct Hspec as (r & s' & Hrun & _ & Hpost).
    exists s'. rewrite Hrun. destruct r as [wf|e].
    + destruct Hpost as (_ & [?|?] & _); congruence.
    + destruct Hpost as [[Hf _]|(_ & _ & _ & ->)]; [congruence|done].
Qed.

Lemma invalid_mode_raises_witness :
  (∃ s', get_wf_dispersion silicon (Some sample_set) "vasp" PNone "bogus"
           (cubic 4) (VRef 2%positive) true "2017-09-13" sample_state
         = (Raise mode_error, s')) ∧
  (∃ s', get_wf_thermal_conductivity silicon (Some sample_set) "bogus" "vasp"
           "thirdorder_vasp.py" PNone (cubic 4) (PInt (-4)) (VRef 2%positive)
           true "2017-09-13" sample_state
         = (Raise mode_error, s')).
Proof.
  apply (invalid_mode_raises silicon (Some sample_set) "bogus" "vasp"
           "thirdorder_vasp.py" PNone).
  - reflexivity.
  - discriminate.
  - discriminate.
Defined.

(** Edges go from smaller to larger identities. *)
Lemma edges_increase n wf a b :
  built_in_order n wf → tc (edge wf) a b → (fw_id a < fw_id b)%nat.
Proof.
  intros Hord Htc. induction Htc as [a b Hab|a c b Hac _ IH].
  - destruct Hab as (_ & Hb & Hp). destruct (Hord b Hb) as [_ Hpar].
    by destruct (Hpar _ Hp).
  - destruct Hac as (_ & Hc & Hp). destruct (Hord c Hc) as [_ Hpar].
    destruct (Hpar _ Hp). lia.
Qed.

Lemma built_in_order_acyclic n wf : built_in_order n wf → acyclic wf.
Proof.
  intros Hord fw Htc. pose proof (edges_increase n wf fw fw Hord Htc). lia.
Qed.

Lemma has_parent (fws : list Firework) (p : nat) :
  p ∈ fw_id <$> fws → ∃ pfw, pfw ∈ fws ∧ fw_id pfw = p.
Proof.
  intros Hp. apply list_elem_of_fmap in Hp as (pfw & -> & Hin). eauto.
Qed.

(** Discharges [built_in_order] on a graph written out unit by unit. *)
Ltac in_order :=
  let fw := fresh "fw" in
  let Hin := fresh "Hin" in
  let p := fresh "p" in
  let Hp := fresh "Hp" in
  intros fw Hin; cbn in Hin;
  repeat (apply elem_of_cons in Hin as [->|Hin]);
  try (by apply elem_of_nil in Hin);
  (split; [cbn; lia|]);
  intros p Hp; cbn in Hp;
  repeat (apply elem_of_cons in Hp as [->|Hp]);
  try (by apply elem_of_nil in Hp);
  (split; [cbn; lia|]);
  apply has_parent; cbn; set_solver.

(** C9. A graph returned by either assembler has only units built in
    that call, every parent of a unit is a unit of the graph built
    before it, and therefore the graph has no cycle. *)
Theorem returned_graph_acyclic (structure : Structure)
    (vasp_input_set : option InputSet) (mode vasp_cmd third_cmd : string)
    (db_file supercell cutoff_3rd : pyval) (user_kpoints_settings : val)
    (optimize_structure : bool) (tag : string) s wf s' :
  get_wf_dispersion structure vasp_input_set vasp_cmd db_file mode supercell
    user_kpoints_settings optimize_structure tag s = (Ok wf, s') ∨
  get_wf_thermal_conductivity structure vasp_input_set mode vasp_cmd
    third_cmd db_file supercell cutoff_3rd user_kpoints_settings
    optimize_structure tag s = (Ok wf, s') →
  built_in_order (made s) wf ∧ acyclic wf.
Proof.
  intros Hrun.
  assert (Hord : built_in_order (made s) wf).
  { destruct Hrun as [Hrun|Hrun].
    - pose proof (get_wf_dispersion_spec structure vasp_input_set vasp_cmd
        db_file mode supercell user_kpoints_settings optimize_structure tag s)
        as Hspec.
      apply wp_run in Hspec. destruct Hspec as (r & s1 & Hrun' & _ & Hpost).
      rewrite Hrun in Hrun'. injection Hrun' as <- <-.
      destruct Hpost as (_ & _ & _ & vis_relax & vis_disp & Hfws & _).
      unfold built_in_order. rewrite Hfws.
      destruct optimize_structure, (String.eqb mode "force"); in_order.
    - pose proof (get_wf_thermal_conductivity_spec structure vasp_input_set
        mode vasp_cmd third_cmd db_file supercell cutoff_3rd
        user_kpoints_settings optimize_structure tag s) as Hspec.
      apply wp_run in Hspec. destruct Hspec as (r & s1 & Hrun' & _ & Hpost).
      rewrite Hrun in Hrun'. injection Hrun' as <- <-.
      destruct Hpost as (_ & _ & _ & vis_relax & vis_disp & vis_third & Hfws).
      unfold built_in_order. rewrite Hfws.
      destruct optimize_structure, (String.eqb mode "force"); in_order. }
  split; [done|]. by eapply built_in_order_acyclic.
Qed.

Lemma returned_graph_acyclic_witness :
  ∃ wf s',
    get_wf_thermal_conductivity silicon (Some sample_set) "force" "vasp"
      "thirdorder_vasp.py" PNone (cubic 4) (PInt (-4)) (VRef 2%positive)
      true "2017-09-13" sample_state = (Ok wf, s') ∧
    built_in_order 0 wf ∧ acyclic wf.
Proof.
  destruct (get_wf_thermal_conductivity silicon (Some sample_set) "force"
              "vasp" "thirdorder_vasp.py" PNone (cubic 4) (PInt (-4))
              (VRef 2%positive) true "2017-09-13" sample_state)
    as [[wf|e] s'] eqn:Hrun.
  - exists wf, s'. split; [reflexivity|].
    apply (returned_graph_acyclic silicon (Some sample_set) "force" "vasp"
             "thirdorder_vasp.py" PNone (cubic 4) (PInt (-4))
             (VRef 2%positive) true "2017-09-13" sample_state wf s').
    right. exact Hrun.
  - exfalso. vm_compute in Hrun. discriminate Hrun.
Defined.

(** C2. [get_wf_thermal_conductivity] with a valid mode returns a graph
    that ends with the third-order unit and the thermal conductivity
    unit.  The third-order unit has the relaxation units [P1] as
    parents (the optimisation unit alone, or none); the last unit has
    the terminal unit of the dispersion branch (the analysis unit in
    mode "force", the dispersion unit in mode "hessian") and the
    third-order unit. *)
Theorem thermal_conductivity_parents (structure : Structure)
    (vasp_input_set : option InputSet) (mode vasp_cmd third_cmd : string)
    (db_file supercell cutoff_3rd : pyval) (user_kpoints_settings : val)
    (optimize_structure : bool) (tag : string) s :
  uis_ok (default (MPRelaxSet structure) vasp_input_set) = true →
  mode = "force" ∨ mode = "hessian" →
  ∃ wf s' P1 branch terminal third final,
    get_wf_thermal_conductivity structure vasp_input_set mode vasp_cmd
      third_cmd db_file supercell cutoff_3rd user_kpoints_settings
      optimize_structure tag s = (Ok wf, s') ∧
    wf_fws wf = P1 ++ branch ++ [third; final] ∧
    kind <$> P1 = (if optimize_structure then [Optimize] else []) ∧
    kind <$> branch
      = Dispersion :: (if String.eqb mode "force" then [Analysis] else []) ∧
    last branch = Some terminal ∧
    kind terminal
      = (if String.eqb mode "force" then Analysis else Dispersion) ∧
    kind third = ThirdOrder ∧
    fw_parents third = fw_id <$> P1 ∧
    kind final = ThermalConductivity ∧
    fw_parents final = [fw_id terminal; fw_id third].
Proof.
  intros Hok Hmode.
  pose proof (get_wf_thermal_conductivity_spec structure vasp_input_set mode
    vasp_cmd third_cmd db_file supercell cutoff_3rd user_kpoints_settings
    optimize_structure tag s) as Hspec.
  apply wp_run in Hspec. destruct Hspec as (r & s' & Hrun & _ & Hpost).
  destruct r as [wf|e].
  - destruct Hpost as (_ & _ & _ & vis_relax & vis_disp & vis_third & Hfws).
    exists wf, s'.
    destruct optimize_structure, (String.eqb mode "force");
      [eexists [_], [_; _], _, _, _ | eexists [_], [_], _, _, _
      |eexists [], [_; _], _, _, _ | eexists [], [_], _, _, _];
      (split; [exact Hrun|]; split; [exact Hfws|]; by repeat split).
  - exfalso. destruct Hpost as [[Hf _]|(_ & Hn1 & Hn2 & _)]; [congruence|].
    by destruct Hmode.
Qed.

Lemma thermal_conductivity_parents_witness :
  ∃ wf s' P1 branch terminal third final,
    get_wf_thermal_conductivity silicon (Some sample_set) "hessian" "vasp"
      "thirdorder_vasp.py" PNone (cubic 4) (PInt (-4)) (VRef 2%positive)
      true "2017-09-13" sample_state = (Ok wf, s') ∧
    wf_fws wf = P1 ++ branch ++ [third; final] ∧
    kind <$> P1 = [Optimize] ∧
    kind <$> branch = [Dispersion] ∧
    last branch = Some terminal ∧
    kind terminal = Dispersion ∧
    kind third = ThirdOrder ∧
    fw_parents third = fw_id <$> P1 ∧
    kind final = ThermalConductivity ∧
    fw_parents final = [fw_id terminal; fw_id third].
Proof.
  apply (thermal_conductivity_parents silicon (Some sample_set) "hessian"
           "vasp" "thirdorder_vasp.py" PNone (cubic 4) (PInt (-4))
           (VRef 2%positive) true "2017-09-13" sample_state).
  - reflexivity.
  - right. reflexivity.
Defined.

(** ** The base input set *)

Lemma serialized_ext s s' vis :
  ext (store s) (store s') → well_formed s vis = true →
  serialized s' vis = serialized s vis.
Proof.
  intros He Hwf. apply snapshot_ext; [done|]. by apply well_formed_all.
Qed.

Lemma user_incar_settings_ext s s' vis :
  ext (store s) (store s') → well_formed s vis = true →
  user_incar_settings s' vis = user_incar_settings s vis.
Proof.
  intros He Hwf. apply well_formed_all in Hwf. unfold user_incar_settings.
  destruct (vis_args vis !! "user_incar_settings") as [[p|l]|] eqn:Hl;
    try done.
  apply ext_total; [done|]. apply allocated_ref. by apply (Hwf _ _ Hl).
Qed.

(** [serialized] is what [as_dict] returns, read by value. *)
Lemma as_dict_serialized s vis :
  well_formed s vis = true →
  ∃ d s1, as_dict vis s = (Ok d, s1) ∧ snapshot (store s1) d = serialized s vis.
Proof.
  intros Hwf. unfold as_dict.
  destruct (copy_entries_post (map_to_list (vis_args vis))
              (NoDup_fst_map_to_list _) s) as (d & s1 & Hrun & Hpost).
  rewrite list_to_map_to_list in Hpost. exists d, s1. split; [done|].
  apply Hpost. by apply well_formed_all.
Qed.

(** With the serialiser that copies every mapping, the assemblers
    write to copies only: the input set handed to them is afterwards
    what it was, whether the call returns or raises.  This is a fact
    about [as_dict]: it fails for the serialiser that shares. *)
Lemma copying_serialiser_keeps_base (structure : Structure) (vis : InputSet)
    (mode vasp_cmd third_cmd : string) (db_file supercell cutoff_3rd : pyval)
    (user_kpoints_settings : val) (optimize_structure : bool) (tag : string)
    s :
  well_formed s vis = true →
  let after_dispersion :=
    (get_wf_dispersion structure (Some vis) vasp_cmd db_file mode supercell
       user_kpoints_settings optimize_structure tag s).2 in
  let after_conductivity :=
    (get_wf_thermal_conductivity structure (Some vis) mode vasp_cmd third_cmd
       db_file supercell cutoff_3rd user_kpoints_settings optimize_structure
       tag s).2 in
  serialized after_dispersion vis = serialized s vis ∧
  user_incar_settings after_dispersion vis = user_incar_settings s vis ∧
  serialized after_conductivity vis = serialized s vis ∧
  user_incar_settings after_conductivity vis = user_incar_settings s vis.
Proof.
  intros Hwf after_dispersion after_conductivity.
  assert (Hd : ext (store s) (store after_dispersion)).
  { pose proof (get_wf_dispersion_spec structure (Some vis) vasp_cmd db_file
      mode supercell user_kpoints_settings optimize_structure tag s) as Hspec.
    apply wp_run in Hspec. destruct Hspec as (r & s' & Hrun & He & _).
    subst after_dispersion. by rewrite Hrun. }
  assert (Hc : ext (store s) (store after_conductivity)).
  { pose proof (get_wf_thermal_conductivity_spec structure (Some vis) mode
      vasp_cmd third_cmd db_file supercell cutoff_3rd user_kpoints_settings
      optimize_structure tag s) as Hspec.
    apply wp_run in Hspec. destruct Hspec as (r & s' & Hrun & He & _).
    subst after_conductivity. by rewrite Hrun. }
  repeat split.
  - by apply serialized_ext.
  - by apply user_incar_settings_ext.
  - by apply serialized_ext.
  - by apply user_incar_settings_ext.
Qed.

(** ** The derived dispersion settings *)

Lemma derived_ext s s1 base u over :
  ext (store s) (store s1) →
  well_formed s base = true → allocated (store s) u = true →
  derived s1 base (val_true (store s1) u) u over
  = derived s base (val_true (store s) u) u over.
Proof.
  intros He Hwf Hu. unfold derived.
  rewrite (val_true_ext (store s)), (content_ext (store s)),
    (serialized_ext s s1), (user_incar_settings_ext s s1) by done.
  done.
Qed.

Lemma derived_user_incar_settings s s' base vis b u over :
  serialized s' vis = derived s base b u over →
  ∃ l, vis_args vis !! "user_incar_settings" = Some (VRef l) ∧
       user_incar_settings s' vis = over ∪ user_incar_settings s base.
Proof.
  intros Hser.
  assert (E : serialized s' vis !! "user_incar_settings"
              = Some (inr (over ∪ user_incar_settings s base))).
  { rewrite Hser. unfold derived. by rewrite lookup_insert_eq. }
  unfold serialized, snapshot in E. rewrite lookup_fmap in E.
  unfold user_incar_settings at 1.
  destruct (vis_args vis !! "user_incar_settings") as [[p|l]|]; try done.
  cbn in E. injection E as E. by exists l.
Qed.

(** Deriving from what was derived changes nothing. *)
Lemma derived_twice s s1 base vis1 u over :
  ext (store s) (store s1) → allocated (store s) u = true →
  serialized s1 vis1 = derived s base (val_true (store s) u) u over →
  derived s1 vis1 (val_true (store s1) u) u over = serialized s1 vis1.
Proof.
  intros He Hu Hser.
  destruct (derived_user_incar_settings _ _ _ _ _ _ _ Hser) as (l & _ & Huis).
  unfold derived at 1. rewrite Huis, (assoc_L (∪)), (idemp_L (∪)).
  rewrite (val_true_ext (store s)), (content_ext (store s)) by done.
  rewrite Hser. unfold derived.
  destruct (val_true (store s) u); [|by rewrite insert_insert_eq].
  apply map_eq. intros k.
  destruct (decide (k = "user_incar_settings")) as [->|Hne];
    [by rewrite !lookup_insert_eq|].
  rewrite !(lookup_insert_ne _ "user_incar_settings") by done.
  destruct (decide (k = "user_kpoints_settings")) as [->|Hne'];
    [by rewrite !lookup_insert_eq|].
  by rewrite !lookup_insert_ne by done.
Qed.

(** With a valid mode and a base that is in order, the call returns,
    and its dispersion unit carries the derived settings. *)
Lemma dispersion_derives (structure : Structure)
    (vasp_input_set : option InputSet) (vasp_cmd : string) (db_file : pyval)
    (mode : string) (supercell : pyval) (u : val) (optimize : bool)
    (tag : string) s :
  let base := default (MPRelaxSet structure) vasp_input_set in
  uis_ok base = true →
  well_formed s base = true →
  allocated (store s) u = true →
  mode = "force" ∨ mode = "hessian" →
  ∃ wf s' vis_disp,
    get_wf_dispersion structure vasp_input_set vasp_cmd db_file mode
      supercell u optimize tag s = (Ok wf, s') ∧
    dispersion_settings wf = Some vis_disp ∧
    ext (store s) (store s') ∧
    well_formed s' vis_disp = true ∧
    serialized s' vis_disp
      = derived s base (val_true (store s) u) u (mode_overrides mode).
Proof.
  intros base Hok Hwf Hu Hmode. subst base.
  pose proof (get_wf_dispersion_spec structure vasp_input_set vasp_cmd
    db_file mode supercell u optimize tag s) as Hspec.
  apply wp_run in Hspec. destruct Hspec as (r & s' & Hrun & He & Hpost).
  destruct r as [wf|e].
  - destruct Hpost as (_ & _ & _ & vis_relax & vis_disp & Hfws & _ & Hcont).
    destruct (Hcont Hwf Hu) as [Hall Hser].
    exists wf, s', vis_disp. split; [done|]. split.
    { unfold dispersion_settings. rewrite Hfws.
      by destruct optimize, (String.eqb mode "force"). }
    split; [done|]. split; [by apply well_formed_all|done].
  - exfalso. destruct Hpost as [[Hf _]|(_ & Hn1 & Hn2 & _)]; [congruence|].
    by destruct Hmode.
Qed.

(** C5. For a valid mode, the input set of the dispersion unit has
    [user_incar_settings] equal to the mode's constants and the common
    [EDIFF = 1e-08] merged over the base's: it holds [EDIFF] and the
    constants of the mode, every key of the overrides has the
    override's value, and every other key has the base's. *)
Theorem dispersion_settings_merged (structure : Structure)
    (vasp_input_set : option InputSet) (vasp_cmd : string) (db_file : pyval)
    (mode : string) (supercell : pyval) (user_kpoints_settings : val)
    (optimize_structure : bool) (tag : string) s :
  uis_ok (default (MPRelaxSet structure) vasp_input_set) = true →
  well_formed s (default (MPRelaxSet structure) vasp_input_set) = true →
  allocated (store s) user_kpoints_settings = true →
  mode = "force" ∨ mode = "hessian" →
  ∃ wf s' vis_disp,
    get_wf_dispersion structure vasp_input_set vasp_cmd db_file mode
      supercell user_kpoints_settings optimize_structure tag s = (Ok wf, s') ∧
    dispersion_settings wf = Some vis_disp ∧
    let uis := user_incar_settings s' vis_disp in
    let base_uis :=
      user_incar_settings s (default (MPRelaxSet structure) vasp_input_set) in
    uis = mode_overrides mode ∪ base_uis ∧
    uis !! "EDIFF" = Some (PDec 1 (-8)) ∧
    (mode = "force" →
       uis !! "IBRION" = Some (PInt 2) ∧ uis !! "ISMEAR" = Some (PInt 0) ∧
       uis !! "ISPIN" = Some (PInt 1) ∧ uis !! "NSW" = Some (PInt 0)) ∧
    (mode = "hessian" →
       uis !! "IBRION" = Some (PInt 6) ∧ uis !! "ISMEAR" = Some (PInt 0) ∧
       uis !! "ISPIN" = Some (PInt 1) ∧ uis !! "NSW" = Some (PInt 1) ∧
       uis !! "POTIM" = Some (PDec 15 (-3))) ∧
    (∀ (k : string) (x : pyval), mode_overrides mode !! k = Some x → uis !! k = Some x) ∧
    (∀ k : string, mode_overrides mode !! k = None → uis !! k = base_uis !! k).
Proof.
  intros Hok Hwf Hu Hmode.
  destruct (dispersion_derives structure vasp_input_set vasp_cmd db_file mode
              supercell user_kpoints_settings optimize_structure tag s
              Hok Hwf Hu Hmode)
    as (wf & s' & vis_disp & Hrun & Hds & _ & _ & Hser).
  exists wf, s', vis_disp. split; [done|]. split; [done|].
  destruct (derived_user_incar_settings _ _ _ _ _ _ _ Hser) as (l & _ & Huis).
  cbv zeta. rewrite Huis. split; [done|]. split; [|split; [|split; [|split]]].
  - apply lookup_union_Some_l. by destruct Hmode as [-> | ->].
  - intros ->. by repeat split; apply lookup_union_Some_l.
  - intros ->. by repeat split; apply lookup_union_Some_l.
  - intros k x Hk. by apply lookup_union_Some_l.
  - intros k Hk. by apply lookup_union_r.
Qed.

Lemma dispersion_settings_merged_witness :
  ∃ wf s' vis_disp,
    get_wf_dispersion silicon (Some sample_set) "vasp" PNone "hessian"
      (cubic 3) (VRef 2%positive) true "2017-09-13" sample_state
      = (Ok wf, s') ∧
    dispersion_settings wf = Some vis_disp ∧
    let uis := user_incar_settings s' vis_disp in
    let base_uis := user_incar_settings sample_state sample_set in
    uis = mode_overrides "hessian" ∪ base_uis ∧
    uis !! "EDIFF" = Some (PDec 1 (-8)) ∧
    ("hessian" = "force" →
       uis !! "IBRION" = Some (PInt 2) ∧ uis !! "ISMEAR" = Some (PInt 0) ∧
       uis !! "ISPIN" = Some (PInt 1) ∧ uis !! "NSW" = Some (PInt 0)) ∧
    ("hessian" = "hessian" →
       uis !! "IBRION" = Some (PInt 6) ∧ uis !! "ISMEAR" = Some (PInt 0) ∧
       uis !! "ISPIN" = Some (PInt 1) ∧ uis !! "NSW" = Some (PInt 1) ∧
       uis !! "POTIM" = Some (PDec 15 (-3))) ∧
    (∀ (k : string) (x : pyval), mode_overrides "hessian" !! k = Some x → uis !! k = Some x) ∧
    (∀ k : string, mode_overrides "hessian" !! k = None → uis !! k = base_uis !! k).
Proof.
  apply (dispersion_settings_merged silicon (Some sample_set) "vasp" PNone
           "hessian" (cubic 3) (VRef 2%positive) true "2017-09-13"
           sample_state).
  - reflexivity.
  - reflexivity.
  - reflexivity.
  - right. reflexivity.
Defined.

(** C6. Deriving is idempotent.  Let the call derive the dispersion
    settings from a base.  Calling again with the derived input set as
    base and the same mode and k-point settings yields settings
    identical to the first ones; so does calling again with the
    original base. *)
Theorem derivation_idempotent (structure : Structure)
    (vasp_input_set : option InputSet) (vasp_cmd : string) (db_file : pyval)
    (mode : string) (supercell : pyval) (user_kpoints_settings : val)
    (optimize_structure : bool) (tag : string) s :
  uis_ok (default (MPRelaxSet structure) vasp_input_set) = true →
  well_formed s (default (MPRelaxSet structure) vasp_input_set) = true →
  allocated (store s) user_kpoints_settings = true →
  mode = "force" ∨ mode = "hessian" →
  ∃ wf1 s1 once,
    get_wf_dispersion structure vasp_input_set vasp_cmd db_file mode
      supercell user_kpoints_settings optimize_structure tag s
      = (Ok wf1, s1) ∧
    dispersion_settings wf1 = Some once ∧
    (∃ wf2 s2 twice,
       get_wf_dispersion structure (Some once) vasp_cmd db_file mode
         supercell user_kpoints_settings optimize_structure tag s1
         = (Ok wf2, s2) ∧
       dispersion_settings wf2 = Some twice ∧
       serialized s2 twice = serialized s1 once) ∧
    (∃ wf3 s3 again,
       get_wf_dispersion structure vasp_input_set vasp_cmd db_file mode
         supercell user_kpoints_settings optimize_structure tag s1
         = (Ok wf3, s3) ∧
       dispersion_settings wf3 = Some again ∧
       serialized s3 again = serialized s1 once).
Proof.
  intros Hok Hwf Hu Hmode.
  destruct (dispersion_derives structure vasp_input_set vasp_cmd db_file mode
              supercell user_kpoints_settings optimize_structure tag s
              Hok Hwf Hu Hmode)
    as (wf1 & s1 & once & Hrun1 & Hds1 & He1 & Hwf1 & Hser1).
  exists wf1, s1, once. split; [done|]. split; [done|].
  pose proof (allocated_ext _ _ _ He1 Hu) as Hu1.
  split.
  - destruct (derived_user_incar_settings _ _ _ _ _ _ _ Hser1)
      as (l & Hl & _).
    assert (Hok1 : uis_ok (default (MPRelaxSet structure) (Some once)) = true).
    { cbn. unfold uis_ok. by rewrite Hl. }
    destruct (dispersion_derives structure (Some once) vasp_cmd db_file mode
                supercell user_kpoints_settings optimize_structure tag s1
                Hok1 Hwf1 Hu1 Hmode)
      as (wf2 & s2 & twice & Hrun2 & Hds2 & _ & _ & Hser2).
    exists wf2, s2, twice. split; [done|]. split; [done|].
    rewrite Hser2. cbn [default]. by eapply derived_twice.
  - assert (Hwfb : well_formed s1 (default (MPRelaxSet structure)
                                     vasp_input_set) = true).
    { apply well_formed_all. eapply all_allocated_ext; [done|].
      by apply well_formed_all. }
    destruct (dispersion_derives structure vasp_input_set vasp_cmd db_file
                mode supercell user_kpoints_settings optimize_structure tag s1
                Hok Hwfb Hu1 Hmode)
      as (wf3 & s3 & again & Hrun3 & Hds3 & _ & _ & Hser3).
    exists wf3, s3, again. split; [done|]. split; [done|].
    rewrite Hser3, Hser1. by apply derived_ext.
Qed.

Lemma derivation_idempotent_witness :
  ∃ wf1 s1 once,
    get_wf_dispersion silicon (Some sample_set) "vasp" PNone "force"
      (cubic 3) (VRef 2%positive) false "2017-09-13" sample_state
      = (Ok wf1, s1) ∧
    dispersion_settings wf1 = Some once ∧
    (∃ wf2 s2 twice,
       get_wf_dispersion silicon (Some once) "vasp" PNone "force"
         (cubic 3) (VRef 2%positive) false "2017-09-13" s1 = (Ok wf2, s2) ∧
       dispersion_settings wf2 = Some twice ∧
       serialized s2 twice = serialized s1 once) ∧
    (∃ wf3 s3 again,
       get_wf_dispersion silicon (Some sample_set) "vasp" PNone "force"
         (cubic 3) (VRef 2%positive) false "2017-09-13" s1 = (Ok wf3, s3) ∧
       dispersion_settings wf3 = Some again ∧
       serialized s3 again = serialized s1 once).
Proof.
  apply (derivation_idempotent silicon (Some sample_set) "vasp" PNone "force"
           (cubic 3) (VRef 2%positive) false "2017-09-13" sample_state).
  - reflexivity.
  - reflexivity.
  - reflexivity.
  - left. reflexivity.
Defined.

End WorkflowFacts.


(** * Further properties of [atomate/vasp/fireworks/user.py] *)
Module UserMore.
Import User.

(** ** [MPRelaxSetEx.__init__]: what the loop keeps *)

Lemma remove_incar_partition (ks : list pyval) :
  ∀ incar rm incar' rm' : gmap string pyval,
    remove_incar ks incar rm = Ok (incar', rm') →
    incar ##ₘ rm →
    incar' ∪ rm' = incar ∪ rm ∧ incar' ##ₘ rm'.
Proof.
  induction ks as [|k ks IH]; intros incar rm incar' rm' Hrun Hdisj.
  - injection Hrun as <- <-. done.
  - cbn [remove_incar] in Hrun.
    destruct (py_in_keys k incar) as [b|e] eqn:Hin; [|done]. cbn in Hrun.
    destruct b; [|by apply IH]. destruct k as [| | | |name|]; try by apply IH.
    cbn in Hin. injection Hin as Hin. apply bool_decide_eq_true in Hin.
    apply elem_of_dom in Hin as [v Hv].
    unfold py_pop in Hrun. rewrite Hv in Hrun. cbn in Hrun.
    assert (Hrm : rm !! name = None).
    { by eapply map_disjoint_Some_l. }
    apply IH in Hrun as [Hu Hd].
    + split; [|done]. rewrite Hu. apply map_eq. intros k.
      destruct (decide (k = name)) as [->|Hne].
      * rewrite lookup_union_r by apply lookup_delete_eq.
        rewrite lookup_insert_eq. symmetry. by apply lookup_union_Some_l.
      * by rewrite !lookup_union, lookup_delete_ne, lookup_insert_ne.
    + apply map_disjoint_insert_r. split; [apply lookup_delete_eq|].
      by apply map_disjoint_delete_l.
Qed.

(** X1. Whatever [rm_incar_settings] is, when construction succeeds
    the active INCAR settings and the removed-settings record are
    disjoint and together are exactly the INCAR category of the table:
    nothing is lost, nothing is recorded that was not there.  The
    KPOINTS category is not touched. *)
Theorem removal_partitions_incar (CONFIG : config) (structure : Structure)
    (rm_incar_settings user_kpoints_settings : arg) (kwargs : gmap string arg)
    (self : MPRelaxSetEx) :
  MPRelaxSetEx_init CONFIG structure rm_incar_settings user_kpoints_settings
    kwargs = Ok self →
  INCAR (config_dict self) ∪ rm_config_dict self = INCAR CONFIG ∧
  INCAR (config_dict self) ##ₘ rm_config_dict self ∧
  rm_config_dict self ⊆ INCAR CONFIG ∧
  KPOINTS (config_dict self) = KPOINTS CONFIG.
Proof.
  unfold MPRelaxSetEx_init. intros Hrun.
  destruct (arg_iter rm_incar_settings) as [ks|e]; [|done]. cbn in Hrun.
  destruct (remove_incar ks (INCAR CONFIG) ∅) as [[incar rm]|e] eqn:Hloop;
    [|done].
  cbn in Hrun. injection Hrun as <-. cbn.
  apply remove_incar_partition in Hloop as [Hu Hd];
    [|apply map_disjoint_empty_r].
  rewrite (right_id_L ∅ (∪)) in Hu. repeat split; try done.
  rewrite <- Hu. by apply map_union_subseteq_r.
Qed.

Lemma removal_partitions_incar_witness :
  ∃ self,
    MPRelaxSetEx_init config_with_kpts silicon
      (Lit (PList [PStr "EDIFF"; PInt 7; PStr "NSW"])) (Dict ∅) ∅ = Ok self ∧
    INCAR (config_dict self) ∪ rm_config_dict self = INCAR config_with_kpts ∧
    INCAR (config_dict self) ##ₘ rm_config_dict self ∧
    rm_config_dict self ⊆ INCAR config_with_kpts ∧
    KPOINTS (config_dict self) = KPOINTS config_with_kpts.
Proof.
  eexists. split; [reflexivity|].
  eapply (removal_partitions_incar config_with_kpts silicon
            (Lit (PList [PStr "EDIFF"; PInt 7; PStr "NSW"])) (Dict ∅) ∅).
  reflexivity.
Defined.

(** ** [MPRelaxSetEx.__init__]: arguments that are not lists of names *)

Lemma remove_incar_unhashable (ks : list pyval) (l : list pyval) :
  PList l ∈ ks →
  ∀ incar rm : gmap string pyval,
    ∃ msg, remove_incar ks incar rm = Raise (TypeError msg).
Proof.
  induction ks as [|k ks IH]; intros Hin incar rm.
  - by apply elem_of_nil in Hin.
  - cbn [remove_incar].
    destruct k as [| | | |name|l']; try (by eexists);
      apply elem_of_cons in Hin as [?|Hin]; try done;
      cbn [py_in_keys mbind result_mbind result_bind];
      try (by apply IH).
    unfold py_pop. case_bool_decide; by apply IH.
Qed.

(** X2. [rm_incar_settings] that cannot be iterated ([None], a number,
    a boolean) makes the constructor raise [TypeError], and so does a
    list that holds a list among its keys, wherever it stands. *)
Theorem rm_incar_settings_type_errors (CONFIG : config) (structure : Structure)
    (user_kpoints_settings : arg) (kwargs : gmap string arg) :
  (∀ x : pyval,
     (∀ l, x ≠ PList l) → (∀ name, x ≠ PStr name) →
     ∃ msg, MPRelaxSetEx_init CONFIG structure (Lit x) user_kpoints_settings
              kwargs = Raise (TypeError msg)) ∧
  (∀ (ks l : list pyval),
     PList l ∈ ks →
     ∃ msg, MPRelaxSetEx_init CONFIG structure (Lit (PList ks))
              user_kpoints_settings kwargs = Raise (TypeError msg)).
Proof.
  split.
  - intros x Hl Hs. unfold MPRelaxSetEx_init.
    destruct x as [| | | |name|l]; try (by eexists).
    + by destruct (Hs name).
    + by destruct (Hl l).
  - intros ks l Hin. unfold MPRelaxSetEx_init.
    cbn [arg_iter py_iter mbind result_mbind result_bind].
    destruct (remove_incar_unhashable ks l Hin (INCAR CONFIG) ∅) as [msg ->].
    by exists msg.
Qed.

Lemma rm_incar_settings_type_errors_witness :
  (∃ msg, MPRelaxSetEx_init config_with_kpts silicon (Lit PNone) (Dict ∅) ∅
          = Raise (TypeError msg)) ∧
  (∃ msg, MPRelaxSetEx_init config_with_kpts silicon
            (Lit (PList [PStr "EDIFF"; PList [PStr "ISIF"]])) (Dict ∅) ∅
          = Raise (TypeError msg)).
Proof.
  destruct (rm_incar_settings_type_errors config_with_kpts silicon (Dict ∅) ∅)
    as [Hnone Hlist].
  split.
  - apply Hnone; discriminate.
  - apply (Hlist _ [PStr "ISIF"]). right. left.
Defined.

Lemma one_character (c : Ascii.ascii) : String.length (String c EmptyString) = 1%nat.
Proof. reflexivity. Qed.

(** X3. A single name given as a string instead of a list is iterated
    character by character: as long as no INCAR setting has a
    one-character name, construction succeeds and removes nothing. *)
Theorem rm_incar_settings_string_removes_nothing (CONFIG : config)
    (structure : Structure) (name : string) (user_kpoints_settings : arg)
    (kwargs : gmap string arg) :
  (∀ k v, INCAR CONFIG !! k = Some v → String.length k ≠ 1%nat) →
  ∃ self,
    MPRelaxSetEx_init CONFIG structure (Lit (PStr name)) user_kpoints_settings
      kwargs = Ok self ∧
    INCAR (config_dict self) = INCAR CONFIG ∧
    rm_config_dict self = ∅.
Proof.
  intros Hlong. unfold MPRelaxSetEx_init.
  cbn [arg_iter py_iter mbind result_mbind result_bind].
  set (names := (λ c, String c EmptyString) <$> String.list_ascii_of_string name).
  assert (Hchars : (λ c, PStr (String c EmptyString))
                     <$> String.list_ascii_of_string name = PStr <$> names).
  { unfold names. by rewrite <- list_fmap_compose. }
  rewrite Hchars.
  destruct (UserFacts.remove_incar_names names (INCAR CONFIG) ∅)
    as (incar' & rm' & -> & Hspec).
  eexists. split; [reflexivity|]. cbn.
  assert (Hshort : ∀ k, k ∈ names → INCAR CONFIG !! k = None).
  { intros k Hk. apply list_elem_of_fmap in Hk as (c & -> & _).
    destruct (INCAR CONFIG !! String c EmptyString) eqn:E; [|done].
    by destruct (Hlong _ _ E). }
  split; apply map_eq; intros k; destruct (Hspec k) as [Hin Hout];
    destruct (decide (k ∈ names)) as [Hk|Hk].
  - destruct (Hin Hk) as [-> _]. by rewrite Hshort.
  - by destruct (Hout Hk) as [-> _].
  - destruct (Hin Hk) as [_ ->]. by rewrite Hshort, lookup_empty.
  - by destruct (Hout Hk) as [_ ->].
Qed.

Lemma rm_incar_settings_string_removes_nothing_witness :
  ∃ self,
    MPRelaxSetEx_init config_with_kpts silicon (Lit (PStr "EDIFF")) (Dict ∅) ∅
      = Ok self ∧
    INCAR (config_dict self) = INCAR config_with_kpts ∧
    rm_config_dict self = ∅.
Proof.
  apply (rm_incar_settings_string_removes_nothing config_with_kpts silicon
           "EDIFF" (Dict ∅) ∅).
  intros k v Hk Hlen.
  change (INCAR config_with_kpts)
    with (<["EDIFF" := PDec 5 (-5)]> ({["ISIF" := PInt 3]} : gmap string pyval))
    in Hk.
  apply lookup_insert_Some in Hk as [[<- _]|[_ Hk]]; [discriminate Hlen|].
  apply lookup_singleton_Some in Hk as [<- _]. discriminate Hlen.
Defined.

(** ** The [kpoints] property: empty grids and values of the wrong type *)

(** X4. A ['kpts'] entry that is false in a condition (an empty list,
    [None], zero) counts as no entry: the base class decides. *)
Theorem kpoints_empty_grid_ignored
    (DictSet_kpoints : MPRelaxSetEx → Kpoints) (self : MPRelaxSetEx)
    (d : gmap string pyval) (grid : pyval) :
  arg_or (user_kpoints_settings self) (Dict (KPOINTS (config_dict self)))
    = Dict d →
  d !! "kpts" = Some grid →
  truthy grid = false →
  kpoints DictSet_kpoints self = Ok (DictSet_kpoints self).
Proof.
  intros Hd Hk Hf. unfold kpoints. rewrite Hd. cbn. rewrite Hk. cbn.
  by rewrite Hf.
Qed.

Lemma kpoints_empty_grid_ignored_witness :
  let self :=
    {| structure := silicon; kwargs := ∅; config_dict := config_with_kpts;
       rm_incar_settings := Lit (PList []);
       user_kpoints_settings :=
         Dict {[ "kpts" := PList []; "grid_density" := PInt 7000 ]};
       rm_config_dict := ∅ |} in
  kpoints density_kpoints self = Ok (density_kpoints self).
Proof.
  intros self.
  apply (kpoints_empty_grid_ignored density_kpoints self
           {[ "kpts" := PList []; "grid_density" := PInt 7000 ]} (PList [])).
  - reflexivity.
  - reflexivity.
  - reflexivity.
Defined.

(** X5. The property raises [AttributeError] when
    [user_kpoints_settings] is a true value that is no mapping, and
    [TypeError] when the ['kpts'] entry it reads is a true value that
    cannot be iterated (a number, [True]). *)
Theorem kpoints_type_errors
    (DictSet_kpoints : MPRelaxSetEx → Kpoints) (self : MPRelaxSetEx) :
  (∀ x, user_kpoints_settings self = Lit x → truthy x = true →
        ∃ msg, kpoints DictSet_kpoints self = Raise (AttributeError msg)) ∧
  (∀ d grid,
     arg_or (user_kpoints_settings self) (Dict (KPOINTS (config_dict self)))
       = Dict d →
     d !! "kpts" = Some grid → truthy grid = true →
     (∀ l, grid ≠ PList l) → (∀ name, grid ≠ PStr name) →
     ∃ msg, kpoints DictSet_kpoints self = Raise (TypeError msg)).
Proof.
  split.
  - intros x Hx Ht. unfold kpoints, arg_or. rewrite Hx. cbn. rewrite Ht.
    by eexists.
  - intros d grid Hd Hk Ht Hl Hs. unfold kpoints. rewrite Hd. cbn.
    rewrite Hk. cbn. rewrite Ht.
    destruct grid as [| | | |name|l]; try (by eexists).
    + by destruct (Hs name).
    + by destruct (Hl l).
Qed.

Lemma kpoints_type_errors_witness :
  (∃ msg, kpoints density_kpoints
            {| structure := silicon; kwargs := ∅;
               config_dict := config_with_kpts;
               rm_incar_settings := Lit (PList []);
               user_kpoints_settings := Lit (PInt 7000);
               rm_config_dict := ∅ |}
          = Raise (AttributeError msg)) ∧
  (∃ msg, kpoints density_kpoints
            {| structure := silicon; kwargs := ∅;
               config_dict := config_with_kpts;
               rm_incar_settings := Lit (PList []);
               user_kpoints_settings := Dict {[ "kpts" := PInt 4 ]};
               rm_config_dict := ∅ |}
          = Raise (TypeError msg)).
Proof.
  split.
  - eapply (proj1 (kpoints_type_errors density_kpoints _)); reflexivity.
  - eapply (proj2 (kpoints_type_errors density_kpoints _)
              {[ "kpts" := PInt 4 ]} (PInt 4));
      try reflexivity; discriminate.
Defined.

(** ** [OptimizeStepFW]: which arguments count at which step *)

(** X6. After the first step the [vasp_input_set] argument is not
    looked at: any two values give the same outcome.  At the first
    step with an input set supplied, [override_default_vasp_params] is
    not looked at: any two values, [None] or mappings with any keys,
    give the same unit. *)
Theorem optimize_step_unused_arguments (CONFIG : config) (structure : Structure)
    (step_index : Z) (name vasp_cmd : string) (ediffg : pyval)
    (job_type : string) (db_file : pyval) (parents : option (list nat))
    (kwargs : gmap string arg) :
  (step_index ≠ 0 →
   ∀ vis1 vis2 override,
     OptimizeStepFW_init CONFIG structure step_index name vis1 vasp_cmd
       override ediffg job_type db_file parents kwargs
     = OptimizeStepFW_init CONFIG structure step_index name vis2 vasp_cmd
         override ediffg job_type db_file parents kwargs) ∧
  (step_index = 0 →
   ∀ vis override1 override2,
     OptimizeStepFW_init CONFIG structure step_index name (Some vis) vasp_cmd
       override1 ediffg job_type db_file parents kwargs
     = OptimizeStepFW_init CONFIG structure step_index name (Some vis) vasp_cmd
         override2 ediffg job_type db_file parents kwargs).
Proof.
  split.
  - intros Hne vis1 vis2 override. unfold OptimizeStepFW_init.
    by rewrite (proj2 (Z.eqb_neq _ _) Hne).
  - intros -> vis override1 override2. reflexivity.
Qed.

Lemma optimize_step_unused_arguments_witness :
  OptimizeStepFW_init config_with_kpts silicon 2 "Relax"
    (Some (caller_input_set "vis")) "vasp" (Some ∅) PNone "normal" PNone
    None ∅
  = OptimizeStepFW_init config_with_kpts silicon 2 "Relax" None "vasp"
      (Some ∅) PNone "normal" PNone None ∅ ∧
  OptimizeStepFW_init config_with_kpts silicon 0 "Relax"
    (Some (caller_input_set "vis")) "vasp" None PNone "normal" PNone None ∅
  = OptimizeStepFW_init config_with_kpts silicon 0 "Relax"
      (Some (caller_input_set "vis")) "vasp"
      (Some {[ "force_gamma" := Lit (PBool false) ]}) PNone "normal" PNone
      None ∅.
Proof.
  split.
  - apply (proj1 (optimize_step_unused_arguments config_with_kpts silicon 2
                    "Relax" "vasp" PNone "normal" PNone None ∅)).
    discriminate.
  - apply (proj2 (optimize_step_unused_arguments config_with_kpts silicon 0
                    "Relax" "vasp" PNone "normal" PNone None ∅)).
    reflexivity.
Defined.

(** X7. Keywords the code writes out itself must not come again in
    [override_default_vasp_params]: [force_gamma] raises [TypeError]
    whenever the mapping is unpacked (after the first step, or at the
    first step without an input set), [struct_dir] after the first
    step, [structure] at the first step without an input set. *)
Theorem optimize_step_repeated_keyword (CONFIG : config) (structure : Structure)
    (step_index : Z) (name : string) (vasp_input_set : option VaspInputSet)
    (vasp_cmd : string) (override : gmap string arg) (ediffg : pyval)
    (job_type : string) (db_file : pyval) (parents : option (list nat))
    (kwargs : gmap string arg) :
  (is_Some (override !! "force_gamma") ∧
     (step_index ≠ 0 ∨ vasp_input_set = None)) ∨
  (is_Some (override !! "struct_dir") ∧ step_index ≠ 0) ∨
  (is_Some (override !! "structure") ∧
     step_index = 0 ∧ vasp_input_set = None) →
  ∃ msg,
    OptimizeStepFW_init CONFIG structure step_index name vasp_input_set
      vasp_cmd (Some override) ediffg job_type db_file parents kwargs
    = Raise (TypeError msg).
Proof.
  assert (Hunpack : ∀ written k,
            k ∈ written → is_Some (override !! k) →
            ∃ msg, unpack_kwargs written (Some override)
                   = Raise (TypeError msg)).
  { intros written k Hk Hsome. unfold unpack_kwargs.
    destruct (forallb _ written) eqn:Hall; [|by eexists].
    rewrite forallb_forall in Hall.
    specialize (Hall k (proj1 (list_elem_of_In _ _) Hk)).
    apply bool_decide_eq_true in Hall. by apply elem_of_dom in Hsome. }
  unfold OptimizeStepFW_init, default_relax_set.
  intros [[Hk Hcase]|[[Hk Hne]|(Hk & -> & ->)]].
  - destruct (Z.eqb step_index 0) eqn:Hz; cbn [negb].
    + destruct Hcase as [Hne| ->]; [by apply Z.eqb_eq in Hz|].
      destruct (Hunpack ["structure"; "force_gamma"] "force_gamma")
        as [msg ->]; [by repeat constructor|done|]. by exists msg.
    + destruct (Hunpack ["struct_dir"; "force_gamma"] "force_gamma")
        as [msg ->]; [by repeat constructor|done|]. by exists msg.
  - rewrite (proj2 (Z.eqb_neq _ _) Hne). cbn [negb].
    destruct (Hunpack ["struct_dir"; "force_gamma"] "struct_dir")
      as [msg ->]; [by repeat constructor|done|]. by exists msg.
  - cbn [negb Z.eqb].
    destruct (Hunpack ["structure"; "force_gamma"] "structure")
      as [msg ->]; [by repeat constructor|done|]. by exists msg.
Qed.

Lemma optimize_step_repeated_keyword_witness :
  ∃ msg,
    OptimizeStepFW_init config_with_kpts silicon 1 "Relax" None "vasp"
      (Some {[ "force_gamma" := Lit (PBool false) ]}) PNone "normal" PNone
      None ∅
    = Raise (TypeError msg).
Proof.
  apply (optimize_step_repeated_keyword config_with_kpts silicon 1 "Relax"
           None "vasp" {[ "force_gamma" := Lit (PBool false) ]}).
  left. split; [by eexists|]. left. discriminate.
Defined.

Lemma unpack_kwargs_fresh (written : list string) (d : gmap string arg) :
  (∀ k, k ∈ written → d !! k = None) →
  unpack_kwargs written (Some d) = Ok d.
Proof.
  intros Hfree. unfold unpack_kwargs.
  assert (Hall : forallb (λ k, bool_decide (k ∉ dom d)) written = true).
  { apply forallb_forall. intros k Hk. apply bool_decide_eq_true.
    apply not_elem_of_dom, Hfree. by apply list_elem_of_In. }
  by rewrite Hall.
Qed.

(** X8. At the first step without an input set, the unit writes the
    inputs of an [MPRelaxSetEx] built from
    [override_default_vasp_params]: the names listed under its
    [rm_incar_settings] are removed from the INCAR settings and
    recorded, its [user_kpoints_settings] is kept for the k-points,
    [force_gamma] is set, and the other keywords go to the base class
    unchanged. *)
Theorem first_step_default_input_set (CONFIG : config) (structure : Structure)
    (name vasp_cmd : string) (override : gmap string arg)
    (names : list string) (ediffg : pyval) (job_type : string)
    (db_file : pyval) (parents : option (list nat))
    (kwargs : gmap string arg) :
  override !! "structure" = None →
  override !! "force_gamma" = None →
  override !! "rm_incar_settings" = Some (Lit (PList (PStr <$> names))) →
  ∃ fw vis,
    OptimizeStepFW_init CONFIG structure 0 name None vasp_cmd (Some override)
      ediffg job_type db_file parents kwargs = Ok fw ∧
    fw_tasks fw =
      [ WriteVaspFromIOSet structure (relax_set_ex vis);
        RunVaspCustodian vasp_cmd job_type (PDec 25 (-2)) ediffg
          ">>auto_npar<<";
        PassCalcLocs name;
        VaspToDbTask db_file {[ "task_label" := PStr name ]} ] ∧
    (∀ k : string,
       (k ∈ names →
          INCAR (config_dict vis) !! k = None ∧
          rm_config_dict vis !! k = INCAR CONFIG !! k) ∧
       (k ∉ names → INCAR (config_dict vis) !! k = INCAR CONFIG !! k)) ∧
    user_kpoints_settings vis
      = default (Dict ∅) (override !! "user_kpoints_settings") ∧
    User.kwargs vis
      = <["force_gamma" := Lit (PBool true)]>
          (delete "rm_incar_settings"
             (delete "user_kpoints_settings" override)).
Proof.
  intros Hst Hfg Hrm. unfold OptimizeStepFW_init, default_relax_set.
  cbn [negb Z.eqb].
  rewrite unpack_kwargs_fresh.
  2:{ intros k Hk. repeat (apply elem_of_cons in Hk as [->|Hk]; [done|]).
      by apply elem_of_nil in Hk. }
  cbn [mbind result_mbind result_bind]. rewrite Hrm.
  cbn [default from_option id].
  unfold MPRelaxSetEx_init.
  cbn [arg_iter py_iter mbind result_mbind result_bind].
  destruct (UserFacts.remove_incar_names names (INCAR CONFIG) ∅)
    as (incar' & rm' & -> & Hspec).
  eexists _, _. split; [reflexivity|]. split; [reflexivity|]. cbn.
  split; [|done]. intros k. destruct (Hspec k) as [Hin Hout]. split.
  - intros Hk. destruct (Hin Hk) as [-> ->]. rewrite lookup_empty.
    by destruct (INCAR CONFIG !! k).
  - intros Hk. by destruct (Hout Hk) as [-> _].
Qed.

Lemma first_step_default_input_set_witness :
  ∃ fw vis,
    OptimizeStepFW_init config_with_kpts silicon 0 "Relax" None "vasp"
      (Some {[ "rm_incar_settings" := Lit (PList (PStr <$> ["EDIFF"])) ]})
      PNone "normal" PNone None ∅ = Ok fw ∧
    fw_tasks fw =
      [ WriteVaspFromIOSet silicon (relax_set_ex vis);
        RunVaspCustodian "vasp" "normal" (PDec 25 (-2)) PNone ">>auto_npar<<";
        PassCalcLocs "Relax";
        VaspToDbTask PNone {[ "task_label" := PStr "Relax" ]} ] ∧
    (∀ k : string,
       (k ∈ ["EDIFF"] →
          INCAR (config_dict vis) !! k = None ∧
          rm_config_dict vis !! k = INCAR config_with_kpts !! k) ∧
       (k ∉ ["EDIFF"] →
          INCAR (config_dict vis) !! k = INCAR config_with_kpts !! k)) ∧
    user_kpoints_settings vis
      = default (Dict ∅)
          (({[ "rm_incar_settings" := Lit (PList (PStr <$> ["EDIFF"])) ]}
              : gmap string arg) !! "user_kpoints_settings") ∧
    User.kwargs vis
      = <["force_gamma" := Lit (PBool true)]>
          (delete "rm_incar_settings"
             (delete "user_kpoints_settings"
                {[ "rm_incar_settings" := Lit (PList (PStr <$> ["EDIFF"])) ]})).
Proof.
  apply (first_step_default_input_set config_with_kpts silicon "Relax" "vasp"
           {[ "rm_incar_settings" := Lit (PList (PStr <$> ["EDIFF"])) ]}
           ["EDIFF"] PNone "normal" PNone None ∅).
  - reflexivity.
  - reflexivity.
  - reflexivity.
Defined.

(** ** [WriteVaspRelaxFromStructure.run_task] *)

(** X9. What the task writes, when it returns: the input set of the
    structure read from [POSCAR] under [struct_dir] (["."] when the
    parameter is absent), with the whole INCAR category of the table
    (the task never removes a setting, whatever its parameters), with
    [user_kpoints_settings] as given or [None], and with [force_gamma]
    as given or [True]. *)
Theorem run_task_writes (CONFIG : config)
    (from_file : string → result Structure) (self : gmap string arg)
    (written : MPRelaxSetEx) :
  run_task CONFIG from_file self = Ok written →
  (∃ dir, default (Lit (PStr ".")) (self !! "struct_dir") = Lit (PStr dir) ∧
          from_file (path_join dir "POSCAR") = Ok (structure written)) ∧
  INCAR (config_dict written) = INCAR CONFIG ∧
  rm_config_dict written = ∅ ∧
  user_kpoints_settings written
    = default (Lit PNone) (self !! "user_kpoints_settings") ∧
  User.kwargs written !! "force_gamma"
    = Some (default (Lit (PBool true)) (self !! "force_gamma")).
Proof.
  unfold run_task. intros Hrun.
  destruct (default (Lit (PStr ".")) (self !! "struct_dir"))
    as [[| | | |dir|]|]; try done.
  cbn [mbind result_mbind result_bind] in Hrun.
  destruct (from_file (path_join dir "POSCAR")) as [st|e] eqn:Hread; [|done].
  cbn in Hrun. injection Hrun as <-. cbn. split; [by exists dir|].
  by rewrite lookup_insert_eq.
Qed.

Lemma run_task_writes_witness :
  ∃ written,
    run_task config_with_kpts poscar_only
      {[ "struct_dir" := Lit (PStr "."); "force_gamma" := Lit (PBool true);
         "rm_incar_settings" := Lit (PList [PStr "EDIFF"]) ]} = Ok written ∧
    INCAR (config_dict written) = INCAR config_with_kpts ∧
    rm_config_dict written = ∅.
Proof.
  destruct (run_task config_with_kpts poscar_only
              {[ "struct_dir" := Lit (PStr "."); "force_gamma" := Lit (PBool true);
                 "rm_incar_settings" := Lit (PList [PStr "EDIFF"]) ]})
    as [written|e] eqn:Hrun.
  - exists written. split; [reflexivity|].
    destruct (run_task_writes _ _ _ _ Hrun) as (_ & Hincar & Hrm & _).
    by split.
  - exfalso. vm_compute in Hrun. discriminate Hrun.
Defined.

(** X10. The task fails before anything is built when [struct_dir] is
    no string ([TypeError]), and with the very exception of the read
    when the structure file cannot be read. *)
Theorem run_task_errors (CONFIG : config)
    (from_file : string → result Structure) (self : gmap string arg) :
  ((∀ dir, default (Lit (PStr ".")) (self !! "struct_dir") ≠ Lit (PStr dir)) →
   ∃ msg, run_task CONFIG from_file self = Raise (TypeError msg)) ∧
  (∀ dir e,
     default (Lit (PStr ".")) (self !! "struct_dir") = Lit (PStr dir) →
     from_file (path_join dir "POSCAR") = Raise e →
     run_task CONFIG from_file self = Raise e).
Proof.
  unfold run_task. split.
  - intros Hdir.
    destruct (default (Lit (PStr ".")) (self !! "struct_dir"))
      as [[| | | |dir|]|]; try (by eexists).
    by destruct (Hdir dir).
  - intros dir e -> Hread. cbn. by rewrite Hread.
Qed.

Lemma run_task_errors_witness :
  (∃ msg, run_task config_with_kpts poscar_only
            {[ "struct_dir" := Lit (PInt 3) ]} = Raise (TypeError msg)) ∧
  run_task config_with_kpts poscar_only {[ "struct_dir" := Lit (PStr "run1") ]}
  = Raise (ValueError "no structure under this path").
Proof.
  destruct (run_task_errors config_with_kpts poscar_only
              {[ "struct_dir" := Lit (PInt 3) ]}) as [Htype _].
  destruct (run_task_errors config_with_kpts poscar_only
              {[ "struct_dir" := Lit (PStr "run1") ]}) as [_ Hread].
  split.
  - apply Htype. intros dir. discriminate.
  - apply (Hread "run1"); reflexivity.
Defined.

(** X11. After the first step, the unit built by [OptimizeStepFW] holds
    five tasks; its [WriteVaspRelaxFromStructure] task, once run,
    writes the input set of the structure found in [./POSCAR], not of
    the structure the unit was built with, and removes no INCAR
    setting even when [override_default_vasp_params] lists some under
    [rm_incar_settings]. *)
Theorem later_step_writes_from_disk (CONFIG : config)
    (from_file : string → result Structure) (structure disk : Structure)
    (step_index : Z) (name : string) (vasp_input_set : option VaspInputSet)
    (vasp_cmd : string) (override : gmap string arg) (ediffg : pyval)
    (job_type : string) (db_file : pyval) (parents : option (list nat))
    (kwargs : gmap string arg) :
  step_index ≠ 0 →
  override !! "struct_dir" = None →
  override !! "force_gamma" = None →
  from_file "./POSCAR" = Ok disk →
  ∃ fw params written,
    OptimizeStepFW_init CONFIG structure step_index name vasp_input_set
      vasp_cmd (Some override) ediffg job_type db_file parents kwargs
    = Ok fw ∧
    fw_tasks fw =
      [ CopyVaspOutputs true true;
        WriteVaspRelaxFromStructure params;
        RunVaspCustodian vasp_cmd job_type (PDec 25 (-2)) ediffg
          ">>auto_npar<<";
        PassCalcLocs name;
        VaspToDbTask db_file {[ "task_label" := PStr name ]} ] ∧
    run_task CONFIG from_file params = Ok written ∧
    User.structure written = disk ∧
    INCAR (config_dict written) = INCAR CONFIG ∧
    rm_config_dict written = ∅ ∧
    user_kpoints_settings written
      = default (Lit PNone) (override !! "user_kpoints_settings").
Proof.
  intros Hne Hsd Hfg Hread. unfold OptimizeStepFW_init.
  rewrite (proj2 (Z.eqb_neq _ _) Hne). cbn [negb].
  rewrite unpack_kwargs_fresh.
  2:{ intros k Hk. repeat (apply elem_of_cons in Hk as [->|Hk]; [done|]).
      by apply elem_of_nil in Hk. }
  eexists _, _, _. split; [reflexivity|]. split; [reflexivity|].
  unfold run_task. rewrite lookup_insert_eq. cbn [default from_option id].
  change (path_join "." "POSCAR") with "./POSCAR".
  cbn [mbind result_mbind result_bind]. rewrite Hread.
  cbn [mbind result_mbind result_bind]. split; [reflexivity|]. cbn.
  do 3 (split; [done|]).
  by rewrite !lookup_insert_ne.
Qed.

Lemma later_step_writes_from_disk_witness :
  ∃ fw params written,
    OptimizeStepFW_init config_with_kpts silicon 1 "Relax" None "vasp"
      (Some {[ "rm_incar_settings" := Lit (PList [PStr "EDIFF"]) ]})
      PNone "normal" PNone None ∅ = Ok fw ∧
    fw_tasks fw =
      [ CopyVaspOutputs true true;
        WriteVaspRelaxFromStructure params;
        RunVaspCustodian "vasp" "normal" (PDec 25 (-2)) PNone ">>auto_npar<<";
        PassCalcLocs "Relax";
        VaspToDbTask PNone {[ "task_label" := PStr "Relax" ]} ] ∧
    run_task config_with_kpts poscar_only params = Ok written ∧
    User.structure written
      = {| reduced_formula := "Si2"; sites := PList [PInt 2] |} ∧
    INCAR (config_dict written) = INCAR config_with_kpts ∧
    rm_config_dict written = ∅ ∧
    user_kpoints_settings written
      = default (Lit PNone)
          (({[ "rm_incar_settings" := Lit (PList [PStr "EDIFF"]) ]}
              : gmap string arg) !! "user_kpoints_settings").
Proof.
  apply (later_step_writes_from_disk config_with_kpts poscar_only silicon
           {| reduced_formula := "Si2"; sites := PList [PInt 2] |} 1 "Relax"
           None "vasp"
           {[ "rm_incar_settings" := Lit (PList [PStr "EDIFF"]) ]}).
  - discriminate.
  - reflexivity.
  - reflexivity.
  - reflexivity.
Defined.

End UserMore.


(** * Further properties of the workflow assemblers *)
Module WorkflowMore.
Import Workflows WorkflowFacts.

Implicit Types (h : gmap loc (gmap string pyval)) (s : state).

#[local] Opaque wp.

(** ** The input set of every unit *)

Lemma carries_ext s base u mode h1 h2 fw :
  ext h1 h2 →
  carries_derived s base u mode h1 fw → carries_derived s base u mode h2 fw.
Proof.
  intros He Hc vis Hvis. destruct (Hc vis Hvis) as [Hcls Hcont].
  split; [done|]. intros Hwf Hu. destruct (Hcont Hwf Hu) as [Hall Hsnap].
  split; [by eapply all_allocated_ext|].
  by rewrite (snapshot_ext h1 h2).
Qed.

Lemma carries_new s base u mode s1 s2 over vis fw :
  ext (store s) (store s1) →
  derivation base u s1 over vis s2 →
  input_set_of fw = Some vis →
  phase_overrides mode (kind fw) = over →
  carries_derived s base u mode (store s2) fw.
Proof.
  intros He Hd Hfw Hover vis' Hvis. rewrite Hfw in Hvis.
  injection Hvis as <-. split; [apply Hd|]. intros Hwf Hu. rewrite Hover.
  by apply (derivation_from base u s s1 over vis s2).
Qed.

Lemma carries_plain s base u mode h fw :
  input_set_of fw = None → carries_derived s base u mode h fw.
Proof. intros Hfw vis Hvis. congruence. Qed.

Lemma mode_overrides_force mode :
  String.eqb mode "force" = true → mode_overrides mode = uis_force ∪ uis_common.
Proof. intros H. unfold mode_overrides. by rewrite H. Qed.

Lemma mode_overrides_hessian mode :
  String.eqb mode "force" = false →
  mode_overrides mode = uis_hessian ∪ uis_common.
Proof. intros H. unfold mode_overrides. by rewrite H. Qed.

(** Every unit of the graph [get_wf_thermal_conductivity] returns
    carries the input set derived for its kind. *)
Lemma get_wf_thermal_conductivity_input_sets (structure : Structure)
    (vasp_input_set : option InputSet) (mode vasp_cmd third_cmd : string)
    (db_file supercell cutoff_3rd : pyval) (u : val) (optimize : bool)
    (tag : string) s :
  let base := default (MPRelaxSet structure) vasp_input_set in
  wp (get_wf_thermal_conductivity structure vasp_input_set mode vasp_cmd
        third_cmd db_file supercell cutoff_3rd u optimize tag) s
    (λ r s',
       match r with
       | Ok wf => Forall (carries_derived s base u mode (store s')) (wf_fws wf)
       | Raise _ => True
       end).
Proof.
  intros base.
  unfold get_wf_thermal_conductivity, get_wf_thermal_conductivity_with.
  cbv zeta. fold base.
  apply wp_bind.
  eapply (wp_mono _ _
    (λ r s1, ext (store s) (store s1) ∧
       match r with
       | Ok (fws, _) => Forall (carries_derived s base u mode (store s1)) fws
       | Raise _ => True
       end)).
  { destruct optimize.
    - apply wp_relax; [|done].
      intros Hok vis s1 Hd. apply wp_bind, wp_new_fw. apply wp_ret. cbn.
      split; [apply Hd|]. apply Forall_singleton.
      by eapply (carries_new s base u mode s); [apply ext_refl|..]. 
    - apply wp_ret. split; [apply ext_refl|]. apply Forall_nil_2. }
  intros [[fws parent1]|e] s1 [He1 H1]; [|done].
  apply wp_stage; [|done].
  intros Hok d lu b s2 Hb Hst. apply wp_bind.
  eapply (wp_mono _ _
    (λ r s3, ext (store s) (store s3) ∧
       match r with
       | Ok (fws', _) => Forall (carries_derived s base u mode (store s3)) fws'
       | Raise _ => True
       end)).
  { destruct (String.eqb mode "force") eqn:Hforce;
      [|destruct (String.eqb mode "hessian") eqn:Hhess].
    - eapply wp_finish; [exact Hb|exact Hst|].
      intros vis s3 Hd.
      apply wp_bind, wp_new_fw. apply wp_bind, wp_new_fw. apply wp_ret. cbn.
      split; [eapply ext_trans; [exact He1|apply Hd]|].
      rewrite !Forall_app, !Forall_singleton. split; [split|].
      + eapply Forall_impl; [exact H1|]. intros fw. apply carries_ext, Hd.
      + eapply (carries_new s base u mode s1); [done|exact Hd|done|].
        by apply mode_overrides_force.
      + by apply carries_plain.
    - eapply wp_finish; [exact Hb|exact Hst|].
      intros vis s3 Hd.
      apply wp_bind, wp_new_fw. apply wp_ret. cbn.
      split; [eapply ext_trans; [exact He1|apply Hd]|].
      rewrite !Forall_app, !Forall_singleton. split.
      + eapply Forall_impl; [exact H1|]. intros fw. apply carries_ext, Hd.
      + eapply (carries_new s base u mode s1); [done|exact Hd|done|].
        by apply mode_overrides_hessian.
    - apply wp_raise. split; [|done].
      eapply ext_trans; [exact He1|apply Hst]. }
  intros [[fws' parent2]|e] s3 [He3 H3]; [|done].
  apply wp_stage; [|done].
  intros _ d' lu' b' s4 Hb' Hst'.
  eapply wp_finish; [exact Hb'|exact Hst'|].
  intros vis_third s5 Hd.
  apply wp_bind, wp_new_fw. apply wp_bind, wp_new_fw. apply wp_ret. cbn.
  rewrite !Forall_app, !Forall_singleton. split; [split|].
  - eapply Forall_impl; [exact H3|]. intros fw. apply carries_ext, Hd.
  - by eapply (carries_new s base u mode s3).
  - by apply carries_plain.
Qed.

(** The same for [get_wf_dispersion]. *)
Lemma get_wf_dispersion_input_sets (structure : Structure)
    (vasp_input_set : option InputSet) (vasp_cmd : string) (db_file : pyval)
    (mode : string) (supercell : pyval) (u : val) (optimize : bool)
    (tag : string) s :
  let base := default (MPRelaxSet structure) vasp_input_set in
  wp (get_wf_dispersion structure vasp_input_set vasp_cmd db_file mode
        supercell u optimize tag) s
    (λ r s',
       match r with
       | Ok wf => Forall (carries_derived s base u mode (store s')) (wf_fws wf)
       | Raise _ => True
       end).
Proof.
  intros base.
  unfold get_wf_dispersion, get_wf_dispersion_with. cbv zeta. fold base.
  apply wp_bind.
  eapply (wp_mono _ _
    (λ r s1, ext (store s) (store s1) ∧
       match r with
       | Ok (fws, _) => Forall (carries_derived s base u mode (store s1)) fws
       | Raise _ => True
       end)).
  { destruct optimize.
    - apply wp_relax; [|done].
      intros Hok vis s1 Hd. apply wp_bind.
      destruct (String.eqb mode "force");
        (apply wp_new_fw; apply wp_ret; cbn;
         split; [apply Hd|]; apply Forall_singleton;
         by eapply (carries_new s base u mode s); [apply ext_refl|..]).
    - apply wp_ret. split; [apply ext_refl|]. apply Forall_nil_2. }
  intros [[fws parent2]|e] s1 [He1 H1]; [|done].
  apply wp_stage; [|done].
  intros Hok d lu b s2 Hb Hst. apply wp_bind.
  destruct (String.eqb mode "force") eqn:Hforce;
    [|destruct (String.eqb mode "hessian") eqn:Hhess].
  - eapply wp_finish; [exact Hb|exact Hst|].
    intros vis s3 Hd.
    apply wp_bind, wp_new_fw. apply wp_bind, wp_new_fw.
    apply wp_ret. apply wp_ret. cbn.
    rewrite !Forall_app, !Forall_singleton. split; [split|].
    + eapply Forall_impl; [exact H1|]. intros fw. apply carries_ext, Hd.
    + eapply (carries_new s base u mode s1); [done|exact Hd|done|].
      by apply mode_overrides_force.
    + by apply carries_plain.
  - eapply wp_finish; [exact Hb|exact Hst|].
    intros vis s3 Hd.
    apply wp_bind, wp_new_fw. apply wp_ret. apply wp_ret. cbn.
    rewrite !Forall_app, !Forall_singleton. split.
    + eapply Forall_impl; [exact H1|]. intros fw. apply carries_ext, Hd.
    + eapply (carries_new s base u mode s1); [done|exact Hd|done|].
      by apply mode_overrides_hessian.
  - by apply wp_raise.
Qed.

(** What [carries_derived] says of the parts of the input set. *)
Lemma carries_parts s base u mode s' fw vis :
  carries_derived s base u mode (store s') fw →
  input_set_of fw = Some vis →
  well_formed s base = true → allocated (store s) u = true →
  vis_class vis = vis_class base ∧
  user_incar_settings s' vis
    = phase_overrides mode (kind fw) ∪ user_incar_settings s base ∧
  serialized s' vis !! "user_kpoints_settings"
    = (if val_true (store s) u then Some (content (store s) u)
       else serialized s base !! "user_kpoints_settings") ∧
  (∀ k, k ≠ "user_incar_settings" → k ≠ "user_kpoints_settings" →
        serialized s' vis !! k = serialized s base !! k).
Proof.
  intros Hc Hfw Hwf Hu. destruct (Hc vis Hfw) as [Hcls Hcont].
  destruct (Hcont Hwf Hu) as [_ Hsnap]. split; [done|].
  change (snapshot (store s') (vis_args vis)) with (serialized s' vis) in Hsnap.
  destruct (derived_user_incar_settings _ _ _ _ _ _ _ Hsnap) as (l & _ & Huis).
  split; [done|]. rewrite Hsnap. unfold derived. split.
  - rewrite lookup_insert_ne by done.
    destruct (val_true (store s) u); [by rewrite lookup_insert_eq|done].
  - intros k Hk1 Hk2. rewrite lookup_insert_ne by done.
    destruct (val_true (store s) u); [by rewrite lookup_insert_ne|done].
Qed.

Lemma returned_units_carry (structure : Structure)
    (vasp_input_set : option InputSet) (mode vasp_cmd third_cmd : string)
    (db_file supercell cutoff_3rd : pyval) (u : val) (optimize : bool)
    (tag : string) s wf s' :
  get_wf_dispersion structure vasp_input_set vasp_cmd db_file mode supercell
    u optimize tag s = (Ok wf, s') ∨
  get_wf_thermal_conductivity structure vasp_input_set mode vasp_cmd
    third_cmd db_file supercell cutoff_3rd u optimize tag s = (Ok wf, s') →
  Forall (carries_derived s (default (MPRelaxSet structure) vasp_input_set)
            u mode (store s')) (wf_fws wf).
Proof.
  intros [Hrun|Hrun].
  - pose proof (get_wf_dispersion_input_sets structure vasp_input_set
      vasp_cmd db_file mode supercell u optimize tag s) as Hspec.
    apply wp_run in Hspec. destruct Hspec as (r & s1 & Hrun' & Hpost).
    rewrite Hrun in Hrun'. by injection Hrun' as <- <-.
  - pose proof (get_wf_thermal_conductivity_input_sets structure
      vasp_input_set mode vasp_cmd third_cmd db_file supercell cutoff_3rd u
      optimize tag s) as Hspec.
    apply wp_run in Hspec. destruct Hspec as (r & s1 & Hrun' & Hpost).
    rewrite Hrun in Hrun'. by injection Hrun' as <- <-.
Qed.

(** X13. The caller's [user_kpoints_settings] reaches every unit that
    runs VASP when it is true in a condition; when it is [None] or an
    empty mapping, every such unit keeps the base's own
    [user_kpoints_settings], if any. *)
Theorem unit_user_kpoints_settings (structure : Structure)
    (vasp_input_set : option InputSet) (mode vasp_cmd third_cmd : string)
    (db_file supercell cutoff_3rd : pyval) (user_kpoints_settings : val)
    (optimize_structure : bool) (tag : string) s wf s' :
  get_wf_dispersion structure vasp_input_set vasp_cmd db_file mode supercell
    user_kpoints_settings optimize_structure tag s = (Ok wf, s') ∨
  get_wf_thermal_conductivity structure vasp_input_set mode vasp_cmd
    third_cmd db_file supercell cutoff_3rd user_kpoints_settings
    optimize_structure tag s = (Ok wf, s') →
  well_formed s (default (MPRelaxSet structure) vasp_input_set) = true →
  allocated (store s) user_kpoints_settings = true →
  ∀ fw vis, fw ∈ wf_fws wf → input_set_of fw = Some vis →
    serialized s' vis !! "user_kpoints_settings"
    = (if val_true (store s) user_kpoints_settings
       then Some (content (store s) user_kpoints_settings)
       else serialized s (default (MPRelaxSet structure) vasp_input_set)
              !! "user_kpoints_settings").
Proof.
  intros Hrun Hwf Hu fw vis Hin Hfw.
  pose proof (returned_units_carry _ _ _ _ _ _ _ _ _ _ _ _ _ _ Hrun) as Hall.
  rewrite Forall_forall in Hall. specialize (Hall fw Hin).
  by destruct (carries_parts _ _ _ _ _ _ _ Hall Hfw Hwf Hu) as (_ & _ & Hk & _).
Qed.

Lemma unit_user_kpoints_settings_witness :
  ∃ wf s',
    get_wf_dispersion silicon (Some sample_set) "vasp" PNone "force" (cubic 3)
      (VRef 2%positive) true "2017-09-13" sample_state = (Ok wf, s') ∧
    ∀ fw vis, fw ∈ wf_fws wf → input_set_of fw = Some vis →
      serialized s' vis !! "user_kpoints_settings"
      = (if val_true (store sample_state) (VRef 2%positive)
         then Some (content (store sample_state) (VRef 2%positive))
         else serialized sample_state sample_set !! "user_kpoints_settings").
Proof.
  destruct (get_wf_dispersion silicon (Some sample_set) "vasp" PNone "force"
              (cubic 3) (VRef 2%positive) true "2017-09-13" sample_state)
    as [[wf|e] s'] eqn:Hrun.
  - exists wf, s'. split; [reflexivity|].
    apply (unit_user_kpoints_settings silicon (Some sample_set) "force" "vasp"
             "thirdorder_vasp.py" PNone (cubic 3) (PInt (-4))
             (VRef 2%positive) true "2017-09-13" sample_state wf s').
    + left. exact Hrun.
    + reflexivity.
    + reflexivity.
  - exfalso. vm_compute in Hrun. discriminate Hrun.
Defined.

(** X14. Every unit that runs VASP gets an input set of the class of
    the base, and all entries of its serialised form other than
    [user_incar_settings] and [user_kpoints_settings] are the base's. *)
Theorem unit_input_set_otherwise_base (structure : Structure)
    (vasp_input_set : option InputSet) (mode vasp_cmd third_cmd : string)
    (db_file supercell cutoff_3rd : pyval) (user_kpoints_settings : val)
    (optimize_structure : bool) (tag : string) s wf s' :
  get_wf_dispersion structure vasp_input_set vasp_cmd db_file mode supercell
    user_kpoints_settings optimize_structure tag s = (Ok wf, s') ∨
  get_wf_thermal_conductivity structure vasp_input_set mode vasp_cmd
    third_cmd db_file supercell cutoff_3rd user_kpoints_settings
    optimize_structure tag s = (Ok wf, s') →
  well_formed s (default (MPRelaxSet structure) vasp_input_set) = true →
  allocated (store s) user_kpoints_settings = true →
  ∀ fw vis, fw ∈ wf_fws wf → input_set_of fw = Some vis →
    vis_class vis = vis_class (default (MPRelaxSet structure) vasp_input_set) ∧
    ∀ k : string,
      k ≠ "user_incar_settings" → k ≠ "user_kpoints_settings" →
      serialized s' vis !! k
      = serialized s (default (MPRelaxSet structure) vasp_input_set) !! k.
Proof.
  intros Hrun Hwf Hu fw vis Hin Hfw.
  pose proof (returned_units_carry _ _ _ _ _ _ _ _ _ _ _ _ _ _ Hrun) as Hall.
  rewrite Forall_forall in Hall. specialize (Hall fw Hin).
  by destruct (carries_parts _ _ _ _ _ _ _ Hall Hfw Hwf Hu)
    as (Hcls & _ & _ & Hk).
Qed.

Lemma unit_input_set_otherwise_base_witness :
  ∃ wf s',
    get_wf_dispersion silicon (Some sample_set) "vasp" PNone "hessian"
      (cubic 3) (VLit PNone) true "2017-09-13" sample_state = (Ok wf, s') ∧
    ∀ fw vis, fw ∈ wf_fws wf → input_set_of fw = Some vis →
      vis_class vis = vis_class (default (MPRelaxSet silicon) (Some sample_set)) ∧
      ∀ k : string,
        k ≠ "user_incar_settings" → k ≠ "user_kpoints_settings" →
        serialized s' vis !! k
        = serialized sample_state
            (default (MPRelaxSet silicon) (Some sample_set)) !! k.
Proof.
  destruct (get_wf_dispersion silicon (Some sample_set) "vasp" PNone "hessian"
              (cubic 3) (VLit PNone) true "2017-09-13" sample_state)
    as [[wf|e] s'] eqn:Hrun.
  - exists wf, s'. split; [reflexivity|].
    apply (unit_input_set_otherwise_base silicon (Some sample_set) "hessian"
             "vasp" "thirdorder_vasp.py" PNone (cubic 3) (PInt (-4))
             (VLit PNone) true "2017-09-13" sample_state wf s').
    + left. exact Hrun.
    + reflexivity.
    + reflexivity.
  - exfalso. vm_compute in Hrun. discriminate Hrun.
Defined.

(** ** Errors and what the caller's objects keep *)

(** X15. A base input set that holds under [user_incar_settings] a
    value that is no mapping (as after [user_incar_settings=None])
    makes both assemblers raise [AttributeError], whatever the mode,
    valid or not, and whether or not a relaxation is asked for: the
    mode check is never reached. *)
Theorem non_mapping_settings_raise (structure : Structure)
    (vasp_input_set : option InputSet) (mode vasp_cmd third_cmd : string)
    (db_file supercell cutoff_3rd : pyval) (user_kpoints_settings : val)
    (optimize_structure : bool) (tag : string) s :
  uis_ok (default (MPRelaxSet structure) vasp_input_set) = false →
  (∃ s', get_wf_dispersion structure vasp_input_set vasp_cmd db_file mode
           supercell user_kpoints_settings optimize_structure tag s
         = (Raise no_update, s')) ∧
  (∃ s', get_wf_thermal_conductivity structure vasp_input_set mode vasp_cmd
           third_cmd db_file supercell cutoff_3rd user_kpoints_settings
           optimize_structure tag s
         = (Raise no_update, s')).
Proof.
  intros Hbad. split.
  - pose proof (get_wf_dispersion_spec structure vasp_input_set vasp_cmd
      db_file mode supercell user_kpoints_settings optimize_structure tag s)
      as Hspec.
    apply wp_run in Hspec. destruct Hspec as (r & s' & Hrun & _ & Hpost).
    exists s'. rewrite Hrun. destruct r as [wf|e].
    + destruct Hpost as (Hok & _). congruence.
    + destruct Hpost as [[_ ->]|(Hok & _)]; [done|congruence].
  - pose proof (get_wf_thermal_conductivity_spec structure vasp_input_set
      mode vasp_cmd third_cmd db_file supercell cutoff_3rd
      user_kpoints_settings optimize_structure tag s) as Hspec.
    apply wp_run in Hspec. destruct Hspec as (r & s' & Hrun & _ & Hpost).
    exists s'. rewrite Hrun. destruct r as [wf|e].
    + destruct Hpost as (Hok & _). congruence.
    + destruct Hpost as [[_ ->]|(Hok & _)]; [done|congruence].
Qed.

Lemma non_mapping_settings_raise_witness :
  (∃ s', get_wf_dispersion silicon (Some sample_set_none) "vasp" PNone "bogus"
           (cubic 3) (VLit PNone) false "2017-09-13" sample_state
         = (Raise no_update, s')) ∧
  (∃ s', get_wf_thermal_conductivity silicon (Some sample_set_none) "bogus"
           "vasp" "thirdorder_vasp.py" PNone (cubic 3) (PInt (-4))
           (VLit PNone) false "2017-09-13" sample_state
         = (Raise no_update, s')).
Proof.
  apply (non_mapping_settings_raise silicon (Some sample_set_none) "bogus"
           "vasp" "thirdorder_vasp.py" PNone (cubic 3) (PInt (-4))
           (VLit PNone) false "2017-09-13" sample_state).
  reflexivity.
Defined.

(** ** The default input set *)

Lemma default_set_well_formed (structure : Structure) s :
  well_formed s (MPRelaxSet structure) = true.
Proof.
  apply well_formed_all. intros k v Hk. unfold MPRelaxSet in Hk. cbn in Hk.
  apply lookup_insert_Some in Hk as [[_ <-]|[_ Hk]]; [done|].
  by apply lookup_singleton_Some in Hk as [_ <-].
Qed.

(** X17. Without an input set, the assemblers build
    [MPRelaxSet(structure, force_gamma=True)] and cannot raise for a
    valid mode; the dispersion unit then has exactly the mode's
    constants and [EDIFF] as [user_incar_settings], and keeps
    [force_gamma]. *)
Theorem default_input_set_settings (structure : Structure)
    (vasp_cmd : string) (db_file : pyval) (mode : string) (supercell : pyval)
    (user_kpoints_settings : val) (optimize_structure : bool) (tag : string)
    s :
  allocated (store s) user_kpoints_settings = true →
  mode = "force" ∨ mode = "hessian" →
  ∃ wf s' vis_disp,
    get_wf_dispersion structure None vasp_cmd db_file mode supercell
      user_kpoints_settings optimize_structure tag s = (Ok wf, s') ∧
    dispersion_settings wf = Some vis_disp ∧
    vis_class vis_disp = "MPRelaxSet" ∧
    user_incar_settings s' vis_disp = mode_overrides mode ∧
    serialized s' vis_disp !! "force_gamma" = Some (inl (PBool true)) ∧
    serialized s' vis_disp !! "structure" = Some (inl (sites structure)).
Proof.
  intros Hu Hmode.
  pose proof (default_set_well_formed structure s) as Hwf.
  destruct (dispersion_derives structure None vasp_cmd db_file mode supercell
              user_kpoints_settings optimize_structure tag s
              eq_refl Hwf Hu Hmode)
    as (wf & s' & vis_disp & Hrun & Hds & _ & _ & Hser).
  exists wf, s', vis_disp. split; [done|]. split; [done|].
  pose proof (returned_units_carry structure None mode vasp_cmd "" db_file
                supercell PNone user_kpoints_settings optimize_structure tag
                s wf s' (or_introl Hrun)) as Hall.
  unfold dispersion_settings in Hds.
  destruct (List.find _ (wf_fws wf)) as [fw|] eqn:Hfind; [|done].
  cbn in Hds. apply find_some in Hfind as [Hin Hkind].
  rewrite Forall_forall in Hall.
  specialize (Hall fw (proj2 (list_elem_of_In _ _) Hin)).
  destruct (carries_parts _ _ _ _ _ _ _ Hall Hds Hwf Hu)
    as (Hcls & Huis & _ & Hother).
  split; [done|]. split.
  - assert (Hk : kind fw = Dispersion).
    { destruct (kind fw); cbn in Hkind; congruence. }
    rewrite Huis, Hk. cbn [phase_overrides]. apply (right_id_L ∅ (∪)).
  - rewrite !Hother by done. unfold serialized, snapshot, MPRelaxSet.
    cbn [default vis_args]. rewrite !lookup_fmap.
    rewrite lookup_insert_eq, lookup_insert_ne, lookup_singleton_eq by done.
    split; reflexivity.
Qed.

Lemma default_input_set_settings_witness :
  ∃ wf s' vis_disp,
    get_wf_dispersion silicon None "vasp" PNone "hessian" (cubic 3)
      (VLit PNone) true "2017-09-13" sample_state = (Ok wf, s') ∧
    dispersion_settings wf = Some vis_disp ∧
    vis_class vis_disp = "MPRelaxSet" ∧
    user_incar_settings s' vis_disp = mode_overrides "hessian" ∧
    serialized s' vis_disp !! "force_gamma" = Some (inl (PBool true)) ∧
    serialized s' vis_disp !! "structure" = Some (inl (sites silicon)).
Proof.
  apply (default_input_set_settings silicon "vasp" PNone "hessian" (cubic 3)
           (VLit PNone) true "2017-09-13" sample_state).
  - reflexivity.
  - right. reflexivity.
Defined.

(** ** The shape of the graphs *)

(** X18. The graph of [get_wf_dispersion] is a chain: the units are
    numbered in the order of the list, the first has no parent and
    every other unit has the one before it as its only parent. *)
Theorem dispersion_graph_is_chain (structure : Structure)
    (vasp_input_set : option InputSet) (vasp_cmd : string) (db_file : pyval)
    (mode : string) (supercell : pyval) (user_kpoints_settings : val)
    (optimize_structure : bool) (tag : string) s wf s' :
  get_wf_dispersion structure vasp_input_set vasp_cmd db_file mode supercell
    user_kpoints_settings optimize_structure tag s = (Ok wf, s') →
  ∀ (i : nat) fw, wf_fws wf !! i = Some fw →
    fw_id fw = (made s + i)%nat ∧
    fw_parents fw = match i with
                    | O => []
                    | S j => [(made s + j)%nat]
                    end.
Proof.
  intros Hrun.
  pose proof (get_wf_dispersion_spec structure vasp_input_set vasp_cmd
    db_file mode supercell user_kpoints_settings optimize_structure tag s)
    as Hspec.
  apply wp_run in Hspec. destruct Hspec as (r & s1 & Hrun' & _ & Hpost).
  rewrite Hrun in Hrun'. injection Hrun' as <- <-.
  destruct Hpost as (_ & _ & _ & vis_relax & vis_disp & Hfws & _).
  rewrite Hfws. intros i fw Hi.
  destruct optimize_structure, (String.eqb mode "force");
    repeat (destruct i as [|i]; [injection Hi as <-; cbn; split; f_equal; lia|]);
    done.
Qed.

Lemma dispersion_graph_is_chain_witness :
  ∃ wf s',
    get_wf_dispersion silicon (Some sample_set) "vasp" PNone "force" (cubic 3)
      (VRef 2%positive) true "2017-09-13" sample_state = (Ok wf, s') ∧
    ∀ (i : nat) fw, wf_fws wf !! i = Some fw →
      fw_id fw = (made sample_state + i)%nat ∧
      fw_parents fw = match i with
                      | O => []
                      | S j => [(made sample_state + j)%nat]
                      end.
Proof.
  destruct (get_wf_dispersion silicon (Some sample_set) "vasp" PNone "force"
              (cubic 3) (VRef 2%positive) true "2017-09-13" sample_state)
    as [[wf|e] s'] eqn:Hrun.
  - exists wf, s'. split; [reflexivity|].
    by apply (dispersion_graph_is_chain silicon (Some sample_set) "vasp" PNone
                "force" (cubic 3) (VRef 2%positive) true "2017-09-13"
                sample_state wf s').
  - exfalso. vm_compute in Hrun. discriminate Hrun.
Defined.

Lemma tc_last {A} (R : relation A) x z :
  tc R x z → ∃ y, rtc R x y ∧ R y z.
Proof.
  induction 1 as [x z Hxz|x y z Hxy _ (w & Hyw & Hwz)].
  - exists x. by split.
  - exists w. split; [by eapply rtc_l|done].
Qed.

Lemma paths_do_not_decrease n wf a b :
  built_in_order n wf → rtc (edge wf) a b → (fw_id a ≤ fw_id b)%nat.
Proof.
  intros Hord Hrtc. apply rtc_tc in Hrtc as [->|Htc]; [done|].
  pose proof (edges_increase n wf a b Hord Htc). lia.
Qed.

(** X19. In the graph of [get_wf_thermal_conductivity] the third-order
    unit and the dispersion branch do not depend on each other: no
    chain of edges leads from the dispersion unit or the analysis unit
    to the third-order unit, nor back. *)
Theorem third_order_independent_of_dispersion (structure : Structure)
    (vasp_input_set : option InputSet) (mode vasp_cmd third_cmd : string)
    (db_file supercell cutoff_3rd : pyval) (user_kpoints_settings : val)
    (optimize_structure : bool) (tag : string) s wf s' :
  get_wf_thermal_conductivity structure vasp_input_set mode vasp_cmd
    third_cmd db_file supercell cutoff_3rd user_kpoints_settings
    optimize_structure tag s = (Ok wf, s') →
  ∀ a b, a ∈ wf_fws wf → b ∈ wf_fws wf →
    kind a = Dispersion ∨ kind a = Analysis →
    kind b = ThirdOrder →
    ¬ tc (edge wf) a b ∧ ¬ tc (edge wf) b a.
Proof.
  intros Hrun.
  pose proof (get_wf_thermal_conductivity_spec structure vasp_input_set mode
    vasp_cmd third_cmd db_file supercell cutoff_3rd user_kpoints_settings
    optimize_structure tag s) as Hspec.
  apply wp_run in Hspec. destruct Hspec as (r & s1 & Hrun' & _ & Hpost).
  rewrite Hrun in Hrun'. injection Hrun' as <- <-.
  destruct Hpost as (_ & _ & _ & vis_relax & vis_disp & vis_third & Hfws).
  assert (Hord : built_in_order (made s) wf).
  { unfold built_in_order. rewrite Hfws.
    destruct optimize_structure, (String.eqb mode "force"); in_order. }
  intros a b Ha Hb Hka Hkb.
  assert (Hids : (fw_id a < fw_id b)%nat ∧
                 ∀ p, p ∈ fw_parents b → (p < fw_id a)%nat).
  { rewrite Hfws in Ha, Hb.
    destruct optimize_structure, (String.eqb mode "force"); cbn in Ha, Hb;
      repeat (apply elem_of_cons in Ha as [->|Ha]);
      try (by apply elem_of_nil in Ha);
      try (by destruct Hka as [Hka|Hka]; discriminate Hka);
      repeat (apply elem_of_cons in Hb as [->|Hb]);
      try (by apply elem_of_nil in Hb);
      try discriminate Hkb;
      (split; [cbn; lia|]); intros p Hp; cbn in Hp;
      repeat (apply elem_of_cons in Hp as [->|Hp]);
      try (by apply elem_of_nil in Hp); cbn; lia. }
  destruct Hids as [Hlt Hpar]. split.
  - intros Htc. apply tc_last in Htc as (y & Hay & Hyb).
    pose proof (paths_do_not_decrease _ _ _ _ Hord Hay) as Hle.
    destruct Hyb as (_ & _ & Hp). specialize (Hpar _ Hp). lia.
  - intros Htc. pose proof (edges_increase _ _ _ _ Hord Htc). lia.
Qed.

Lemma third_order_independent_of_dispersion_witness :
  ∃ wf s',
    get_wf_thermal_conductivity silicon (Some sample_set) "force" "vasp"
      "thirdorder_vasp.py" PNone (cubic 4) (PInt (-4)) (VRef 2%positive)
      true "2017-09-13" sample_state = (Ok wf, s') ∧
    ∀ a b, a ∈ wf_fws wf → b ∈ wf_fws wf →
      kind a = Dispersion ∨ kind a = Analysis →
      kind b = ThirdOrder →
      ¬ tc (edge wf) a b ∧ ¬ tc (edge wf) b a.
Proof.
  destruct (get_wf_thermal_conductivity silicon (Some sample_set) "force"
              "vasp" "thirdorder_vasp.py" PNone (cubic 4) (PInt (-4))
              (VRef 2%positive) true "2017-09-13" sample_state)
    as [[wf|e] s'] eqn:Hrun.
  - exists wf, s'. split; [reflexivity|].
    by apply (third_order_independent_of_dispersion silicon (Some sample_set)
                "force" "vasp" "thirdorder_vasp.py" PNone (cubic 4)
                (PInt (-4)) (VRef 2%positive) true "2017-09-13" sample_state
                wf s').
  - exfalso. vm_compute in Hrun. discriminate Hrun.
Defined.

(** Finds an edge, or a path of two edges, in a graph written out unit
    by unit. *)
Ltac find_edge Hfws :=
  unfold edge; rewrite Hfws; cbn; split_and!; set_solver.

Ltac find_path_through Hfws l :=
  lazymatch l with
  | ?x :: ?l' =>
      first [ solve [ apply (tc_l _ _ x); [find_edge Hfws|];
                      apply tc_once; find_edge Hfws ]
            | find_path_through Hfws l' ]
  end.

Ltac find_path Hfws :=
  first [ solve [apply tc_once; find_edge Hfws]
        | lazymatch type of Hfws with
          | _ = ?l => find_path_through Hfws l
          end ].

(** X20. The thermal conductivity unit is the last unit of the graph
    and comes after all the others: from every other unit a chain of
    edges leads to it. *)
Theorem conductivity_unit_after_all (structure : Structure)
    (vasp_input_set : option InputSet) (mode vasp_cmd third_cmd : string)
    (db_file supercell cutoff_3rd : pyval) (user_kpoints_settings : val)
    (optimize_structure : bool) (tag : string) s wf s' :
  get_wf_thermal_conductivity structure vasp_input_set mode vasp_cmd
    third_cmd db_file supercell cutoff_3rd user_kpoints_settings
    optimize_structure tag s = (Ok wf, s') →
  ∃ final,
    last (wf_fws wf) = Some final ∧
    kind final = ThermalConductivity ∧
    ∀ fw, fw ∈ wf_fws wf → fw ≠ final → tc (edge wf) fw final.
Proof.
  intros Hrun.
  pose proof (get_wf_thermal_conductivity_spec structure vasp_input_set mode
    vasp_cmd third_cmd db_file supercell cutoff_3rd user_kpoints_settings
    optimize_structure tag s) as Hspec.
  apply wp_run in Hspec. destruct Hspec as (r & s1 & Hrun' & _ & Hpost).
  rewrite Hrun in Hrun'. injection Hrun' as <- <-.
  destruct Hpost as (_ & _ & _ & vis_relax & vis_disp & vis_third & Hfws).
  destruct optimize_structure, (String.eqb mode "force"); cbn in Hfws;
    (eexists; split; [by rewrite Hfws|]; split; [reflexivity|];
     intros fw Hin Hne; rewrite Hfws in Hin;
     repeat (apply elem_of_cons in Hin as [->|Hin]);
     try (by apply elem_of_nil in Hin); try done;
     find_path Hfws).
Qed.

Lemma conductivity_unit_after_all_witness :
  ∃ wf s',
    get_wf_thermal_conductivity silicon (Some sample_set) "hessian" "vasp"
      "thirdorder_vasp.py" PNone (cubic 4) (PInt (-4)) (VRef 2%positive)
      true "2017-09-13" sample_state = (Ok wf, s') ∧
    ∃ final,
      last (wf_fws wf) = Some final ∧
      kind final = ThermalConductivity ∧
      ∀ fw, fw ∈ wf_fws wf → fw ≠ final → tc (edge wf) fw final.
Proof.
  destruct (get_wf_thermal_conductivity silicon (Some sample_set) "hessian"
              "vasp" "thirdorder_vasp.py" PNone (cubic 4) (PInt (-4))
              (VRef 2%positive) true "2017-09-13" sample_state)
    as [[wf|e] s'] eqn:Hrun.
  - exists wf, s'. split; [reflexivity|].
    by apply (conductivity_unit_after_all silicon (Some sample_set) "hessian"
                "vasp" "thirdorder_vasp.py" PNone (cubic 4) (PInt (-4))
                (VRef 2%positive) true "2017-09-13" sample_state wf s').
  - exfalso. vm_compute in Hrun. discriminate Hrun.
Defined.

End WorkflowMore.

(** * The assemblers with a serialiser that shares *)
Module SharedSerialiser.
Import Workflows WorkflowFacts.

Implicit Types (h : gmap loc (gmap string pyval)) (s : state).

#[local] Opaque wp.

(** ** The store, but for one mapping *)

Lemma kept_refl l0 h : kept_except l0 h h.
Proof. by split. Qed.

Lemma kept_is_Some l0 h h' l :
  kept_except l0 h h' → is_Some (h !! l) → is_Some (h' !! l).
Proof.
  intros [H0 Hk] Hl. destruct (decide (l = l0)) as [->|Hne]; [by apply H0|].
  by rewrite (Hk l Hne Hl).
Qed.

Lemma kept_trans l0 h1 h2 h3 :
  kept_except l0 h1 h2 → kept_except l0 h2 h3 → kept_except l0 h1 h3.
Proof.
  intros H12 H23. split.
  - intros Hl. by apply (kept_is_Some l0 h2), (kept_is_Some l0 h1).
  - intros l Hne Hl. rewrite <- (proj2 H12 l Hne Hl). apply (proj2 H23 l Hne).
    by apply (kept_is_Some l0 h1).
Qed.

Lemma ext_kept l0 h h' : ext h h' → kept_except l0 h h'.
Proof.
  intros He. split.
  - by apply ext_is_Some.
  - intros l _ Hl. by apply He.
Qed.

Lemma kept_update l0 h (x : gmap string pyval) :
  kept_except l0 h (<[l0 := x]> h).
Proof.
  split.
  - intros _. by rewrite lookup_insert_eq.
  - intros l Hne _. by rewrite lookup_insert_ne.
Qed.

Lemma kept_allocated l0 h h' v :
  kept_except l0 h h' → allocated h v = true → allocated h' v = true.
Proof.
  intros Hk. destruct v as [p|l]; [done|].
  rewrite !allocated_ref. by apply (kept_is_Some l0).
Qed.

Lemma kept_all_allocated l0 h h' (d : gmap string val) :
  kept_except l0 h h' → all_allocated h d → all_allocated h' d.
Proof. intros Hk Ha k v Hkv. eapply kept_allocated; eauto. Qed.

Lemma kept_lookup l0 h h' l (x : gmap string pyval) :
  kept_except l0 h h' → l ≠ l0 → h !! l = Some x → h' !! l = Some x.
Proof. intros [_ Hk] Hne Hl. by rewrite (Hk l Hne), Hl. Qed.

Lemma carries_shared_kept mode B l0 h h' fw :
  kept_except l0 h h' →
  carries_shared mode B l0 h fw → carries_shared mode B l0 h' fw.
Proof.
  intros Hk Hc vis Hvis. destruct (Hc vis Hvis) as (l & Hl & Hne & Hx).
  exists l. split; [done|]. split; [done|]. by eapply kept_lookup.
Qed.

Lemma carries_shared_plain mode B l0 h fw :
  input_set_of fw = None → carries_shared mode B l0 h fw.
Proof. intros Hfw vis Hvis. congruence. Qed.

Lemma lookup_Some_total h l (x : gmap string pyval) :
  h !! l = Some x → h !!! l = x.
Proof. intros Hl. by rewrite lookup_total_alt, Hl. Qed.

(** ** The blocks of the assemblers *)

(** [from_dict] on a serialised form that holds the mapping at [l0]
    under [user_incar_settings]: the input set gets a copy of it. *)
Lemma from_dict_own_copy l0 (d : gmap string val) s1 vis s2 :
  d !! "user_incar_settings" = Some (VRef l0) →
  all_allocated (store s1) d →
  copy_post d s1 (vis_args vis) s2 →
  ∃ l, vis_args vis !! "user_incar_settings" = Some (VRef l) ∧
       store s1 !! l = None ∧
       store s2 !! l = Some (store s1 !!! l0).
Proof.
  intros Hd Hall [_ _ Hfresh _ Hsort Hsnap].
  pose proof (Hsort "user_incar_settings") as Hs. rewrite Hd in Hs.
  unfold same_sort in Hs.
  destruct (vis_args vis !! "user_incar_settings") as [[p|l]|] eqn:Hv;
    try done.
  exists l. split; [done|].
  destruct (Hfresh _ _ Hv) as [Hn [x Hx]]. split; [done|].
  specialize (Hsnap Hall).
  apply (f_equal (λ m, m !! "user_incar_settings")) in Hsnap.
  unfold snapshot in Hsnap. rewrite !lookup_fmap, Hv, Hd in Hsnap.
  cbn in Hsnap. injection Hsnap as Hsnap.
  rewrite <- Hsnap. by rewrite (lookup_Some_total _ _ _ Hx).
Qed.

Section blocks.

Variables (base : InputSet) (u : val) (l0 : loc).

Hypothesis Hbase : vis_args base !! "user_incar_settings" = Some (VRef l0).

(** Lines 59-65 of [dispersion.py], 62-68 of
    [thermal_conductivity.py]: the relaxation settings. *)
Lemma wp_relax_shared {B} s (k : InputSet → M B) Q :
  is_Some (store s !! l0) →
  all_allocated (store s) (vis_args base) →
  allocated (store s) u = true →
  (∀ vis s',
     made s' = made s →
     kept_except l0 (store s) (store s') →
     store s' !! l0 = Some (uis_common ∪ (store s !!! l0)) →
     (∃ l, vis_args vis !! "user_incar_settings" = Some (VRef l) ∧
           store s !! l = None ∧
           store s' !! l = Some (uis_common ∪ (store s !!! l0))) →
     wp (k vis) s' Q) →
  wp (as_dict_shared base ≫= λ d,
      get_or_new d "user_incar_settings" ≫= λ uis,
      dict_update uis uis_common ≫= λ _,
      val_truthy u ≫= λ b : bool,
      from_dict (vis_class base)
        (if b then
           <["user_kpoints_settings" := u]> (<["user_incar_settings" := uis]> d)
         else <["user_incar_settings" := uis]> d) ≫= k) s Q.
Proof.
  intros Hl0 Hall Hu Hk.
  apply wp_bind, wp_as_dict_shared.
  apply wp_bind, wp_get_or_new. intros l_e Hle. rewrite Hbase.
  cbn [default from_option id].
  apply wp_bind, wp_dict_update_ref.
  assert (Hne : l_e ≠ l0) by (intros ->; rewrite Hle in Hl0; by destruct Hl0).
  cbn [store made]. rewrite lookup_total_insert_ne by done.
  set (x := uis_common ∪ (store s !!! l0)).
  set (s1 := {| store := <[l0 := x]> (<[l_e := ∅]> (store s));
                made := made s |}).
  assert (Hk1 : kept_except l0 (store s) (store s1)).
  { eapply kept_trans; [apply ext_kept, ext_insert_new, Hle|].
    apply kept_update. }
  assert (Hx1 : store s1 !! l0 = Some x) by apply lookup_insert_eq.
  apply wp_bind, wp_val_truthy.
  set (d := if val_true (store s1) u
            then <["user_kpoints_settings" := u]>
                   (<["user_incar_settings" := VRef l0]> (vis_args base))
            else <["user_incar_settings" := VRef l0]> (vis_args base)).
  assert (Hd : d !! "user_incar_settings" = Some (VRef l0)).
  { subst d. destruct (val_true (store s1) u).
    - rewrite lookup_insert_ne by done. apply lookup_insert_eq.
    - apply lookup_insert_eq. }
  assert (Had : all_allocated (store s1) d).
  { pose proof (kept_all_allocated _ _ _ _ Hk1 Hall) as Hall1.
    assert (Ha0 : all_allocated (store s1)
                    (<["user_incar_settings" := VRef l0]> (vis_args base))).
    { by rewrite insert_id. }
    subst d. destruct (val_true (store s1) u); [|done].
    intros k0 v0. destruct (decide (k0 = "user_kpoints_settings")) as [->|Hn].
    - rewrite lookup_insert_eq. intros [= <-]. by eapply kept_allocated.
    - rewrite lookup_insert_ne by done. apply Ha0. }
  apply wp_bind, wp_from_dict. intros vis s2 Hcls Hcopy.
  destruct (from_dict_own_copy l0 d s1 vis s2 Hd Had Hcopy)
    as (l & Hv & Hn & Hx).
  pose proof (copy_ext _ _ _ _ Hcopy) as He.
  apply Hk.
  - by rewrite (copy_made _ _ _ _ Hcopy).
  - eapply kept_trans; [exact Hk1|]. by apply ext_kept.
  - rewrite (He l0); [done|]. by rewrite Hx1.
  - exists l. split; [done|]. split.
    + destruct (store s !! l) eqn:E; [|done].
      assert (is_Some (store s1 !! l)) as [y Hy]
        by (eapply kept_is_Some; [exact Hk1|by rewrite E]).
      congruence.
    + by rewrite Hx, (lookup_Some_total _ _ _ Hx1).
Qed.

(** Lines 75-79 of [dispersion.py] (74-78 and 111-115 of
    [thermal_conductivity.py]). *)
Lemma wp_stage_shared {B} s (k : gmap string val → bool → val → M B) Q :
  is_Some (store s !! l0) →
  (∀ s',
     made s' = made s →
     kept_except l0 (store s) (store s') →
     store s' !! l0 = Some (uis_common ∪ (store s !!! l0)) →
     wp (k (vis_args base) (val_true (store s) u) (VRef l0)) s' Q) →
  wp (as_dict_shared base ≫= λ d,
      val_truthy u ≫= λ b : bool,
      get_or_new (if b then <["user_kpoints_settings" := u]> d else d)
        "user_incar_settings" ≫= λ uis,
      dict_update uis uis_common ≫= λ _, k d b uis) s Q.
Proof.
  intros Hl0 Hk.
  apply wp_bind, wp_as_dict_shared.
  apply wp_bind, wp_val_truthy.
  apply wp_bind, wp_get_or_new. intros l_e Hle.
  assert (Hget : (if val_true (store s) u
                  then <["user_kpoints_settings" := u]> (vis_args base)
                  else vis_args base) !! "user_incar_settings"
                 = Some (VRef l0)).
  { destruct (val_true (store s) u); [|done]. by rewrite lookup_insert_ne. }
  rewrite Hget. cbn [default from_option id].
  apply wp_bind, wp_dict_update_ref.
  assert (Hne : l_e ≠ l0) by (intros ->; rewrite Hle in Hl0; by destruct Hl0).
  cbn [store made]. rewrite lookup_total_insert_ne by done.
  apply Hk.
  - done.
  - eapply kept_trans; [apply ext_kept, ext_insert_new, Hle|].
    apply kept_update.
  - apply lookup_insert_eq.
Qed.

(** The mode's constants go in, and the input set is read back. *)
Lemma wp_finish_shared {B} s (cls : string) (d : gmap string val)
    (o : gmap string pyval) (k : InputSet → M B) Q :
  is_Some (store s !! l0) →
  all_allocated (store s) d →
  (∀ vis s',
     made s' = made s →
     kept_except l0 (store s) (store s') →
     store s' !! l0 = Some (o ∪ (store s !!! l0)) →
     (∃ l, vis_args vis !! "user_incar_settings" = Some (VRef l) ∧
           store s !! l = None ∧
           store s' !! l = Some (o ∪ (store s !!! l0))) →
     wp (k vis) s' Q) →
  wp (dict_update (VRef l0) o ≫= λ _,
      from_dict cls (<["user_incar_settings" := VRef l0]> d) ≫= k) s Q.
Proof.
  intros Hl0 Hall Hk.
  apply wp_bind, wp_dict_update_ref.
  set (x := o ∪ (store s !!! l0)).
  set (s1 := {| store := <[l0 := x]> (store s); made := made s |}).
  assert (Hk1 : kept_except l0 (store s) (store s1)) by apply kept_update.
  assert (Hx1 : store s1 !! l0 = Some x) by apply lookup_insert_eq.
  assert (Had : all_allocated (store s1)
                  (<["user_incar_settings" := VRef l0]> d)).
  { intros k0 v0. destruct (decide (k0 = "user_incar_settings")) as [->|Hn].
    - rewrite lookup_insert_eq. intros [= <-]. apply allocated_ref.
      by rewrite Hx1.
    - rewrite lookup_insert_ne by done. intros Hk0.
      eapply kept_allocated; [exact Hk1|]. by apply (Hall k0). }
  apply wp_bind, wp_from_dict. intros vis s2 Hcls Hcopy.
  destruct (from_dict_own_copy l0 _ s1 vis s2 (lookup_insert_eq _ _ _) Had Hcopy)
    as (l & Hv & Hn & Hx).
  pose proof (copy_ext _ _ _ _ Hcopy) as He.
  apply Hk.
  - by rewrite (copy_made _ _ _ _ Hcopy).
  - eapply kept_trans; [exact Hk1|]. by apply ext_kept.
  - rewrite (He l0); [done|]. by rewrite Hx1.
  - exists l. split; [done|]. split.
    + destruct (store s !! l) eqn:E; [|done].
      assert (is_Some (store s1 !! l)) as [y Hy]
        by (eapply kept_is_Some; [exact Hk1|by rewrite E]).
      congruence.
    + by rewrite Hx, (lookup_Some_total _ _ _ Hx1).
Qed.

End blocks.

Lemma all_allocated_if_kpts h (d : gmap string val) (u : val) (b : bool) :
  all_allocated h d → allocated h u = true →
  all_allocated h (if b then <["user_kpoints_settings" := u]> d else d).
Proof.
  intros Hall Hu. destruct b; [|done]. intros k v.
  destruct (decide (k = "user_kpoints_settings")) as [->|Hn].
  - rewrite lookup_insert_eq. by intros [= <-].
  - rewrite lookup_insert_ne by done. apply Hall.
Qed.

Lemma union_common_twice (B : gmap string pyval) :
  uis_common ∪ (uis_common ∪ B) = uis_common ∪ B.
Proof. by rewrite (assoc_L (∪)), (idemp_L (∪)). Qed.

(** A unit built on an input set that holds its own copy. *)
Lemma carries_shared_new mode B l0 h h' fw vis (x : gmap string pyval) :
  input_set_of fw = Some vis →
  is_Some (h !! l0) →
  (∃ l, vis_args vis !! "user_incar_settings" = Some (VRef l) ∧
        h !! l = None ∧ h' !! l = Some x) →
  x = phase_shared mode (kind fw) ∪ B →
  carries_shared mode B l0 h' fw.
Proof.
  intros Hfw Hl0 (l & Hv & Hn & Hx) -> vis' Hvis.
  rewrite Hfw in Hvis. injection Hvis as <-.
  exists l. split; [done|]. split; [|done].
  intros ->. rewrite Hn in Hl0. by destruct Hl0.
Qed.

(** ** What the assemblers do to a base whose mapping is shared *)

Lemma get_wf_dispersion_shared_spec (structure : Structure) (base : InputSet)
    (vasp_cmd : string) (db_file : pyval) (mode : string) (supercell : pyval)
    (u : val) (optimize : bool) (tag : string) (l0 : loc) s :
  vis_args base !! "user_incar_settings" = Some (VRef l0) →
  well_formed s base = true →
  allocated (store s) u = true →
  let B := store s !!! l0 in
  wp (get_wf_dispersion_shared structure (Some base) vasp_cmd db_file mode
        supercell u optimize tag) s
    (λ r s',
       kept_except l0 (store s) (store s') ∧
       match r with
       | Raise e =>
           mode ≠ "force" ∧ mode ≠ "hessian" ∧ e = mode_error ∧
           store s' !! l0 = Some (uis_common ∪ B)
       | Ok wf =>
           (mode = "force" ∨ mode = "hessian") ∧
           store s' !! l0 = Some (mode_overrides mode ∪ B) ∧
           Forall (carries_shared mode B l0 (store s')) (wf_fws wf)
       end).
Proof.
  intros Hbase Hwf Hu B.
  apply well_formed_all in Hwf.
  assert (Hl0 : is_Some (store s !! l0)).
  { apply allocated_ref. by apply (Hwf _ _ Hbase). }
  assert (HB : store s !! l0 = Some B).
  { destruct Hl0 as [x Hx]. subst B. by rewrite (lookup_Some_total _ _ _ Hx). }
  unfold get_wf_dispersion_shared, get_wf_dispersion_with. cbv zeta.
  cbn [default from_option id].
  set (force := String.eqb mode "force").
  apply wp_bind.
  eapply (wp_mono _ _
    (λ r s1,
       match r with
       | Ok (fws, parent2) =>
           kept_except l0 (store s) (store s1) ∧
           store s1 !! l0 = Some (if optimize then uis_common ∪ B else B) ∧
           Forall (carries_shared mode B l0 (store s1)) fws
       | Raise e => False
       end)).
  { destruct optimize.
    - apply (wp_relax_shared base u l0 Hbase); [done|done|done|].
      intros vis s1 Hm Hk Hx Hown. apply wp_bind.
      destruct force; apply wp_new_fw; apply wp_ret; cbn [store];
        (split; [done|]); (split; [done|]); apply Forall_singleton;
        by eapply (carries_shared_new _ _ _ (store s)).
    - apply wp_ret. split; [apply kept_refl|]. split; [done|]. constructor. }
  intros [[fws parent2]|e] s1 H1; [|done]. destruct H1 as (Hk1 & Hx1 & Hc1).
  assert (Hl1 : is_Some (store s1 !! l0)) by by rewrite Hx1.
  apply (wp_stage_shared base u l0 Hbase); [done|].
  intros s2 Hm2 Hk2 Hx2. rewrite (lookup_Some_total _ _ _ Hx1) in Hx2.
  assert (Hx2' : store s2 !! l0 = Some (uis_common ∪ B)).
  { rewrite Hx2. destruct optimize; [|done]. by rewrite union_common_twice. }
  clear Hx2.
  assert (Hl2 : is_Some (store s2 !! l0)) by by rewrite Hx2'.
  assert (Hk02 : kept_except l0 (store s) (store s2)) by by eapply kept_trans.
  assert (Had : all_allocated (store s2)
                  (if val_true (store s1) u
                   then <["user_kpoints_settings" := u]> (vis_args base)
                   else vis_args base)).
  { apply all_allocated_if_kpts.
    - by eapply kept_all_allocated.
    - by eapply kept_allocated. }
  assert (Hmo : ∀ o : gmap string pyval,
            o ∪ uis_common = mode_overrides mode →
            o ∪ (store s2 !!! l0) = mode_overrides mode ∪ B).
  { intros o <-. by rewrite (lookup_Some_total _ _ _ Hx2'), (assoc_L (∪)). }
  apply wp_bind. fold force.
  destruct force eqn:Hforce; [|destruct (String.eqb mode "hessian") eqn:Hhess].
  - eapply (wp_finish_shared l0); [done|exact Had|].
    intros vis s3 Hm3 Hk3 Hx3 Hown.
    assert (Ho : uis_force ∪ (store s2 !!! l0) = mode_overrides mode ∪ B).
    { apply Hmo. unfold mode_overrides. fold force. by rewrite Hforce. }
    rewrite Ho in Hx3, Hown.
    apply wp_bind, wp_new_fw. apply wp_bind, wp_new_fw.
    apply wp_ret. apply wp_ret. cbn [store wf_fws].
    split; [by eapply kept_trans|].
    split; [left; by apply String.eqb_eq|]. split; [done|].
    rewrite !Forall_app, !Forall_singleton. split; [split|].
    + eapply Forall_impl; [exact Hc1|]. intros fw.
      apply carries_shared_kept. by eapply kept_trans.
    + by eapply (carries_shared_new _ _ _ (store s2)).
    + by apply carries_shared_plain.
  - eapply (wp_finish_shared l0); [done|exact Had|].
    intros vis s3 Hm3 Hk3 Hx3 Hown.
    assert (Ho : uis_hessian ∪ (store s2 !!! l0) = mode_overrides mode ∪ B).
    { apply Hmo. unfold mode_overrides. fold force. by rewrite Hforce. }
    rewrite Ho in Hx3, Hown.
    apply wp_bind, wp_new_fw. apply wp_ret. apply wp_ret. cbn [store wf_fws].
    split; [by eapply kept_trans|].
    split; [right; by apply String.eqb_eq|]. split; [done|].
    rewrite !Forall_app, !Forall_singleton. split.
    + eapply Forall_impl; [exact Hc1|]. intros fw.
      apply carries_shared_kept. by eapply kept_trans.
    + by eapply (carries_shared_new _ _ _ (store s2)).
  - apply wp_raise. split; [done|].
    split; [by apply String.eqb_neq|]. split; [by apply String.eqb_neq|done].
Qed.

Lemma get_wf_thermal_conductivity_shared_spec (structure : Structure)
    (base : InputSet) (mode vasp_cmd third_cmd : string)
    (db_file supercell cutoff_3rd : pyval) (u : val) (optimize : bool)
    (tag : string) (l0 : loc) s :
  vis_args base !! "user_incar_settings" = Some (VRef l0) →
  well_formed s base = true →
  allocated (store s) u = true →
  let B := store s !!! l0 in
  wp (get_wf_thermal_conductivity_shared structure (Some base) mode vasp_cmd
        third_cmd db_file supercell cutoff_3rd u optimize tag) s
    (λ r s',
       kept_except l0 (store s) (store s') ∧
       match r with
       | Raise e =>
           mode ≠ "force" ∧ mode ≠ "hessian" ∧ e = mode_error ∧
           store s' !! l0 = Some (uis_common ∪ B)
       | Ok wf =>
           (mode = "force" ∨ mode = "hessian") ∧
           store s' !! l0
             = Some ((uis_force ∪ uis_common) ∪ (mode_overrides mode ∪ B)) ∧
           Forall (carries_shared mode B l0 (store s')) (wf_fws wf)
       end).
Proof.
  intros Hbase Hwf Hu B.
  apply well_formed_all in Hwf.
  assert (Hl0 : is_Some (store s !! l0)).
  { apply allocated_ref. by apply (Hwf _ _ Hbase). }
  assert (HB : store s !! l0 = Some B).
  { destruct Hl0 as [x Hx]. subst B. by rewrite (lookup_Some_total _ _ _ Hx). }
  unfold get_wf_thermal_conductivity_shared, get_wf_thermal_conductivity_with.
  cbv zeta. cbn [default from_option id].
  set (force := String.eqb mode "force").
  apply wp_bind.
  eapply (wp_mono _ _
    (λ r s1,
       match r with
       | Ok (fws, parent1) =>
           kept_except l0 (store s) (store s1) ∧
           store s1 !! l0 = Some (if optimize then uis_common ∪ B else B) ∧
           Forall (carries_shared mode B l0 (store s1)) fws
       | Raise e => False
       end)).
  { destruct optimize.
    - apply (wp_relax_shared base u l0 Hbase); [done|done|done|].
      intros vis s1 Hm Hk Hx Hown. apply wp_bind.
      apply wp_new_fw; apply wp_ret; cbn [store].
      split; [done|]. split; [done|]. apply Forall_singleton.
      by eapply (carries_shared_new _ _ _ (store s)).
    - apply wp_ret. split; [apply kept_refl|]. split; [done|]. constructor. }
  intros [[fws parent1]|e] s1 H1; [|done]. destruct H1 as (Hk1 & Hx1 & Hc1).
  assert (Hl1 : is_Some (store s1 !! l0)) by by rewrite Hx1.
  apply (wp_stage_shared base u l0 Hbase); [done|].
  intros s2 Hm2 Hk2 Hx2. rewrite (lookup_Some_total _ _ _ Hx1) in Hx2.
  assert (Hx2' : store s2 !! l0 = Some (uis_common ∪ B)).
  { rewrite Hx2. destruct optimize; [|done]. by rewrite union_common_twice. }
  clear Hx2.
  assert (Hl2 : is_Some (store s2 !! l0)) by by rewrite Hx2'.
  assert (Hk02 : kept_except l0 (store s) (store s2)) by by eapply kept_trans.
  assert (Had : all_allocated (store s2)
                  (if val_true (store s1) u
                   then <["user_kpoints_settings" := u]> (vis_args base)
                   else vis_args base)).
  { apply all_allocated_if_kpts.
    - by eapply kept_all_allocated.
    - by eapply kept_allocated. }
  assert (Hmo : ∀ o : gmap string pyval,
            o ∪ uis_common = mode_overrides mode →
            o ∪ (store s2 !!! l0) = mode_overrides mode ∪ B).
  { intros o <-. by rewrite (lookup_Some_total _ _ _ Hx2'), (assoc_L (∪)). }
  apply wp_bind. fold force.
  eapply (wp_mono _ _
    (λ r s3,
       kept_except l0 (store s) (store s3) ∧
       match r with
       | Ok (fws', parent2) =>
           (mode = "force" ∨ mode = "hessian") ∧
           store s3 !! l0 = Some (mode_overrides mode ∪ B) ∧
           Forall (carries_shared mode B l0 (store s3)) fws'
       | Raise e =>
           mode ≠ "force" ∧ mode ≠ "hessian" ∧ e = mode_error ∧
           store s3 !! l0 = Some (uis_common ∪ B)
       end)).
  { destruct force eqn:Hforce;
      [|destruct (String.eqb mode "hessian") eqn:Hhess].
    - eapply (wp_finish_shared l0); [done|exact Had|].
      intros vis s3 Hm3 Hk3 Hx3 Hown.
      assert (Ho : uis_force ∪ (store s2 !!! l0) = mode_overrides mode ∪ B).
      { apply Hmo. unfold mode_overrides. fold force. by rewrite Hforce. }
      rewrite Ho in Hx3, Hown.
      apply wp_bind, wp_new_fw. apply wp_bind, wp_new_fw.
      apply wp_ret. cbn [store].
      split; [by eapply kept_trans|].
      split; [left; by apply String.eqb_eq|]. split; [done|].
      rewrite !Forall_app, !Forall_singleton. split; [split|].
      + eapply Forall_impl; [exact Hc1|]. intros fw.
        apply carries_shared_kept. by eapply kept_trans.
      + by eapply (carries_shared_new _ _ _ (store s2)).
      + by apply carries_shared_plain.
    - eapply (wp_finish_shared l0); [done|exact Had|].
      intros vis s3 Hm3 Hk3 Hx3 Hown.
      assert (Ho : uis_hessian ∪ (store s2 !!! l0) = mode_overrides mode ∪ B).
      { apply Hmo. unfold mode_overrides. fold force. by rewrite Hforce. }
      rewrite Ho in Hx3, Hown.
      apply wp_bind, wp_new_fw. apply wp_ret. cbn [store].
      split; [by eapply kept_trans|].
      split; [right; by apply String.eqb_eq|]. split; [done|].
      rewrite !Forall_app, !Forall_singleton. split.
      + eapply Forall_impl; [exact Hc1|]. intros fw.
        apply carries_shared_kept. by eapply kept_trans.
      + by eapply (carries_shared_new _ _ _ (store s2)).
    - apply wp_raise. split; [done|].
      split; [by apply String.eqb_neq|].
      split; [by apply String.eqb_neq|done]. }
  intros [[fws' parent2]|e] s3 [Hk3 H3]; [|done].
  destruct H3 as (Hmode & Hx3 & Hc3).
  assert (Hl3 : is_Some (store s3 !! l0)) by by rewrite Hx3.
  apply (wp_stage_shared base u l0 Hbase); [done|].
  intros s4 Hm4 Hk4 Hx4. rewrite (lookup_Some_total _ _ _ Hx3) in Hx4.
  assert (Hl4 : is_Some (store s4 !! l0)) by by rewrite Hx4.
  assert (Hk04 : kept_except l0 (store s) (store s4)) by by eapply kept_trans.
  eapply (wp_finish_shared l0); [done| |].
  { apply all_allocated_if_kpts.
    - by eapply kept_all_allocated.
    - by eapply kept_allocated. }
  intros vis s6 Hm6 Hk6 Hx6 Hown.
  assert (Ho : uis_force ∪ (store s4 !!! l0)
               = (uis_force ∪ uis_common) ∪ (mode_overrides mode ∪ B)).
  { by rewrite (lookup_Some_total _ _ _ Hx4), (assoc_L (∪)). }
  rewrite Ho in Hx6, Hown.
  apply wp_bind, wp_new_fw. apply wp_bind, wp_new_fw. apply wp_ret.
  cbn [store wf_fws].
  split; [by eapply kept_trans|]. split; [done|]. split; [done|].
  rewrite !Forall_app, !Forall_singleton. split; [split|].
  - eapply Forall_impl; [exact Hc3|]. intros fw.
    apply carries_shared_kept. by eapply kept_trans.
  - eapply (carries_shared_new _ _ _ (store s4)); [done|done|exact Hown|].
    cbn [kind fw_body phase_shared]. by rewrite (assoc_L (∪)).
  - by apply carries_shared_plain.
Qed.

(** ** The units *)

Lemma shared_units_carry (structure : Structure) (base : InputSet)
    (mode vasp_cmd third_cmd : string) (db_file supercell cutoff_3rd : pyval)
    (u : val) (optimize : bool) (tag : string) (l0 : loc) s wf s' :
  get_wf_dispersion_shared structure (Some base) vasp_cmd db_file mode
    supercell u optimize tag s = (Ok wf, s') ∨
  get_wf_thermal_conductivity_shared structure (Some base) mode vasp_cmd
    third_cmd db_file supercell cutoff_3rd u optimize tag s = (Ok wf, s') →
  vis_args base !! "user_incar_settings" = Some (VRef l0) →
  well_formed s base = true →
  allocated (store s) u = true →
  Forall (carries_shared mode (store s !!! l0) l0 (store s')) (wf_fws wf).
Proof.
  intros [Hrun|Hrun] Hbase Hwf Hu.
  - pose proof (get_wf_dispersion_shared_spec structure base vasp_cmd db_file
      mode supercell u optimize tag l0 s Hbase Hwf Hu) as Hspec.
    apply wp_run in Hspec. destruct Hspec as (r & s1 & Hrun1 & _ & Hpost).
    rewrite Hrun in Hrun1. injection Hrun1 as <- <-. apply Hpost.
  - pose proof (get_wf_thermal_conductivity_shared_spec structure base mode
      vasp_cmd third_cmd db_file supercell cutoff_3rd u optimize tag l0 s
      Hbase Hwf Hu) as Hspec.
    apply wp_run in Hspec. destruct Hspec as (r & s1 & Hrun1 & _ & Hpost).
    rewrite Hrun in Hrun1. injection Hrun1 as <- <-. apply Hpost.
Qed.

Lemma user_incar_settings_at s vis l :
  vis_args vis !! "user_incar_settings" = Some (VRef l) →
  user_incar_settings s vis = store s !!! l.
Proof. intros Hl. unfold user_incar_settings. by rewrite Hl. Qed.

(** X12. When the serialiser hands out the base's own
    [user_incar_settings] mapping, every unit of a returned graph that
    runs VASP has, in a mapping of its own, the constants written so far
    merged over the base's settings: [EDIFF] alone for the optimisation
    unit, the mode's constants for the dispersion unit, and for the
    third-order unit the constants of mode "force" over those of the
    dispersion unit.  So in mode "hessian" the third-order unit runs
    with [IBRION = 2] and [NSW = 0], and with the [POTIM] of the
    dispersion unit. *)
Theorem shared_unit_user_incar_settings (structure : Structure)
    (base : InputSet) (mode vasp_cmd third_cmd : string)
    (db_file supercell cutoff_3rd : pyval) (user_kpoints_settings : val)
    (optimize_structure : bool) (tag : string) (l0 : loc) s wf s' :
  get_wf_dispersion_shared structure (Some base) vasp_cmd db_file mode
    supercell user_kpoints_settings optimize_structure tag s = (Ok wf, s') ∨
  get_wf_thermal_conductivity_shared structure (Some base) mode vasp_cmd
    third_cmd db_file supercell cutoff_3rd user_kpoints_settings
    optimize_structure tag s = (Ok wf, s') →
  vis_args base !! "user_incar_settings" = Some (VRef l0) →
  well_formed s base = true →
  allocated (store s) user_kpoints_settings = true →
  ∀ fw vis, fw ∈ wf_fws wf → input_set_of fw = Some vis →
    let uis := user_incar_settings s' vis in
    let base_uis := user_incar_settings s base in
    uis = phase_shared mode (kind fw) ∪ base_uis ∧
    (kind fw = Optimize →
       uis !! "EDIFF" = Some (PDec 1 (-8)) ∧
       ∀ k : string, k ≠ "EDIFF" → uis !! k = base_uis !! k) ∧
    (kind fw = ThirdOrder →
       uis !! "EDIFF" = Some (PDec 1 (-8)) ∧
       uis !! "IBRION" = Some (PInt 2) ∧ uis !! "ISMEAR" = Some (PInt 0) ∧
       uis !! "ISPIN" = Some (PInt 1) ∧ uis !! "NSW" = Some (PInt 0) ∧
       (mode = "hessian" → uis !! "POTIM" = Some (PDec 15 (-3))) ∧
       (mode = "force" → uis !! "POTIM" = base_uis !! "POTIM")).
Proof.
  intros Hrun Hbase Hwf Hu fw vis Hin Hfw.
  pose proof (shared_units_carry _ _ _ _ _ _ _ _ _ _ _ _ _ _ _ Hrun Hbase Hwf Hu)
    as Hall.
  rewrite Forall_forall in Hall.
  destruct (Hall fw Hin vis Hfw) as (l & Hl & _ & Hx).
  cbv zeta. rewrite (user_incar_settings_at s' vis l Hl).
  rewrite (lookup_Some_total _ _ _ Hx).
  rewrite (user_incar_settings_at s base l0 Hbase).
  split; [done|]. split.
  - intros ->. cbn [phase_shared]. split.
    + by apply lookup_union_Some_l.
    + intros k Hk. apply lookup_union_r. unfold uis_common.
      by rewrite lookup_singleton_ne.
  - intros ->. cbn [phase_shared].
    do 5 (split; [by do 2 apply lookup_union_Some_l|]). split.
    + intros ->. by apply lookup_union_Some_l.
    + intros ->. by apply lookup_union_r.
Qed.

Lemma shared_unit_user_incar_settings_witness :
  ∃ wf s',
    get_wf_thermal_conductivity_shared silicon (Some sample_set) "hessian"
      "vasp" "thirdorder_vasp.py" PNone (cubic 4) (PInt (-4))
      (VRef 2%positive) true "2017-09-13" sample_state = (Ok wf, s') ∧
    ∀ fw vis, fw ∈ wf_fws wf → input_set_of fw = Some vis →
      let uis := user_incar_settings s' vis in
      let base_uis := user_incar_settings sample_state sample_set in
      uis = phase_shared "hessian" (kind fw) ∪ base_uis ∧
      (kind fw = Optimize →
         uis !! "EDIFF" = Some (PDec 1 (-8)) ∧
         ∀ k : string, k ≠ "EDIFF" → uis !! k = base_uis !! k) ∧
      (kind fw = ThirdOrder →
         uis !! "EDIFF" = Some (PDec 1 (-8)) ∧
         uis !! "IBRION" = Some (PInt 2) ∧ uis !! "ISMEAR" = Some (PInt 0) ∧
         uis !! "ISPIN" = Some (PInt 1) ∧ uis !! "NSW" = Some (PInt 0) ∧
         ("hessian" = "hessian" → uis !! "POTIM" = Some (PDec 15 (-3))) ∧
         ("hessian" = "force" → uis !! "POTIM" = base_uis !! "POTIM")).
Proof.
  destruct (get_wf_thermal_conductivity_shared silicon (Some sample_set)
              "hessian" "vasp" "thirdorder_vasp.py" PNone (cubic 4)
              (PInt (-4)) (VRef 2%positive) true "2017-09-13" sample_state)
    as [[wf|e] s'] eqn:Hrun.
  - exists wf, s'. split; [reflexivity|].
    apply (shared_unit_user_incar_settings silicon sample_set "hessian" "vasp"
             "thirdorder_vasp.py" PNone (cubic 4) (PInt (-4))
             (VRef 2%positive) true "2017-09-13" 1%positive sample_state wf s').
    + right. exact Hrun.
    + reflexivity.
    + reflexivity.
    + reflexivity.
  - exfalso. vm_compute in Hrun. discriminate Hrun.
Defined.

(** X16. When the serialiser hands out the base's own
    [user_incar_settings] mapping, that mapping is the only one from
    before the call that an assembler writes to, whether it returns or
    raises: every other mapping is afterwards what it was, and so is
    the caller's [user_kpoints_settings] when it is another mapping. *)
Theorem only_base_settings_written (structure : Structure) (base : InputSet)
    (mode vasp_cmd third_cmd : string) (db_file supercell cutoff_3rd : pyval)
    (user_kpoints_settings : val) (optimize_structure : bool) (tag : string)
    (l0 : loc) s :
  vis_args base !! "user_incar_settings" = Some (VRef l0) →
  well_formed s base = true →
  allocated (store s) user_kpoints_settings = true →
  let after_dispersion :=
    (get_wf_dispersion_shared structure (Some base) vasp_cmd db_file mode
       supercell user_kpoints_settings optimize_structure tag s).2 in
  let after_conductivity :=
    (get_wf_thermal_conductivity_shared structure (Some base) mode vasp_cmd
       third_cmd db_file supercell cutoff_3rd user_kpoints_settings
       optimize_structure tag s).2 in
  ∀ s', s' = after_dispersion ∨ s' = after_conductivity →
    (∀ l m, l ≠ l0 → store s !! l = Some m → store s' !! l = Some m) ∧
    (user_kpoints_settings ≠ VRef l0 →
     content (store s') user_kpoints_settings
       = content (store s) user_kpoints_settings).
Proof.
  intros Hbase Hwf Hu after_dispersion after_conductivity s' Hs'.
  assert (Hk : kept_except l0 (store s) (store s')).
  { destruct Hs' as [-> | ->].
    - pose proof (get_wf_dispersion_shared_spec structure base vasp_cmd
        db_file mode supercell user_kpoints_settings optimize_structure tag
        l0 s Hbase Hwf Hu) as Hspec.
      apply wp_run in Hspec. destruct Hspec as (r & s1 & Hrun & Hk & _).
      subst after_dispersion. by rewrite Hrun.
    - pose proof (get_wf_thermal_conductivity_shared_spec structure base
        mode vasp_cmd third_cmd db_file supercell cutoff_3rd
        user_kpoints_settings optimize_structure tag l0 s Hbase Hwf Hu)
        as Hspec.
      apply wp_run in Hspec. destruct Hspec as (r & s1 & Hrun & Hk & _).
      subst after_conductivity. by rewrite Hrun. }
  split.
  - intros l m Hne Hl. by eapply kept_lookup.
  - intros Hne. destruct user_kpoints_settings as [p|l]; [done|].
    apply allocated_ref in Hu as [m Hm]. cbn. f_equal.
    rewrite (lookup_Some_total _ _ _ Hm).
    apply lookup_Some_total. eapply kept_lookup; [exact Hk| |exact Hm].
    congruence.
Qed.

Lemma only_base_settings_written_witness :
  let s' :=
    (get_wf_thermal_conductivity_shared silicon (Some sample_set) "force"
       "vasp" "thirdorder_vasp.py" PNone (cubic 4) (PInt (-4))
       (VRef 2%positive) true "2017-09-13" sample_state).2 in
  (∀ l m, l ≠ 1%positive → store sample_state !! l = Some m →
          store s' !! l = Some m) ∧
  (VRef 2%positive ≠ VRef 1%positive →
   content (store s') (VRef 2%positive)
     = content (store sample_state) (VRef 2%positive)).
Proof.
  intros s'.
  apply (only_base_settings_written silicon sample_set "force" "vasp"
           "thirdorder_vasp.py" PNone (cubic 4) (PInt (-4)) (VRef 2%positive)
           true "2017-09-13" 1%positive sample_state).
  - reflexivity.
  - reflexivity.
  - reflexivity.
  - right. reflexivity.
Defined.

(** C4 fails in the code.  The assemblers update in place the mapping
    they find under [user_incar_settings] of the serialised form, and
    when the serialiser hands out the base's own mapping, the base is
    what they update: after a call that returns, the base holds the
    mode's constants (and those of mode "force" after
    [get_wf_thermal_conductivity]) merged over its settings; after a
    call that raises for its mode, it holds [EDIFF = 1e-08] already.
    Unless the base had [EDIFF = 1e-08] before, its serialised form is
    another one after the call. *)
Theorem base_settings_overwritten (structure : Structure) (base : InputSet)
    (mode vasp_cmd third_cmd : string) (db_file supercell cutoff_3rd : pyval)
    (user_kpoints_settings : val) (optimize_structure : bool) (tag : string)
    (l0 : loc) s :
  vis_args base !! "user_incar_settings" = Some (VRef l0) →
  well_formed s base = true →
  allocated (store s) user_kpoints_settings = true →
  let B := user_incar_settings s base in
  let dispersion :=
    get_wf_dispersion_shared structure (Some base) vasp_cmd db_file mode
      supercell user_kpoints_settings optimize_structure tag s in
  let conductivity :=
    get_wf_thermal_conductivity_shared structure (Some base) mode vasp_cmd
      third_cmd db_file supercell cutoff_3rd user_kpoints_settings
      optimize_structure tag s in
  user_incar_settings dispersion.2 base
    = (if is_ok dispersion.1 then mode_overrides mode ∪ B
       else uis_common ∪ B) ∧
  user_incar_settings conductivity.2 base
    = (if is_ok conductivity.1
       then (uis_force ∪ uis_common) ∪ (mode_overrides mode ∪ B)
       else uis_common ∪ B) ∧
  (B !! "EDIFF" ≠ Some (PDec 1 (-8)) →
   serialized dispersion.2 base ≠ serialized s base ∧
   serialized conductivity.2 base ≠ serialized s base).
Proof.
  intros Hbase Hwf Hu B dispersion conductivity.
  assert (HB : B = store s !!! l0) by by apply user_incar_settings_at.
  assert (Hmo : mode_overrides mode !! "EDIFF" = Some (PDec 1 (-8))).
  { unfold mode_overrides. by destruct (String.eqb mode "force"). }
  assert (Hd : user_incar_settings dispersion.2 base
               = (if is_ok dispersion.1 then mode_overrides mode ∪ B
                  else uis_common ∪ B)).
  { pose proof (get_wf_dispersion_shared_spec structure base vasp_cmd
      db_file mode supercell user_kpoints_settings optimize_structure tag
      l0 s Hbase Hwf Hu) as Hspec.
    apply wp_run in Hspec. destruct Hspec as (r & s1 & Hrun & _ & Hpost).
    subst dispersion. rewrite Hrun. cbn [fst snd].
    rewrite (user_incar_settings_at s1 base l0 Hbase), HB.
    destruct r as [wf|e]; cbn [is_ok].
    - destruct Hpost as (_ & Hx & _). by apply lookup_Some_total.
    - destruct Hpost as (_ & _ & _ & Hx). by apply lookup_Some_total. }
  assert (Hc : user_incar_settings conductivity.2 base
               = (if is_ok conductivity.1
                  then (uis_force ∪ uis_common) ∪ (mode_overrides mode ∪ B)
                  else uis_common ∪ B)).
  { pose proof (get_wf_thermal_conductivity_shared_spec structure base
      mode vasp_cmd third_cmd db_file supercell cutoff_3rd
      user_kpoints_settings optimize_structure tag l0 s Hbase Hwf Hu)
      as Hspec.
    apply wp_run in Hspec. destruct Hspec as (r & s1 & Hrun & _ & Hpost).
    subst conductivity. rewrite Hrun. cbn [fst snd].
    rewrite (user_incar_settings_at s1 base l0 Hbase), HB.
    destruct r as [wf|e]; cbn [is_ok].
    - destruct Hpost as (_ & Hx & _). by apply lookup_Some_total.
    - destruct Hpost as (_ & _ & _ & Hx). by apply lookup_Some_total. }
  split; [exact Hd|]. split; [exact Hc|].
  intros HE.
  assert (Hser : ∀ s1, serialized s1 base = serialized s base →
                       user_incar_settings s1 base = B).
  { intros s1 E.
    apply (f_equal (λ m, m !! "user_incar_settings")) in E.
    rewrite !(user_incar_settings_serialized _ base l0 Hbase) in E.
    by injection E. }
  split.
  - intros E. apply Hser in E. rewrite Hd in E. apply HE.
    rewrite <- E at 1. destruct (is_ok dispersion.1);
      by apply lookup_union_Some_l.
  - intros E. apply Hser in E. rewrite Hc in E. apply HE.
    rewrite <- E at 1. destruct (is_ok conductivity.1);
      by apply lookup_union_Some_l.
Qed.

Lemma base_settings_overwritten_witness :
  let before : gmap string pyval :=
    {[ "EDIFF" := PDec 1 (-4); "ENCUT" := PInt 520 ]} in
  let after : gmap string pyval :=
    {[ "EDIFF" := PDec 1 (-8); "ENCUT" := PInt 520; "IBRION" := PInt 2;
       "ISMEAR" := PInt 0; "ISPIN" := PInt 1; "NSW" := PInt 0 ]} in
  let dispersion :=
    get_wf_dispersion_shared silicon (Some sample_set) "vasp" PNone "force"
      (cubic 3) (VRef 2%positive) false "2017-09-13" sample_state in
  let conductivity :=
    get_wf_thermal_conductivity_shared silicon (Some sample_set) "force"
      "vasp" "thirdorder_vasp.py" PNone (cubic 3) (PInt (-4))
      (VRef 2%positive) false "2017-09-13" sample_state in
  let invalid :=
    get_wf_dispersion_shared silicon (Some sample_set) "vasp" PNone "bogus"
      (cubic 3) (VRef 2%positive) false "2017-09-13" sample_state in
  user_incar_settings sample_state sample_set = before ∧
  user_incar_settings dispersion.2 sample_set = after ∧
  user_incar_settings conductivity.2 sample_set = after ∧
  serialized dispersion.2 sample_set ≠ serialized sample_state sample_set ∧
  serialized conductivity.2 sample_set ≠ serialized sample_state sample_set ∧
  invalid.1 = Raise mode_error ∧
  user_incar_settings invalid.2 sample_set
    = {[ "EDIFF" := PDec 1 (-8); "ENCUT" := PInt 520 ]}.
Proof.
  intros before after dispersion conductivity invalid.
  subst before after dispersion conductivity invalid.
  pose proof (base_settings_overwritten silicon sample_set "force" "vasp"
                "thirdorder_vasp.py" PNone (cubic 3) (PInt (-4))
                (VRef 2%positive) false "2017-09-13" 1%positive sample_state
                eq_refl eq_refl eq_refl) as (Hd & Hc & Hne).
  pose proof (base_settings_overwritten silicon sample_set "bogus" "vasp"
                "thirdorder_vasp.py" PNone (cubic 3) (PInt (-4))
                (VRef 2%positive) false "2017-09-13" 1%positive sample_state
                eq_refl eq_refl eq_refl) as (Hi & _ & _).
  split; [reflexivity|].
  split; [rewrite Hd; vm_compute; reflexivity|].
  split; [rewrite Hc; vm_compute; reflexivity|].
  split; [apply Hne; vm_compute; discriminate|].
  split; [apply Hne; vm_compute; discriminate|].
  split; [vm_compute; reflexivity|].
  rewrite Hi. vm_compute. reflexivity.
Defined.

End SharedSerialiser.
